(** * wifi-performance-tracker: the live monitoring core

    A shallow embedding of the backend's monitoring service
    ([modules/ping_service.py]), its persistence layer
    ([modules/database.py], [modules/crud.py]), its WebSocket router
    ([api/routers/websocket.py]), its REST router
    ([api/routers/ping_metrics.py]) and its start-up and shutdown
    ([api/main.py]).

    The Python code mutates three process-wide singletons ([ping_monitor],
    [websocket_manager], [db_manager]), writes to a logger and pushes frames
    on sockets.  All of that is gathered in one [World] record, and every
    method is a computation in a state-and-exception monad over it.  What the
    outside does (the ICMP library, the database server, the peers of the
    sockets) is an [Env] of oracles over which every theorem quantifies. *)

From Stdlib Require Import QArith Qround.
From Stdlib Require DecimalString DecimalNat.
From stdpp Require Import base gmap sets list strings pretty sorting.

Local Open Scope Z_scope.
Set Warnings "-clear-no-such-hyp".

(* ================================================================== *)
(** * Data model *)
(* ================================================================== *)

(** [datetime] values, as microseconds since the epoch (UTC).  The dicts
    built by the prober carry [datetime.utcnow().isoformat()]; the instant is
    kept and its ISO rendering left implicit. *)
Definition datetime := Z.

(** Durations in microseconds: what [timedelta(minutes=m)] and
    [timedelta(hours=h)] hold for whole [m] and [h] when they can be built
    (see [timedelta] below). *)
Definition timedelta_minutes (m : Z) : Z := m * 60000000.
Definition timedelta_hours (h : Z) : Z := h * 3600000000.

(** The dict returned by [PingMonitor.ping_host]: always the same five keys. *)
Record measurement := Measurement {
  host : string;
  response_time_ms : option Q;
  packet_loss : bool;
  error_message : option string;
  timestamp : datetime
}.

(** [PingMetricCreate] (pydantic model of database.py). *)
Record PingMetricCreate := {
  pmc_target_host : string;
  pmc_response_time_ms : option Q;
  pmc_packet_loss : bool;
  pmc_error_message : option string
}.

(** One row of the [ping_metrics] table. *)
Record PingMetricRow := {
  row_id : Z;
  row_timestamp : datetime;
  row_target_host : string;
  row_response_time_ms : option Q;
  row_packet_loss : bool;
  row_error_message : option string;
  row_created_at : datetime
}.

(** The row fetched by the aggregate query of
    [PingMetricsCRUD.get_host_summary], column by column. *)
Record summary_row := {
  total_pings : Z;
  avg_response_time : option Q;
  min_response_time : option Q;
  max_response_time : option Q;
  median_response_time : option Q;
  p95_response_time : option Q;
  packet_losses : Z;
  packet_loss_rate : Q;
  first_ping : option datetime;
  last_ping : option datetime
}.

(** The dict returned by [get_host_summary]: the row's columns when a row
    came back ([dict(row)]), and the keys set afterwards.  Without a row the
    dict has ["total_pings": 0] and no other column. *)
Record host_summary := {
  columns : option summary_row;
  summary_host : string;
  hours_analyzed : Q;
  minutes_analyzed : Z;
  uptime_percentage : Q
}.

Definition summary_total_pings (s : host_summary) : Z :=
  match columns s with
  | Some row => total_pings row
  | None => 0
  end.

(** The broadcast payload [data : dict] of [broadcast_to_websockets], with
    the four keys the method reads or writes; [None] is an absent key. *)
Record envelope := Envelope {
  e_type : option string;
  e_result : option measurement;
  e_results : option (list measurement);
  e_timestamp : option datetime
}.

(** A decoded JSON value of an inbound message ([json.loads]); its numbers
    are taken to be integers. *)
#[warnings="-register-all"] Inductive json :=
  | JNull
  | JBool (b : bool)
  | JNum (z : Z)
  | JStr (s : string)
  | JArr (l : list json)
  | JObj (l : list (string * json)).

(** Python truthiness ([if host:]). *)
Definition truthy (v : json) : bool :=
  match v with
  | JNull => false
  | JBool b => b
  | JNum z => negb (z =? 0)
  | JStr s => negb (String.eqb s "")
  | JArr l => match l with [] => false | _ => true end
  | JObj l => match l with [] => false | _ => true end
  end.

(** [message.get(key)] on the decoded object. *)
Definition msg_get (message : gmap string json) (key : string) : json :=
  default JNull (message !! key).

(** Exceptions: class name and [str(e)]. *)
Record exn := Exn { exn_class : string; exn_str : string }.

(** [timedelta(...)] for a duration of that many microseconds: it is
    normalised to days, seconds and microseconds, and refused with an
    [OverflowError] when the days do not fit, beyond 999999999 in magnitude
    or beyond a C int. *)
Definition timedelta (microseconds : Z) : exn + Z :=
  let days := microseconds `div` 86400000000 in
  if (-999999999 <=? days) && (days <=? 999999999) then inr microseconds
  else if (-2147483648 <=? days) && (days <=? 2147483647) then
    inl (Exn "OverflowError"
           ("days=" +:+ pretty days +:+ "; must have magnitude <= 999999999"))
  else inl (Exn "OverflowError" "Python int too large to convert to C int").

(** [datetime.min] and [datetime.max]: the first microsecond of year 1 and
    the last of year 9999. *)
Definition datetime_min : datetime := -62135596800000000.
Definition datetime_max : datetime := 253402300799999999.

(** [t - delta] on a [datetime]. *)
Definition datetime_sub (t : datetime) (delta : Z) : exn + datetime :=
  if (datetime_min <=? t - delta) && (t - delta <=? datetime_max) then inr (t - delta)
  else inl (Exn "OverflowError" "date value out of range").

(** [now - timedelta(...)], given what the [timedelta] call came to. *)
Definition since (now : datetime) (delta : exn + Z) : exn + datetime :=
  match delta with
  | inl e => inl e
  | inr d => datetime_sub now d
  end.

(** A number handed to [timedelta(hours=...)]: an [int], or a [float],
    named by the rational it stands for. *)
Inductive number := Int (n : Z) | Float (x : Q).

(** An f-string: literal pieces and interpolated values. *)
Inductive fpart := Lit (s : string) | Val (v : json).

(** Outbound replies of the command handler, tagged by their ["type"]. *)
Inductive reply :=
  | pong (timestamp_ : option measurement)  (* [None]: the default, "unknown" *)
  | status_response (monitoring_active : bool) (target_hosts_ : list string)
      (ping_interval_ : Z) (latest_results_ : gmap string measurement)
  | latest_metrics_response (metrics : gmap string PingMetricRow)
  | subscription_confirmed (host_ : json) (message_ : list fpart)
  | host_summary_response (host_ : json) (summary : host_summary)
  | error (message_ : list fpart).

(** Whatever is handed to [websocket.send_json]. *)
Inductive frame :=
  | Broadcast (data : envelope)
  | Reply (r : reply).

(** A WebSocket object: its identity and its [path] attribute when it has
    one ([getattr(client, 'path', ...)]). *)
Record WebSocket := { ws_id : nat; ws_path : option string }.

#[global] Instance WebSocket_eq_dec : EqDecision WebSocket.
Proof. solve_decision. Defined.

#[global] Instance WebSocket_countable : Countable WebSocket.
Proof.
  refine (inj_countable' (λ c, (ws_id c, ws_path c))
                         (λ p, {| ws_id := p.1; ws_path := p.2 |}) _).
  by intros [].
Defined.

(** [PingMonitor]: the fields set by [__init__]. *)
Record PingMonitor := {
  is_running : bool;
  ping_interval : Z;
  target_hosts : list string;
  websocket_clients : gset WebSocket;
  latest_results : gmap string measurement
}.

(** [WebSocketManager]: [active_connections] is a dict in insertion order. *)
Record WebSocketManager := {
  active_connections : list (string * WebSocket);
  connection_counter : nat
}.

(** [DatabaseManager] and the table behind it. *)
Record DatabaseManager := {
  pool : bool;
  ping_metrics : list PingMetricRow;
  next_id : Z
}.

Inductive level := DEBUG | INFO | WARNING | ERROR.

(** One [send_json] call: the socket, the frame and whether it went through. *)
Record attempt := Attempt {
  to : WebSocket;
  payload : frame;
  delivered : bool
}.

(** The three singletons, the clock, and what was sent and logged.  The
    clock is what [datetime.utcnow()] reads; it is moved by [asyncio.sleep]
    alone, the time that probes, statements and sends take being left out. *)
Record World := {
  ping_monitor : PingMonitor;
  websocket_manager : WebSocketManager;
  db_manager : DatabaseManager;
  clock : datetime;
  wire : list attempt;
  logs : list (level * string)
}.

(** The statements sent to the server. *)
Inductive statement :=
  | InsertMetric (metric : PingMetricCreate)
  | SelectHostSummary (host_ : string) (since_time : datetime)
  | SelectLatestByHost.

(** What a call into a library may hand back: [None], a float, a bool, or
    an object of some other type. *)
Inductive py_value :=
  | PyNone
  | PyFloat (x : Q)
  | PyBool (b : bool)
  | PyObject (type_name : string).

(** What the outside world does. *)
Record Env := {
  (** [ping3.ping(host, timeout=timeout, unit='ms')]: the value it returns
      or the exception it raises. *)
  ping : datetime → string → Z → exn + py_value;
  (** the failure of the server on a statement, if it fails *)
  db_fault : DatabaseManager → statement → option exn;
  (** the failure of [send_json] on that socket, if it fails *)
  send_fault : WebSocket → frame → option exn
}.

(* ================================================================== *)
(** * The state-and-exception monad *)
(* ================================================================== *)

(** A raised exception keeps the state reached so far: Python does not roll
    back mutations. *)
Inductive outcome (A : Type) :=
  | Ok (a : A) (w : World)
  | Raise (e : exn) (w : World).
Arguments Ok {A} a w.
Arguments Raise {A} e w.

Definition M (A : Type) : Type := World → outcome A.

#[global] Instance M_ret : MRet M := λ A a w, Ok a w.
#[global] Instance M_bind : MBind M := λ A B f m w,
  match m w with
  | Ok a w' => f a w'
  | Raise e w' => Raise e w'
  end.

Definition raise {A} (e : exn) : M A := λ w, Raise e w.

(** [try: body / except Exception as e: handler e]. *)
Definition try_except {A} (body : M A) (handler : exn → M A) : M A := λ w,
  match body w with
  | Ok a w' => Ok a w'
  | Raise e w' => handler e w'
  end.

(** A pure call that returns or raises. *)
Definition eval {A} (r : exn + A) : M A :=
  match r with
  | inl e => raise e
  | inr a => mret a
  end.

Definition gets {A} (f : World → A) : M A := λ w, Ok (f w) w.
Definition modify (f : World → World) : M unit := λ w, Ok tt (f w).

(** [for x in xs: body x]. *)
Fixpoint for_each {A} (xs : list A) (body : A → M unit) : M unit :=
  match xs with
  | [] => mret tt
  | x :: xs' => body x ;; for_each xs' body
  end.

(** The world an outcome ends in. *)
Definition final {A} (o : outcome A) : World :=
  match o with Ok _ w => w | Raise _ w => w end.

(** ** Field updates *)

Definition set_monitor (f : PingMonitor → PingMonitor) (w : World) : World :=
  {| ping_monitor := f (ping_monitor w);
     websocket_manager := websocket_manager w;
     db_manager := db_manager w;
     clock := clock w; wire := wire w; logs := logs w |}.

Definition set_manager (f : WebSocketManager → WebSocketManager) (w : World) : World :=
  {| ping_monitor := ping_monitor w;
     websocket_manager := f (websocket_manager w);
     db_manager := db_manager w;
     clock := clock w; wire := wire w; logs := logs w |}.

Definition set_db (f : DatabaseManager → DatabaseManager) (w : World) : World :=
  {| ping_monitor := ping_monitor w;
     websocket_manager := websocket_manager w;
     db_manager := f (db_manager w);
     clock := clock w; wire := wire w; logs := logs w |}.

Definition set_clock (t : datetime) (w : World) : World :=
  {| ping_monitor := ping_monitor w;
     websocket_manager := websocket_manager w;
     db_manager := db_manager w;
     clock := t; wire := wire w; logs := logs w |}.

Definition push_wire (a : attempt) (w : World) : World :=
  {| ping_monitor := ping_monitor w;
     websocket_manager := websocket_manager w;
     db_manager := db_manager w;
     clock := clock w; wire := wire w ++ [a]; logs := logs w |}.

Definition push_log (l : level) (s : string) (w : World) : World :=
  {| ping_monitor := ping_monitor w;
     websocket_manager := websocket_manager w;
     db_manager := db_manager w;
     clock := clock w; wire := wire w; logs := logs w ++ [(l, s)] |}.

Definition with_is_running (b : bool) (m : PingMonitor) : PingMonitor :=
  {| is_running := b; ping_interval := ping_interval m;
     target_hosts := target_hosts m;
     websocket_clients := websocket_clients m;
     latest_results := latest_results m |}.

Definition with_target_hosts (l : list string) (m : PingMonitor) : PingMonitor :=
  {| is_running := is_running m; ping_interval := ping_interval m;
     target_hosts := l;
     websocket_clients := websocket_clients m;
     latest_results := latest_results m |}.

Definition with_websocket_clients (s : gset WebSocket) (m : PingMonitor) : PingMonitor :=
  {| is_running := is_running m; ping_interval := ping_interval m;
     target_hosts := target_hosts m;
     websocket_clients := s;
     latest_results := latest_results m |}.

Definition with_latest_results (r : gmap string measurement) (m : PingMonitor) : PingMonitor :=
  {| is_running := is_running m; ping_interval := ping_interval m;
     target_hosts := target_hosts m;
     websocket_clients := websocket_clients m;
     latest_results := r |}.

Definition logger (l : level) (s : string) : M unit := modify (push_log l s).

(** Shorthands for the singletons' fields. *)
Definition hosts_of (w : World) : list string := target_hosts (ping_monitor w).
Definition cache_of (w : World) : gmap string measurement :=
  latest_results (ping_monitor w).
Definition clients_of (w : World) : gset WebSocket :=
  websocket_clients (ping_monitor w).

(* ================================================================== *)
(** * ping_service.py: the target registry *)
(* ================================================================== *)

(** [list.remove(x)]: drops the first occurrence; [None] is the
    [ValueError] Python raises when there is none. *)
Fixpoint list_remove (x : string) (l : list string) : option (list string) :=
  match l with
  | [] => None
  | y :: l' =>
      if decide (x = y) then Some l'
      else cons y <$> list_remove x l'
  end.

(** [PingMonitor.__init__], with the value read from [PING_INTERVAL]. *)
Definition PingMonitor_init (interval : Z) : PingMonitor :=
  {| is_running := false;
     ping_interval := interval;
     target_hosts :=
       ["8.8.8.8"; "1.1.1.1"; "208.67.222.222"; "google.com"; "github.com"]%string;
     websocket_clients := ∅;
     latest_results := ∅ |}.

(** [PingMonitor.add_target_host] *)
Definition add_target_host (host : string) : M unit :=
  hosts ← gets hosts_of;
  if decide (host ∈ hosts) then mret tt
  else
    modify (set_monitor (with_target_hosts (hosts ++ [host]))) ;;
    logger INFO ("Added new target host: " +:+ host).

(** [PingMonitor.remove_target_host] *)
Definition remove_target_host (host : string) : M unit :=
  hosts ← gets hosts_of;
  if decide (host ∈ hosts) then
    match list_remove host hosts with
    | None => raise (Exn "ValueError" "list.remove(x): x not in list")
    | Some hosts' =>
        modify (set_monitor (with_target_hosts hosts')) ;;
        cache ← gets cache_of;
        (if decide (host ∈ dom cache)
         then modify (set_monitor (with_latest_results (delete host cache)))
         else mret tt) ;;
        logger INFO ("Removed target host: " +:+ host)
    end
  else mret tt.

(** [PingMonitor.get_target_hosts] and [get_latest_results]: copies. *)
Definition get_target_hosts : M (list string) := gets hosts_of.
Definition get_latest_results : M (gmap string measurement) := gets cache_of.

(* ================================================================== *)
(** * Helpers standing for Python and SQL built-ins *)
(* ================================================================== *)

(** [sub in s] on strings. *)
Fixpoint contains (sub s : string) : bool :=
  String.prefix sub s ||
  match s with
  | EmptyString => false
  | String _ s' => contains sub s'
  end.

(** [round(x, 2)]: to the nearest hundredth, ties to even. *)
Definition round_half_even (q : Q) : Z :=
  let n := Qnum q in
  let d := Z.pos (Qden q) in
  let f := n / d in
  match (2 * (n mod d) ?= d) with
  | Lt => f
  | Gt => f + 1
  | Eq => if Z.even f then f else f + 1
  end.

Definition round2 (q : Q) : Q := round_half_even (q * 100) # 100.

(** [round(v, 2)] on whatever came back: a float is rounded, a bool is the
    int it stands for, anything else has no [__round__]. *)
Definition py_round2 (v : py_value) : exn + Q :=
  match v with
  | PyFloat x => inr (round2 x)
  | PyBool b => inr (if b then 1 else 0)%Q
  | PyNone => inl (Exn "TypeError" "type NoneType doesn't define __round__ method")
  | PyObject t => inl (Exn "TypeError" ("type " +:+ t +:+ " doesn't define __round__ method"))
  end.

(** SQL aggregates over the non-null values of a column. *)
Definition Qsum (l : list Q) : Q := foldr Qplus 0%Q l.

Definition sql_avg (l : list Q) : option Q :=
  match l with
  | [] => None
  | _ => Some (Qsum l / inject_Z (Z.of_nat (length l)))%Q
  end.

Definition Qmin' (a b : Q) : Q := if Qle_bool a b then a else b.
Definition Qmax' (a b : Q) : Q := if Qle_bool a b then b else a.

Definition sql_min (l : list Q) : option Q :=
  match l with [] => None | x :: l' => Some (foldr Qmin' x l') end.
Definition sql_max (l : list Q) : option Q :=
  match l with [] => None | x :: l' => Some (foldr Qmax' x l') end.

Definition sql_min_ts (l : list datetime) : option datetime :=
  match l with [] => None | x :: l' => Some (foldr Z.min x l') end.
Definition sql_max_ts (l : list datetime) : option datetime :=
  match l with [] => None | x :: l' => Some (foldr Z.max x l') end.

Fixpoint Qinsert (x : Q) (l : list Q) : list Q :=
  match l with
  | [] => [x]
  | y :: l' => if Qle_bool x y then x :: l else y :: Qinsert x l'
  end.
Definition Qsort (l : list Q) : list Q := foldr Qinsert [] l.

(** [PERCENTILE_CONT(f) WITHIN GROUP (ORDER BY x)]: linear interpolation
    between the two closest ranks. *)
Definition percentile_cont (f : Q) (l : list Q) : option Q :=
  match Qsort l with
  | [] => None
  | (x :: _) as sorted =>
      let rn := (f * inject_Z (Z.of_nat (length sorted) - 1))%Q in
      let lo := Qfloor rn in
      let hi := Qceiling rn in
      let vlo := nth (Z.to_nat lo) sorted x in
      let vhi := nth (Z.to_nat hi) sorted x in
      Some (vlo + (rn - inject_Z lo) * (vhi - vlo))%Q
  end.

(* ================================================================== *)
(** * The services, over an environment *)
(* ================================================================== *)

Section Services.
Context (env : Env).

Definition utcnow : M datetime := gets clock.

(** [asyncio.sleep(seconds)]: with a delay of zero or less it returns at
    once. *)
Definition sleep (seconds : Z) : M unit :=
  modify (λ w, set_clock (clock w + Z.max 0 seconds * 1000000) w).

(** [websocket.send_json(f)]: every call is recorded on the wire. *)
Definition send_json (ws : WebSocket) (f : frame) : M unit := λ w,
  match send_fault env ws f with
  | None => Ok tt (push_wire (Attempt ws f true) w)
  | Some e => Raise e (push_wire (Attempt ws f false) w)
  end.

(** ** database.py *)

(** [DatabaseManager.get_connection] *)
Definition get_connection : M unit := λ w,
  if pool (db_manager w) then Ok tt w
  else Raise (Exn "RuntimeError" "Database pool not initialized") w.

Definition execute (st : statement) : M unit := λ w,
  match db_fault env (db_manager w) st with
  | None => Ok tt w
  | Some e => Raise e w
  end.

(** [DatabaseManager.insert_ping_metric] *)
Definition insert_ping_metric (metric : PingMetricCreate) : M Z :=
  now ← utcnow;
  get_connection ;;
  execute (InsertMetric metric) ;;
  result ← gets (next_id ∘ db_manager);
  modify (set_db (λ d,
    {| pool := pool d;
       ping_metrics := ping_metrics d ++
         [{| row_id := result; row_timestamp := now;
             row_target_host := pmc_target_host metric;
             row_response_time_ms := pmc_response_time_ms metric;
             row_packet_loss := pmc_packet_loss metric;
             row_error_message := pmc_error_message metric;
             row_created_at := now |}];
       next_id := result + 1 |})) ;;
  mret result.

(** ** ping_service.py: subscribers *)

(** [PingMonitor.add_websocket_client] *)
Definition add_websocket_client (websocket : WebSocket) : M unit :=
  modify (set_monitor (λ m,
    with_websocket_clients ({[websocket]} ∪ websocket_clients m) m)) ;;
  clients ← gets clients_of;
  logger INFO ("WebSocket client added. Total clients: " +:+ pretty (size clients)).

(** [set.discard] on [self.websocket_clients] *)
Definition discard_client (websocket : WebSocket) : M unit :=
  modify (set_monitor (λ m,
    with_websocket_clients (websocket_clients m ∖ {[websocket]}) m)).

(** [PingMonitor.remove_websocket_client] *)
Definition remove_websocket_client (websocket : WebSocket) : M unit :=
  discard_client websocket ;;
  clients ← gets clients_of;
  logger INFO ("WebSocket client removed. Total clients: " +:+ pretty (size clients)).

Definition DNS_HOSTS : list string :=
  ["8.8.8.8"; "1.1.1.1"; "208.67.222.222"]%string.

Definition is_dns_host (r : measurement) : bool :=
  bool_decide (host r ∈ DNS_HOSTS).

(** Lines 46-69 of [broadcast_to_websockets]: the payload that will be sent
    and the [is_dns_update] flag.  A result dict has five keys, so it is
    truthy whenever it is there; a list is truthy when it is not empty. *)
Definition route (data : envelope) : envelope * bool :=
  if bool_decide (e_type data = Some "ping_result"%string)
     && bool_decide (is_Some (e_result data)) then
    match e_result data with
    | Some result =>
        if is_dns_host result then
          ({| e_type := Some "dns_status_update"%string;
              e_result := Some result;
              e_results := None;
              e_timestamp := None |}, true)
        else (data, false)
    | None => (data, false)
    end
  else if bool_decide (e_type data = Some "ping_update"%string)
          && bool_decide (default [] (e_results data) ≠ []) then
    let dns_results := List.filter is_dns_host (default [] (e_results data)) in
    if bool_decide (dns_results ≠ []) then
      ({| e_type := Some "dns_status_update"%string;
          e_result := None;
          e_results := Some dns_results;
          e_timestamp := e_timestamp data |}, true)
    else (data, false)
  else (data, false).

Definition client_path (client : WebSocket) : string :=
  default "/api/ws/ping-status"%string (ws_path client).

(** The body of the [try] inside the loop over the clients. *)
Definition deliver (data : envelope) (is_dns_update : bool) (client : WebSocket) : M unit :=
  if is_dns_update && contains "/api/ws/dns-status" (client_path client) then
    send_json client (Broadcast data)
  else if negb is_dns_update && contains "/api/ws/ping-status" (client_path client) then
    send_json client (Broadcast data)
  else mret tt.

(** [for client in self.websocket_clients.copy(): try: ... except ...],
    threading the local [clients_to_remove]. *)
Fixpoint broadcast_loop (clients : list WebSocket) (data : envelope)
    (is_dns_update : bool) (clients_to_remove : gset WebSocket) : M (gset WebSocket) :=
  match clients with
  | [] => mret clients_to_remove
  | client :: rest =>
      clients_to_remove ←
        try_except
          (deliver data is_dns_update client ;; mret clients_to_remove)
          (λ e,
            logger WARNING ("Failed to send data to WebSocket client: " +:+ exn_str e) ;;
            mret ({[client]} ∪ clients_to_remove));
      broadcast_loop rest data is_dns_update clients_to_remove
  end.

(** [PingMonitor.broadcast_to_websockets] *)
Definition broadcast_to_websockets (data : envelope) : M unit :=
  clients ← gets clients_of;
  if decide (clients = ∅) then mret tt
  else
    let '(data, is_dns_update) := route data in
    copy ← gets clients_of;
    clients_to_remove ← broadcast_loop (elements copy) data is_dns_update ∅;
    for_each (elements clients_to_remove) discard_client.

(** ** ping_service.py: the prober *)

Definition call_ping (host : string) (timeout : Z) : M py_value := λ w,
  match ping env (clock w) host timeout with
  | inl e => Raise e w
  | inr r => Ok r w
  end.

Definition call_round2 (v : py_value) : M Q := λ w,
  match py_round2 v with
  | inl e => Raise e w
  | inr x => Ok x w
  end.

(** [PingMonitor.ping_host] *)
Definition ping_host (host : string) (timeout : Z) : M measurement :=
  try_except
    (response_time ← call_ping host timeout;
     match response_time with
     | PyNone =>
         now ← utcnow;
         mret {| host := host;
                 response_time_ms := None;
                 packet_loss := true;
                 error_message := Some "Ping timeout or host unreachable"%string;
                 timestamp := now |}
     | _ =>
         rounded ← call_round2 response_time;
         now ← utcnow;
         mret {| host := host;
                 response_time_ms := Some rounded;
                 packet_loss := false;
                 error_message := None;
                 timestamp := now |}
     end)
    (λ e,
      now ← utcnow;
      mret {| host := host;
              response_time_ms := None;
              packet_loss := true;
              error_message := Some (exn_str e);
              timestamp := now |}).

(** [asyncio.gather] over one task per element, results in order. *)
Fixpoint gather {A B} (task : A → M B) (xs : list A) : M (list B) :=
  match xs with
  | [] => mret []
  | x :: xs' =>
      r ← task x;
      rs ← gather task xs';
      mret (r :: rs)
  end.

(** [PingMonitor.ping_all_hosts] ([timeout] takes its default, 3). *)
Definition ping_all_hosts : M (list measurement) :=
  hosts ← gets hosts_of;
  gather (λ host, ping_host host 3) hosts.

(** ** ping_service.py: persistence and the loop *)

Definition metric_of (result : measurement) : PingMetricCreate :=
  {| pmc_target_host := host result;
     pmc_response_time_ms := response_time_ms result;
     pmc_packet_loss := packet_loss result;
     pmc_error_message := error_message result |}.

Definition cache_result (result : measurement) : M unit :=
  modify (set_monitor (λ m,
    with_latest_results (<[host result := result]> (latest_results m)) m)).

(** The body of the [for] of [save_ping_results]. *)
Definition save_one (result : measurement) : M unit :=
  insert_ping_metric (metric_of result) ;;
  cache_result result.

(** [PingMonitor.save_ping_results]: one [try] around the whole [for]. *)
Definition save_ping_results (results : list measurement) : M unit :=
  try_except
    (for_each results save_one)
    (λ e, logger ERROR ("Failed to save ping results: " +:+ exn_str e)).

Definition ping_update (now : datetime) (results : list measurement) : envelope :=
  {| e_type := Some "ping_update"%string;
     e_result := None;
     e_results := Some results;
     e_timestamp := Some now |}.

(** What follows [save_ping_results] in an iteration of the loop. *)
Definition broadcast_phase (results : list measurement) : M unit :=
  now ← utcnow;
  broadcast_to_websockets (ping_update now results) ;;
  let successful_pings := length (filter (λ r, packet_loss r = false) results) in
  logger DEBUG ("Ping cycle completed: " +:+ pretty successful_pings +:+ "/"
                +:+ pretty (length results) +:+ " successful") ;;
  interval ← gets (ping_interval ∘ ping_monitor);
  sleep interval.

(** One iteration of the [while] of [monitoring_loop]. *)
Definition monitoring_cycle : M unit :=
  try_except
    (results ← ping_all_hosts;
     save_ping_results results ;;
     broadcast_phase results)
    (λ e,
      logger ERROR ("Error in monitoring loop: " +:+ exn_str e) ;;
      interval ← gets (ping_interval ∘ ping_monitor);
      sleep interval).



(** [PingMonitor.start_monitoring]; the loop itself is a separate task. *)
Definition start_monitoring : M unit :=
  running ← gets (is_running ∘ ping_monitor);
  if (running : bool) then logger WARNING "Ping monitoring is already running"
  else
    modify (set_monitor (with_is_running true)) ;;
    logger INFO "Starting ping monitoring service".

(** [PingMonitor.stop_monitoring] *)
Definition stop_monitoring : M unit :=
  running ← gets (is_running ∘ ping_monitor);
  if negb (running : bool) then logger WARNING "Ping monitoring is not running"
  else
    modify (set_monitor (with_is_running false)) ;;
    logger INFO "Stopping ping monitoring service".

(** ** crud.py *)

Definition in_window (host : string) (since_time : datetime) (r : PingMetricRow) : bool :=
  bool_decide (row_target_host r = host) && (since_time <=? row_timestamp r).

(** The aggregate query of [get_host_summary].  It has no [GROUP BY], so it
    yields exactly one row; with no matching row its division
    [...::FLOAT / COUNT( * )] is a division by zero, which the server
    reports as an error. *)
Definition fetch_host_summary (host : string) (since_time : datetime) : M (option summary_row) :=
  get_connection ;;
  execute (SelectHostSummary host since_time) ;;
  table ← gets (ping_metrics ∘ db_manager);
  let rows := List.filter (in_window host since_time) table in
  let times := omap row_response_time_ms rows in
  let count := Z.of_nat (length rows) in
  let losses := Z.of_nat (length (List.filter row_packet_loss rows)) in
  if count =? 0 then raise (Exn "DivisionByZeroError" "division by zero")
  else
    mret (Some
      {| total_pings := count;
         avg_response_time := sql_avg times;
         min_response_time := sql_min times;
         max_response_time := sql_max times;
         median_response_time := percentile_cont (1 # 2) times;
         p95_response_time := percentile_cont (95 # 100) times;
         packet_losses := losses;
         packet_loss_rate := (inject_Z losses / inject_Z count)%Q;
         first_ping := sql_min_ts (row_timestamp <$> rows);
         last_ping := sql_max_ts (row_timestamp <$> rows) |}).

(** [PingMetricsCRUD.get_host_summary] *)
Definition get_host_summary (host : string) (hours minutes : option Z) : M host_summary :=
  try_except
    (let hours :=
       match hours, minutes with
       | None, None => Some 24
       | _, _ => hours
       end in
     now ← utcnow;
     '(since_time, time_analyzed_hours, time_analyzed_minutes) ←
       match minutes, hours with
       | Some minutes, _ =>
           since_time ← eval (since now (timedelta (timedelta_minutes minutes)));
           mret (since_time, round2 (inject_Z minutes / 60)%Q, minutes)
       | None, Some hours =>
           since_time ← eval (since now (timedelta (timedelta_hours hours)));
           mret (since_time, inject_Z hours, hours * 60)
       | None, None =>
           raise (Exn "TypeError" "unsupported type for timedelta hours component: NoneType")
       end;
     row ← fetch_host_summary host since_time;
     match row with
     | Some row =>
         let uptime :=
           if 0 <? total_pings row then (100 - packet_loss_rate row)%Q
           else 0%Q in
         logger INFO ("Generated summary for host " +:+ host) ;;
         mret {| columns := Some row;
                 summary_host := host;
                 hours_analyzed := time_analyzed_hours;
                 minutes_analyzed := time_analyzed_minutes;
                 uptime_percentage := uptime |}
     | None =>
         mret {| columns := None;
                 summary_host := host;
                 hours_analyzed := time_analyzed_hours;
                 minutes_analyzed := time_analyzed_minutes;
                 uptime_percentage := 0%Q |}
     end)
    (λ e,
      logger ERROR ("Failed to get host summary for " +:+ host +:+ ": " +:+ exn_str e) ;;
      raise e).

(** [SELECT DISTINCT ON (target_host) ... ORDER BY target_host, timestamp
    DESC]: for each host its row with the greatest timestamp. *)
Definition latest_by_host (table : list PingMetricRow) : gmap string PingMetricRow :=
  foldl (λ acc r,
    match acc !! row_target_host r with
    | Some r0 =>
        if row_timestamp r0 <? row_timestamp r
        then <[row_target_host r := r]> acc else acc
    | None => <[row_target_host r := r]> acc
    end) ∅ table.

(** [PingMetricsCRUD.get_latest_metrics_by_host] *)
Definition get_latest_metrics_by_host : M (gmap string PingMetricRow) :=
  try_except
    (get_connection ;;
     execute SelectLatestByHost ;;
     table ← gets (ping_metrics ∘ db_manager);
     let result := latest_by_host table in
     logger INFO ("Retrieved latest metrics for " +:+ pretty (size result) +:+ " hosts") ;;
     mret result)
    (λ e,
      logger ERROR ("Failed to get latest metrics by host: " +:+ exn_str e) ;;
      raise e).

(** ** websocket.py: the connection manager *)

Definition dict_del (connection_id : string) (d : list (string * WebSocket))
    : list (string * WebSocket) :=
  List.filter (λ kv, negb (String.eqb kv.1 connection_id)) d.

Definition dict_get (connection_id : string) (d : list (string * WebSocket))
    : option WebSocket :=
  snd <$> List.find (λ kv, String.eqb kv.1 connection_id) d.

(** [d[k] = v]: a present key keeps its position. *)
Fixpoint dict_set (connection_id : string) (websocket : WebSocket)
    (d : list (string * WebSocket)) : list (string * WebSocket) :=
  match d with
  | [] => [(connection_id, websocket)]
  | kv :: d' =>
      if String.eqb kv.1 connection_id then (connection_id, websocket) :: d'
      else kv :: dict_set connection_id websocket d'
  end.

(** [WebSocketManager.connect]; [websocket.accept()] is taken to succeed. *)
Definition connect (websocket : WebSocket) : M string :=
  modify (set_manager (λ g,
    {| active_connections := active_connections g;
       connection_counter := S (connection_counter g) |})) ;;
  counter ← gets (connection_counter ∘ websocket_manager);
  let connection_id := "conn_" +:+ pretty counter in
  modify (set_manager (λ g,
    {| active_connections := dict_set connection_id websocket (active_connections g);
       connection_counter := connection_counter g |})) ;;
  add_websocket_client websocket ;;
  connections ← gets (active_connections ∘ websocket_manager);
  logger INFO ("WebSocket connection " +:+ connection_id
               +:+ " established. Total connections: " +:+ pretty (length connections)) ;;
  mret connection_id.

(** [WebSocketManager.disconnect] *)
Definition disconnect (connection_id : string) (websocket : WebSocket) : M unit :=
  connections ← gets (active_connections ∘ websocket_manager);
  (if decide (is_Some (dict_get connection_id connections))
   then modify (set_manager (λ g,
          {| active_connections := dict_del connection_id (active_connections g);
             connection_counter := connection_counter g |}))
   else mret tt) ;;
  remove_websocket_client websocket ;;
  connections ← gets (active_connections ∘ websocket_manager);
  logger INFO ("WebSocket connection " +:+ connection_id
               +:+ " disconnected. Total connections: " +:+ pretty (length connections)).

(** [WebSocketManager.send_personal_message] *)
Definition send_personal_message (message : frame) (connection_id : string) : M unit :=
  connections ← gets (active_connections ∘ websocket_manager);
  match dict_get connection_id connections with
  | Some websocket =>
      try_except
        (send_json websocket message)
        (λ e,
          logger ERROR ("Failed to send message to " +:+ connection_id +:+ ": " +:+ exn_str e) ;;
          disconnect connection_id websocket)
  | None => mret tt
  end.

(** The first loop of [WebSocketManager.broadcast], threading the local
    [disconnected_connections]. *)
Fixpoint manager_broadcast_loop (items : list (string * WebSocket)) (message : frame)
    (disconnected_connections : list (string * WebSocket))
    : M (list (string * WebSocket)) :=
  match items with
  | [] => mret disconnected_connections
  | (connection_id, websocket) :: rest =>
      disconnected_connections ←
        try_except
          (send_json websocket message ;; mret disconnected_connections)
          (λ e,
            logger ERROR ("Failed to broadcast to " +:+ connection_id +:+ ": " +:+ exn_str e) ;;
            mret (disconnected_connections ++ [(connection_id, websocket)]));
      manager_broadcast_loop rest message disconnected_connections
  end.

(** [WebSocketManager.broadcast] *)
Definition broadcast (message : frame) : M unit :=
  items ← gets (active_connections ∘ websocket_manager);
  disconnected_connections ← manager_broadcast_loop items message [];
  for_each disconnected_connections (λ kv, disconnect kv.1 kv.2).

(** [WebSocketManager.get_connection_count] *)
Definition get_connection_count : M nat :=
  gets (λ w, length (active_connections (websocket_manager w))).

(** ** websocket.py: the command handler *)

(** The keyword arguments [hours] and [minutes] as the CRUD layer can use
    them: [None], an int (a bool is one); anything else is rejected by
    [timedelta] with a [TypeError].  That happens inside the CRUD method,
    which logs the error before raising it again; the log line and the
    type name at the end of the message are not modelled here, the reply
    the handler sends is. *)
Definition int_or_none (v : json) : M (option Z) :=
  match v with
  | JNull => mret None
  | JNum z => mret (Some z)
  | JBool b => mret (Some (if b then 1 else 0))
  | _ => raise (Exn "TypeError" "unsupported type for timedelta component")
  end.

(** The [host] argument as the query can bind it: the driver refuses
    anything but a [str].  As above, the line the CRUD method logs on the
    way is not modelled. *)
Definition str_arg (v : json) : M string :=
  match v with
  | JStr s => mret s
  | _ => raise (Exn "DataError" "invalid input for query argument $1 (expected str)")
  end.

(** [message_type == "..."] *)
Definition is_str (v : json) (s : string) : bool :=
  match v with
  | JStr s' => String.eqb s' s
  | _ => false
  end.

(** [handle_websocket_message] *)
Definition handle_websocket_message (websocket : WebSocket) (connection_id : string)
    (message : gmap string json) : M unit :=
  let message_type := msg_get message "type" in
  if is_str message_type "ping" then
    cache ← gets cache_of;
    send_json websocket (Reply (pong (cache !! "timestamp"%string)))
  else if is_str message_type "get_status" then
    running ← gets (is_running ∘ ping_monitor);
    hosts ← get_target_hosts;
    interval ← gets (ping_interval ∘ ping_monitor);
    latest ← get_latest_results;
    send_json websocket (Reply (status_response running hosts interval latest))
  else if is_str message_type "get_latest_metrics" then
    try_except
      (latest_metrics ← get_latest_metrics_by_host;
       send_json websocket (Reply (latest_metrics_response latest_metrics)))
      (λ e,
        send_json websocket
          (Reply (error [Lit ("Failed to get latest metrics: " +:+ exn_str e)])))
  else if is_str message_type "subscribe_host" then
    let host := msg_get message "host" in
    if truthy host then
      send_json websocket
        (Reply (subscription_confirmed host [Lit "Subscribed to updates for "; Val host]))
    else
      send_json websocket
        (Reply (error [Lit "Host parameter required for subscription"]))
  else if is_str message_type "get_host_summary" then
    let host := msg_get message "host" in
    let hours := msg_get message "hours" in
    let minutes := msg_get message "minutes" in
    if truthy host then
      try_except
        (summary ←
           match minutes with
           | JNull =>
               hours ← int_or_none hours;
               host ← str_arg host;
               get_host_summary host hours None
           | _ =>
               minutes ← int_or_none minutes;
               host ← str_arg host;
               get_host_summary host None minutes
           end;
         send_json websocket (Reply (host_summary_response host summary)))
        (λ e,
          send_json websocket
            (Reply (error [Lit ("Failed to get host summary: " +:+ exn_str e)])))
    else
      send_json websocket
        (Reply (error [Lit "Host parameter required for summary"]))
  else
    send_json websocket
      (Reply (error [Lit "Unknown message type: "; Val message_type])).

End Services.

(* ================================================================== *)
(** * A world to start from *)
(* ================================================================== *)

(** The state of the process after start-up: the singletons as their
    constructors leave them, the pool connected, the table empty. *)
Definition World_init (interval : Z) : World :=
  {| ping_monitor := PingMonitor_init interval;
     websocket_manager := {| active_connections := []; connection_counter := 0 |};
     db_manager := {| pool := true; ping_metrics := []; next_id := 1 |};
     clock := 0;
     wire := [];
     logs := [] |}.

(** An environment in which nothing fails and every probe answers in 12.5 ms. *)
Definition quiet_env : Env :=
  {| ping := λ _ _ _, inr (PyFloat (25 # 2));
     db_fault := λ _ _, None;
     send_fault := λ _ _, None |}.

(** A result as a probe that was answered in 12.5 ms leaves it. *)
Definition sample_result (h : string) : measurement :=
  {| host := h; response_time_ms := Some (25 # 2)%Q; packet_loss := false;
     error_message := None; timestamp := 0 |}.

(** A world whose monitor has cached a result for two of its hosts. *)
Definition World_cached : World :=
  set_monitor
    (with_latest_results
       (<["google.com"%string := sample_result "google.com"]>
          (<["8.8.8.8"%string := sample_result "8.8.8.8"]> ∅)))
    (World_init 1).

(** An environment in which no probe gets through: [198.51.100.7] times
    out, for which ping3 returns [None]; every other host fails to resolve,
    for which ping3 returns [False]: it raises only when its [EXCEPTIONS]
    switch is on, and the code leaves the switch off. *)
Definition dead_env : Env :=
  {| ping := λ _ h _,
       if String.eqb h "198.51.100.7" then inr PyNone
       else inr (PyBool false);
     db_fault := λ _ _, None;
     send_fault := λ _ _, None |}.

(* ================================================================== *)
(** * Topics and what a broadcast puts on the wire *)
(* ================================================================== *)

(** The two tests [broadcast_to_websockets] makes on a client's path. *)
Definition on_dns_status (c : WebSocket) : bool :=
  contains "/api/ws/dns-status" (client_path c).
Definition on_ping_status (c : WebSocket) : bool :=
  contains "/api/ws/ping-status" (client_path c).

(** A subscriber's topic: the one endpoint its path names. *)
Inductive topic := full | dns_only.

Definition topic_of (c : WebSocket) : option topic :=
  match on_ping_status c, on_dns_status c with
  | true, false => Some full
  | false, true => Some dns_only
  | _, _ => None
  end.

(** Whether the loop calls [send_json] for a client, given the flag. *)
Definition eligible (is_dns_update : bool) (c : WebSocket) : bool :=
  is_dns_update && on_dns_status c || negb is_dns_update && on_ping_status c.

(** The targets named in a payload. *)
Definition payload_targets (d : envelope) : list string :=
  host <$> (option_list (e_result d) ++ default [] (e_results d)).

(** The record a [send_json] of [f] to [c] leaves on the wire. *)
Definition attempt_of (env : Env) (f : frame) (c : WebSocket) : attempt :=
  Attempt c f (bool_decide (send_fault env c f = None)).

Definition send_fails (env : Env) (f : frame) (c : WebSocket) : bool :=
  bool_decide (is_Some (send_fault env c f)).

(** The state a broadcast may not touch. *)
Definition same_services (w w' : World) : Prop :=
  hosts_of w' = hosts_of w ∧
  cache_of w' = cache_of w ∧
  is_running (ping_monitor w') = is_running (ping_monitor w) ∧
  ping_interval (ping_monitor w') = ping_interval (ping_monitor w) ∧
  db_manager w' = db_manager w ∧
  clock w' = clock w.

(** Two sockets that carry a [path] attribute naming one endpoint each, as
    the routing of [broadcast_to_websockets] looks for it, and one without
    the attribute; and a world in which the three are registered. *)
Definition ws_full : WebSocket := {| ws_id := 1; ws_path := Some "/api/ws/ping-status"%string |}.
Definition ws_dns : WebSocket := {| ws_id := 2; ws_path := Some "/api/ws/dns-status"%string |}.
Definition ws_plain : WebSocket := {| ws_id := 3; ws_path := None |}.

Definition World_subscribed : World :=
  set_manager (λ _,
    {| active_connections := [("conn_1", ws_full); ("conn_2", ws_dns); ("conn_3", ws_plain)]%string;
       connection_counter := 3 |})
    (set_monitor (with_websocket_clients {[ws_full; ws_dns; ws_plain]}) (World_init 1)).


(** Two cycle envelopes: one that probed resolvers and sites, one that
    probed a site only. *)
Definition mixed_update : envelope :=
  ping_update 0 [sample_result "8.8.8.8"; sample_result "google.com"].

(** An environment in which the server rejects the insert for [1.1.1.1]
    and accepts every other statement. *)
Definition flaky_db : Env :=
  {| ping := λ _ _ _, inr (PyFloat (25 # 2));
     db_fault := λ _ st,
       match st with
       | InsertMetric metric =>
           if String.eqb (pmc_target_host metric) "1.1.1.1"
           then Some (Exn "PostgresError" "connection is closed")
           else None
       | _ => None
       end;
     send_fault := λ _ _, None |}.

(** What the prober returns in [World_init] under that environment. *)
Definition probed (h : string) : measurement :=
  {| host := h; response_time_ms := Some (round2 (25 # 2)); packet_loss := false;
     error_message := None; timestamp := 0 |}.

(** The measurement [ping_host] builds, case by case. *)
Definition measured (h : string) (now : datetime) (r : exn + py_value) : measurement :=
  let lost (msg : string) :=
    {| host := h; response_time_ms := None; packet_loss := true;
       error_message := Some msg; timestamp := now |} in
  match r with
  | inl e => lost (exn_str e)
  | inr PyNone => lost "Ping timeout or host unreachable"
  | inr v =>
      match py_round2 v with
      | inl e => lost (exn_str e)
      | inr x =>
          {| host := h; response_time_ms := Some x; packet_loss := false;
             error_message := None; timestamp := now |}
      end
  end.

(** The row an insert of [result] adds, given its id and the time. *)
Definition row_of (result : measurement) (id now : Z) : PingMetricRow :=
  {| row_id := id; row_timestamp := now;
     row_target_host := host result;
     row_response_time_ms := response_time_ms result;
     row_packet_loss := packet_loss result;
     row_error_message := error_message result;
     row_created_at := now |}.

(** A row without its two time columns: its id and what was inserted. *)
Definition row_data (r : PingMetricRow) : Z * PingMetricCreate :=
  (row_id r,
   {| pmc_target_host := row_target_host r;
      pmc_response_time_ms := row_response_time_ms r;
      pmc_packet_loss := row_packet_loss r;
      pmc_error_message := row_error_message r |}).

Definition probed_all : list measurement :=
  [probed "8.8.8.8"; probed "1.1.1.1"; probed "208.67.222.222";
   probed "google.com"; probed "github.com"].

(** [World_init] once the result for [8.8.8.8] has been saved. *)
Definition World_one_saved : World :=
  set_monitor (with_latest_results (<["8.8.8.8"%string := probed "8.8.8.8"]> ∅))
    (set_db (λ _, {| pool := true;
                     ping_metrics := [row_of (probed "8.8.8.8") 1 0];
                     next_id := 2 |})
       (World_init 1)).

(** The fixture of the uptime scenario: at [fixture_now] the table holds,
    for [8.8.8.8], ten rows of the last two hours, two of them lost, and one
    lost row five hours old; and one lost row for [google.com]. *)
Definition fixture_now : datetime := 1700000000000000.

Definition fixture_row (id age_minutes : Z) (h : string) (lost : bool) : PingMetricRow :=
  {| row_id := id;
     row_timestamp := fixture_now - timedelta_minutes age_minutes;
     row_target_host := h;
     row_response_time_ms := if lost then None else Some (inject_Z (20 + id));
     row_packet_loss := lost;
     row_error_message :=
       if lost then Some "Ping timeout or host unreachable"%string else None;
     row_created_at := fixture_now - timedelta_minutes age_minutes |}.

Definition fixture_rows : list PingMetricRow :=
  [ fixture_row 1 300 "8.8.8.8" true;
    fixture_row 2 95 "8.8.8.8" false;
    fixture_row 3 85 "8.8.8.8" false;
    fixture_row 4 75 "8.8.8.8" true;
    fixture_row 5 65 "8.8.8.8" false;
    fixture_row 6 55 "8.8.8.8" false;
    fixture_row 7 50 "google.com" true;
    fixture_row 8 45 "8.8.8.8" false;
    fixture_row 9 35 "8.8.8.8" true;
    fixture_row 10 25 "8.8.8.8" false;
    fixture_row 11 15 "8.8.8.8" false;
    fixture_row 12 5 "8.8.8.8" false ].

Definition World_fixture : World :=
  set_clock fixture_now
    (set_db (λ _, {| pool := true; ping_metrics := fixture_rows; next_id := 13 |})
       (World_init 1)).

(** The rows the aggregate query of [get_host_summary] ranges over. *)
Definition window_rows (w : World) (h : string) (since_time : datetime) : list PingMetricRow :=
  List.filter (in_window h since_time) (ping_metrics (db_manager w)).

(** A [subscribe_host] command without a host, and one with. *)
Definition subscribe_nothing : gmap string json :=
  {[ "type"%string := JStr "subscribe_host" ]}.
Definition subscribe_google : gmap string json :=
  <[ "host"%string := JStr "google.com" ]> {[ "type"%string := JStr "subscribe_host" ]}.

(* ================================================================== *)
(** * Frames and reachable states *)
(* ================================================================== *)

(** [m] leaves the component [f] of the world as it found it, whether it
    returns or raises. *)
Definition preserves {A B} (f : World → B) (m : M A) : Prop :=
  ∀ w, f (final (m w)) = f w.

(** The steps a history is made of.  The first ten are the entry points
    through which the rest of the application drives the service, each run
    from start to end.  The others are what a coroutine does between two of
    its [await]s, where other tasks may run: the insert and the cache write
    of [save_ping_results], a [send_json], the discard that ends a
    broadcast, a log line, the sleep of the loop, and a change of the table
    or the pool by a route or by start-up and shutdown.  A history of them
    covers every interleaving of the loop with the handlers. *)
Inductive call :=
  | AddTargetHost (h : string)
  | RemoveTargetHost (h : string)
  | StartMonitoring
  | StopMonitoring
  | MonitoringCycle
  | Connect (ws : WebSocket)
  | Disconnect (id : string) (ws : WebSocket)
  | Message (ws : WebSocket) (id : string) (message : gmap string json)
  | PersonalMessage (f : frame) (id : string)
  | ManagerBroadcast (f : frame)
  | InsertPingMetric (metric : PingMetricCreate)
  | CacheResult (result : measurement)
  | SendJson (ws : WebSocket) (f : frame)
  | DiscardClient (ws : WebSocket)
  | Log (l : level) (s : string)
  | Sleep (seconds : Z)
  | SetDatabase (d : DatabaseManager).

Definition perform (env : Env) (c : call) : M unit :=
  match c with
  | AddTargetHost h => add_target_host h
  | RemoveTargetHost h => remove_target_host h
  | StartMonitoring => start_monitoring
  | StopMonitoring => stop_monitoring
  | MonitoringCycle => monitoring_cycle env
  | Connect ws => connect ws ;; mret tt
  | Disconnect id ws => disconnect id ws
  | Message ws id message => handle_websocket_message env ws id message
  | PersonalMessage f id => send_personal_message env f id
  | ManagerBroadcast f => broadcast env f
  | InsertPingMetric metric => insert_ping_metric env metric ;; mret tt
  | CacheResult result => cache_result result
  | SendJson ws f => send_json env ws f
  | DiscardClient ws => discard_client ws
  | Log l s => logger l s
  | Sleep seconds => sleep seconds
  | SetDatabase d => modify (set_db (λ _, d))
  end.

(** The state after a history of calls, each under the environment of its
    time. *)
Definition run_calls (history : list (Env * call)) (w : World) : World :=
  foldl (λ w ec, final (perform ec.1 ec.2 w)) w history.

Definition reachable (w : World) : Prop :=
  ∃ interval history, w = run_calls history (World_init interval).

(* ================================================================== *)
(** * Views of the state used by the frame properties *)
(* ================================================================== *)

(** The registry together with the result cache. *)
Definition registry_and_cache (w : World) : list string * gmap string measurement :=
  (hosts_of w, cache_of w).

(** Everything the scheduler owns but the clock: what a sleep leaves. *)
Definition monitor_settings (w : World) : bool * Z * list string :=
  (is_running (ping_monitor w), ping_interval (ping_monitor w), hosts_of w).


(** The ids in [active_connections] were all handed out by [connect]:
    each is ["conn_k"] for a [k] the counter has passed. *)
Definition conn_ids_bounded (g : WebSocketManager) : Prop :=
  ∀ id ws, (id, ws) ∈ active_connections g →
    ∃ k : nat, id = "conn_" +:+ pretty k ∧ (k ≤ connection_counter g)%nat.

(** The world after start-up and two connections. *)
Definition World_two_connected : World :=
  run_calls [(quiet_env, Connect ws_full); (quiet_env, Connect ws_dns)] (World_init 1).

(** The sockets as the two endpoints hand them to [connect]: nothing in
    the code gives a socket a [path] attribute, so neither has one. *)
Definition ws_ping_client : WebSocket := {| ws_id := 4; ws_path := None |}.
Definition ws_dns_client : WebSocket := {| ws_id := 5; ws_path := None |}.

(** After start-up, one client has connected on [/ws/ping-status] and one
    on [/ws/dns-status]. *)
Definition World_two_clients : World :=
  run_calls [(quiet_env, Connect ws_ping_client); (quiet_env, Connect ws_dns_client)]
    (World_init 1).

(** The same once the three resolvers were taken out of the registry. *)
Definition World_sites_only : World :=
  run_calls [(quiet_env, RemoveTargetHost "8.8.8.8"%string);
             (quiet_env, RemoveTargetHost "1.1.1.1"%string);
             (quiet_env, RemoveTargetHost "208.67.222.222"%string)]
    World_two_clients.

(** The cache is keyed by host: each entry is a result for the host it
    is stored under. *)
Definition cache_keyed_by_host (w : World) : Prop :=
  ∀ h m, cache_of w !! h = Some m → host m = h.

(** An iteration of the loop, up to its save, during which another task
    removes a host from the registry.  The iteration awaits its probes, whose
    tasks were created from the registry as it was, so the removal has run
    by the time the results are saved. *)
Definition cycle_with_removal (env : Env) (h : string) : M (list measurement) :=
  results ← ping_all_hosts env;
  remove_target_host h ;;
  save_ping_results env results ;;
  mret results.

(** The world after start-up and one iteration of the loop. *)
Definition World_after_cycle : World :=
  run_calls [(quiet_env, MonitoringCycle)] (World_init 1).

(** A [ping] command. *)
Definition ping_command : gmap string json :=
  {[ "type"%string := JStr "ping" ]}.

(** What a command leaves on the wire after [base]: replies to the one
    socket, the last of which decides the outcome, and before it at most one
    reply, which did not go through. *)
Definition reply_shape (env : Env) (ws : WebSocket) (base : list attempt)
    (o : outcome unit) : Prop :=
  ∃ failed r,
    wire (final o) = base ++ failed ++ [attempt_of env (Reply r) ws] ∧
    (failed = [] ∨ ∃ r0, failed = [Attempt ws (Reply r0) false]) ∧
    match o with
    | Ok _ _ => send_fault env ws (Reply r) = None
    | Raise e _ => send_fault env ws (Reply r) = Some e
    end.

(* ================================================================== *)
(** * database.py and crud.py: the read and clean-up paths *)
(* ================================================================== *)

Definition timedelta_days (d : Z) : Z := d * 86400000000.

(** What the interpreter does with floats.  [float_hours x] is
    [timedelta(hours=x)] for a float [x]: the microseconds it holds, after
    the double arithmetic and the rounding of the constructor, or the
    exception it raises. *)
Record Python := {
  float_hours : Q → exn + Z
}.

(** [timedelta(hours=hours)] *)
Definition timedelta_of_hours (py : Python) (hours : number) : exn + Z :=
  match hours with
  | Int h => timedelta (timedelta_hours h)
  | Float x => float_hours py x
  end.

(** The statements of these paths. *)
Inductive query :=
  | SelectRecent (since_time : datetime) (host_ : option string)
  | SelectLatest (host_ : string)
  | SelectById (metric_id : Z)
  | SelectCount (since_time : option datetime) (host_ : option string)
  | DeleteOlder (cutoff_date : datetime).

(** The failure of the server on one of them, if it fails. *)
Record Server := {
  query_fault : DatabaseManager → query → option exn
}.

(** [if host:] on an [Optional[str]]: [None] and the empty string are both
    no filter. *)
Definition host_filter (host : option string) : option string :=
  match host with
  | Some EmptyString => None
  | _ => host
  end.

Definition matches_host (host : option string) (r : PingMetricRow) : bool :=
  match host with
  | Some h => bool_decide (row_target_host r = h)
  | None => true
  end.

Definition matches_since (since_time : option datetime) (r : PingMetricRow) : bool :=
  match since_time with
  | Some t => t <=? row_timestamp r
  | None => true
  end.

(** [ORDER BY timestamp DESC]: rows with equal timestamps come in an order
    the server is free to choose; the sort below is one such choice. *)
Definition newer_first (a b : PingMetricRow) : Prop :=
  row_timestamp b ≤ row_timestamp a.

#[global] Instance newer_first_dec a b : Decision (newer_first a b).
Proof. unfold newer_first. apply _. Defined.

Definition order_by_timestamp_desc (rows : list PingMetricRow) : list PingMetricRow :=
  merge_sort newer_first rows.

(** [l[start:stop]] *)
Definition py_slice {A} (l : list A) (start stop : Z) : list A :=
  let len := Z.of_nat (length l) in
  let index i := if i <? 0 then Z.max 0 (len + i) else Z.min i len in
  take (Z.to_nat (index stop - index start)) (drop (Z.to_nat (index start)) l).

(** [str.split()] and [int(...)] on ASCII text. *)
Definition is_space (c : Ascii.ascii) : bool :=
  let n := Ascii.N_of_ascii c in
  ((n =? 32) || (9 <=? n) && (n <=? 13) || (28 <=? n) && (n <=? 31))%N.

Fixpoint py_split_go (word s : string) : list string :=
  match s with
  | EmptyString => match word with EmptyString => [] | _ => [word] end
  | String c s' =>
      if is_space c then
        match word with
        | EmptyString => py_split_go EmptyString s'
        | _ => word :: py_split_go EmptyString s'
        end
      else py_split_go (word +:+ String c EmptyString) s'
  end.

Definition py_split (s : string) : list string := py_split_go EmptyString s.

(** [int(s)] for a string of decimal digits. *)
Definition py_int (s : string) : exn + Z :=
  match DecimalString.NilZero.uint_of_string s with
  | Some d =>
      match s with
      | EmptyString => inl (Exn "ValueError" "invalid literal for int() with base 10: ''")
      | _ => inr (Z.of_nat (Nat.of_uint d))
      end
  | None => inl (Exn "ValueError" ("invalid literal for int() with base 10: '" +:+ s +:+ "'"))
  end.

(** The status of a [DELETE] that removed [n] rows. *)
Definition delete_status (n : nat) : string :=
  "DELETE " +:+ DecimalString.NilZero.string_of_uint (Nat.to_uint n).

Section Storage.
Context (env : Env) (srv : Server) (py : Python).

Definition run_query (q : query) : M unit := λ w,
  match query_fault srv (db_manager w) q with
  | None => Ok tt w
  | Some e => Raise e w
  end.

(** [DatabaseManager.get_recent_metrics] *)
Definition get_recent_metrics (hours : number) (host : option string)
    : M (list PingMetricRow) :=
  now ← utcnow;
  since_time ← eval (since now (timedelta_of_hours py hours));
  let host := host_filter host in
  get_connection ;;
  run_query (SelectRecent since_time host) ;;
  table ← gets (ping_metrics ∘ db_manager);
  mret (take 1000 (order_by_timestamp_desc
          (List.filter (λ r, (since_time <=? row_timestamp r) && matches_host host r)
             table))).

(** [DatabaseManager.get_latest_metric] *)
Definition get_latest_metric (host : string) : M (option PingMetricRow) :=
  get_connection ;;
  run_query (SelectLatest host) ;;
  table ← gets (ping_metrics ∘ db_manager);
  mret (head (order_by_timestamp_desc
          (List.filter (λ r, bool_decide (row_target_host r = host)) table))).

(** [PingMetricsCRUD.create_ping_metric] *)
Definition create_ping_metric (metric : PingMetricCreate) : M Z :=
  try_except
    (metric_id ← insert_ping_metric env metric;
     logger INFO ("Created ping metric with ID: " +:+ pretty metric_id) ;;
     mret metric_id)
    (λ e,
      logger ERROR ("Failed to create ping metric: " +:+ exn_str e) ;;
      raise e).

(** [PingMetricsCRUD.get_ping_metrics] *)
Definition get_ping_metrics (hours : number) (host : option string) (limit offset : Z)
    : M (list PingMetricRow) :=
  try_except
    (metrics ← get_recent_metrics hours host;
     let start_idx := offset in
     let end_idx := offset + limit in
     let paginated_metrics := py_slice metrics start_idx end_idx in
     logger INFO ("Retrieved " +:+ pretty (length paginated_metrics) +:+ " ping metrics") ;;
     mret paginated_metrics)
    (λ e,
      logger ERROR ("Failed to get ping metrics: " +:+ exn_str e) ;;
      raise e).

(** [PingMetricsCRUD.get_ping_metric_by_id].  A failure of [fetchrow] is a
    failure of the query, whether it comes from the server or from the
    driver in front of it (see [asyncpg] below). *)
Definition get_ping_metric_by_id (metric_id : Z) : M (option PingMetricRow) :=
  try_except
    (get_connection ;;
     run_query (SelectById metric_id) ;;
     table ← gets (ping_metrics ∘ db_manager);
     match List.find (λ r, row_id r =? metric_id) table with
     | Some row =>
         logger INFO ("Retrieved ping metric with ID: " +:+ pretty metric_id) ;;
         mret (Some row)
     | None =>
         logger WARNING ("Ping metric with ID " +:+ pretty metric_id +:+ " not found") ;;
         mret None
     end)
    (λ e,
      logger ERROR ("Failed to get ping metric by ID " +:+ pretty metric_id
                    +:+ ": " +:+ exn_str e) ;;
      raise e).

(** [PingMetricsCRUD.delete_old_metrics] *)
Definition delete_old_metrics (days : Z) : M Z :=
  try_except
    (now ← utcnow;
     cutoff_date ← eval (since now (timedelta (timedelta_days days)));
     get_connection ;;
     run_query (DeleteOlder cutoff_date) ;;
     table ← gets (ping_metrics ∘ db_manager);
     let kept := List.filter (λ r, cutoff_date <=? row_timestamp r) table in
     modify (set_db (λ d,
       {| pool := pool d; ping_metrics := kept; next_id := next_id d |})) ;;
     let result := delete_status (length table - length kept) in
     deleted_count ←
       match result with
       | EmptyString => mret 0
       | _ =>
           match last (py_split result) with
           | Some count =>
               match py_int count with
               | inr n => mret n
               | inl e => raise e
               end
           | None => raise (Exn "IndexError" "list index out of range")
           end
       end;
     logger INFO ("Deleted " +:+ pretty deleted_count +:+ " old ping metrics (older than "
                  +:+ pretty days +:+ " days)") ;;
     mret deleted_count)
    (λ e,
      logger ERROR ("Failed to delete old metrics: " +:+ exn_str e) ;;
      raise e).

(** [PingMetricsCRUD.get_metrics_count] *)
Definition get_metrics_count (host : option string) (hours : option Z) : M Z :=
  try_except
    (since_time ←
       match hours with
       | Some h =>
           if h =? 0 then mret None
           else
             now ← utcnow;
             since_time ← eval (since now (timedelta (timedelta_hours h)));
             mret (Some since_time)
       | None => mret None
       end;
     let host := host_filter host in
     get_connection ;;
     run_query (SelectCount since_time host) ;;
     table ← gets (ping_metrics ∘ db_manager);
     let count :=
       Z.of_nat (length (List.filter
         (λ r, matches_since since_time r && matches_host host r) table)) in
     logger INFO ("Total metrics count: " +:+ pretty count) ;;
     mret count)
    (λ e,
      logger ERROR ("Failed to get metrics count: " +:+ exn_str e) ;;
      raise e).

End Storage.

(** A server that never fails. *)
Definition quiet_server : Server := {| query_fault := λ _ _, None |}.

(** The driver in front of a server.  asyncpg encodes the argument of
    [WHERE id = $1] as an [int4], and refuses an id outside its range with a
    [DataError] before the server is asked. *)
Definition int32 (z : Z) : bool := (-2147483648 <=? z) && (z <=? 2147483647).

Definition asyncpg (srv : Server) : Server :=
  {| query_fault := λ d q,
       match q with
       | SelectById metric_id =>
           if int32 metric_id then query_fault srv d q
           else Some (Exn "DataError"
                        ("invalid input for query argument $1: " +:+ pretty metric_id
                         +:+ " (value out of int32 range)"))
       | _ => query_fault srv d q
       end |}.

(** An interpreter whose floats are exact: [timedelta(hours=x)] is [x]
    hours to the nearest microsecond, ties to even. *)
Definition exact_floats : Python :=
  {| float_hours := λ x, timedelta (round_half_even (x * 3600000000)) |}.

(** The bound [get_metrics_count] puts on the timestamps: none without
    hours, and none for zero hours, which [if hours:] takes for absent. *)
Definition count_since (now : datetime) (hours : option Z) : exn + option datetime :=
  match hours with
  | Some h =>
      if h =? 0 then inr None
      else
        match since now (timedelta (timedelta_hours h)) with
        | inl e => inl e
        | inr t => inr (Some t)
        end
  | None => inr None
  end.

(** How far [get_host_summary] goes back: the minutes when they are given,
    else the hours, else 24 hours. *)
Definition summary_delta (hours minutes : option Z) : Z :=
  match minutes with
  | Some m => timedelta_minutes m
  | None => timedelta_hours (default 24 hours)
  end.

(** Row ids are handed out by the sequence: each is below its next value. *)
Definition ids_below_next (d : DatabaseManager) : Prop :=
  Forall (λ r, row_id r < next_id d) (ping_metrics d).

(** The rows the query of [get_recent_metrics] ranges over. *)
Definition recent_window (w : World) (since_time : datetime) (host : option string)
    : list PingMetricRow :=
  List.filter
    (λ r, (since_time <=? row_timestamp r) && matches_host (host_filter host) r)
    (ping_metrics (db_manager w)).

(** The row an insert of [metric] adds, given its id and the time. *)
Definition row_of_metric (metric : PingMetricCreate) (id now : Z) : PingMetricRow :=
  {| row_id := id; row_timestamp := now;
     row_target_host := pmc_target_host metric;
     row_response_time_ms := pmc_response_time_ms metric;
     row_packet_loss := pmc_packet_loss metric;
     row_error_message := pmc_error_message metric;
     row_created_at := now |}.

(** The metric of a manual test. *)
Definition sample_metric : PingMetricCreate :=
  {| pmc_target_host := "8.8.8.8"; pmc_response_time_ms := Some (12 # 1)%Q;
     pmc_packet_loss := false; pmc_error_message := None |}.

(* ================================================================== *)
(** * ping_metrics.py: the REST routes *)
(* ================================================================== *)

(** [HTTPException(status_code, detail)]; its [str] is
    ["{status_code}: {detail}"]. *)
Definition HTTPException (status_code : Z) (detail : string) : exn :=
  Exn "HTTPException" (pretty status_code +:+ ": " +:+ detail).

(** [except HTTPException] *)
Definition is_HTTPException (e : exn) : bool :=
  String.eqb (exn_class e) "HTTPException".

(** The bodies of the responses. *)
Record live_body := {
  live_timestamp : datetime;
  live_results : gmap string measurement;
  live_monitoring_active : bool
}.

Record created_body := {
  created_id : Z;
  created_message : string;
  created_metric : PingMetricCreate
}.

Record hosts_body := {
  hosts_message : string;
  current_hosts : list string
}.

Record cleanup_body := {
  cleanup_message : string;
  deleted_records : Z;
  cutoff_days : Z
}.

Record status_body := {
  status_monitoring_active : bool;
  ping_interval_seconds : Z;
  status_target_hosts : list string;
  status_websocket_clients : nat;
  latest_results_count : nat
}.

Record switch_body := {
  switch_message : string;
  switch_status : string
}.

Module router.

(** The methods of [ping_crud] and [ping_monitor] whose names the routes
    take over. *)
Abbreviation crud_get_ping_metrics := get_ping_metrics (only parsing).
Abbreviation crud_get_metrics_count := get_metrics_count (only parsing).
Abbreviation crud_get_host_summary := get_host_summary (only parsing).
Abbreviation crud_create_ping_metric := create_ping_metric (only parsing).
Abbreviation monitor_start_monitoring := start_monitoring (only parsing).
Abbreviation monitor_stop_monitoring := stop_monitoring (only parsing).

Section Routes.
Context (env : Env) (srv : Server) (py : Python).

(** [GET /ping-metrics/] *)
Definition get_ping_metrics (hours : Z) (host : option string) (limit offset : Z)
    : M (list PingMetricRow) :=
  try_except
    (crud_get_ping_metrics srv py (Int hours) host limit offset)
    (λ e,
      logger ERROR ("Failed to get ping metrics: " +:+ exn_str e) ;;
      raise (HTTPException 500 "Failed to retrieve ping metrics")).

(** [GET /ping-metrics/time-range/] *)
Definition get_ping_metrics_by_time_range (minutes : option Z) (host : option string)
    (limit : Z) : M (list PingMetricRow) :=
  try_except
    (match minutes with
     | None => raise (HTTPException 400 "Minutes parameter is required")
     | Some minutes =>
         let hours := Float (inject_Z minutes / 60)%Q in
         crud_get_ping_metrics srv py hours host limit 0
     end)
    (λ e,
      logger ERROR ("Failed to get ping metrics by time range: " +:+ exn_str e) ;;
      raise (HTTPException 500 "Failed to retrieve ping metrics by time range")).

(** [GET /ping-metrics/count] *)
Definition get_metrics_count (host : option string) (hours : option Z) : M Z :=
  try_except
    (crud_get_metrics_count srv host hours)
    (λ e,
      logger ERROR ("Failed to get metrics count: " +:+ exn_str e) ;;
      raise (HTTPException 500 "Failed to get metrics count")).

(** [GET /ping-metrics/latest] *)
Definition get_latest_metrics : M (gmap string PingMetricRow) :=
  try_except
    (get_latest_metrics_by_host env)
    (λ e,
      logger ERROR ("Failed to get latest metrics: " +:+ exn_str e) ;;
      raise (HTTPException 500 "Failed to retrieve latest metrics")).

(** [GET /ping-metrics/live] *)
Definition get_live_metrics : M live_body :=
  try_except
    (live_results ← get_latest_results;
     now ← utcnow;
     running ← gets (is_running ∘ ping_monitor);
     mret {| live_timestamp := now; live_results := live_results;
             live_monitoring_active := running |})
    (λ e,
      logger ERROR ("Failed to get live metrics: " +:+ exn_str e) ;;
      raise (HTTPException 500 "Failed to retrieve live metrics")).

(** [GET /ping-metrics/hosts/{host}/summary] *)
Definition get_host_summary (host : string) (hours minutes : option Z) : M host_summary :=
  try_except
    (let hours :=
       match hours, minutes with
       | None, None => Some 24
       | _, _ => hours
       end in
     match minutes with
     | Some _ => crud_get_host_summary env host None minutes
     | None => crud_get_host_summary env host hours None
     end)
    (λ e,
      logger ERROR ("Failed to get host summary for " +:+ host +:+ ": " +:+ exn_str e) ;;
      raise (HTTPException 500 ("Failed to retrieve summary for host " +:+ host))).

(** [GET /ping-metrics/{metric_id}] *)
Definition get_ping_metric (metric_id : Z) : M PingMetricRow :=
  try_except
    (metric ← get_ping_metric_by_id srv metric_id;
     match metric with
     | None => raise (HTTPException 404 "Ping metric not found")
     | Some metric => mret metric
     end)
    (λ e,
      if is_HTTPException e then raise e
      else
        logger ERROR ("Failed to get ping metric " +:+ pretty metric_id
                      +:+ ": " +:+ exn_str e) ;;
        raise (HTTPException 500 "Failed to retrieve ping metric")).

(** [POST /ping-metrics/] *)
Definition create_ping_metric (metric : PingMetricCreate) : M created_body :=
  try_except
    (metric_id ← crud_create_ping_metric env metric;
     mret {| created_id := metric_id;
             created_message := "Ping metric created successfully";
             created_metric := metric |})
    (λ e,
      logger ERROR ("Failed to create ping metric: " +:+ exn_str e) ;;
      raise (HTTPException 500 "Failed to create ping metric")).

(** [POST /ping-metrics/hosts/{host}/add] *)
Definition add_monitoring_host (host : string) : M hosts_body :=
  try_except
    (add_target_host host ;;
     hosts ← get_target_hosts;
     mret {| hosts_message := "Host " +:+ host +:+ " added to monitoring";
             current_hosts := hosts |})
    (λ e,
      logger ERROR ("Failed to add host " +:+ host +:+ ": " +:+ exn_str e) ;;
      raise (HTTPException 500 ("Failed to add host " +:+ host +:+ " to monitoring"))).

(** [DELETE /ping-metrics/hosts/{host}] *)
Definition remove_monitoring_host (host : string) : M hosts_body :=
  try_except
    (remove_target_host host ;;
     hosts ← get_target_hosts;
     mret {| hosts_message := "Host " +:+ host +:+ " removed from monitoring";
             current_hosts := hosts |})
    (λ e,
      logger ERROR ("Failed to remove host " +:+ host +:+ ": " +:+ exn_str e) ;;
      raise (HTTPException 500
               ("Failed to remove host " +:+ host +:+ " from monitoring"))).

(** [DELETE /ping-metrics/cleanup] *)
Definition cleanup_old_metrics (days : Z) : M cleanup_body :=
  try_except
    (deleted_count ← delete_old_metrics srv days;
     mret {| cleanup_message := "Cleanup completed";
             deleted_records := deleted_count;
             cutoff_days := days |})
    (λ e,
      logger ERROR ("Failed to cleanup old metrics: " +:+ exn_str e) ;;
      raise (HTTPException 500 "Failed to cleanup old metrics")).

(** [GET /ping-metrics/monitoring/status] *)
Definition get_monitoring_status : M status_body :=
  try_except
    (running ← gets (is_running ∘ ping_monitor);
     interval ← gets (ping_interval ∘ ping_monitor);
     hosts ← get_target_hosts;
     clients ← gets clients_of;
     latest ← get_latest_results;
     mret {| status_monitoring_active := running;
             ping_interval_seconds := interval;
             status_target_hosts := hosts;
             status_websocket_clients := size clients;
             latest_results_count := size latest |})
    (λ e,
      logger ERROR ("Failed to get monitoring status: " +:+ exn_str e) ;;
      raise (HTTPException 500 "Failed to get monitoring status")).

(** [POST /ping-metrics/monitoring/start] *)
Definition start_monitoring : M switch_body :=
  try_except
    (monitor_start_monitoring ;;
     mret {| switch_message := "Ping monitoring started"; switch_status := "active" |})
    (λ e,
      logger ERROR ("Failed to start monitoring: " +:+ exn_str e) ;;
      raise (HTTPException 500 "Failed to start monitoring")).

(** [POST /ping-metrics/monitoring/stop] *)
Definition stop_monitoring : M switch_body :=
  try_except
    (monitor_stop_monitoring ;;
     mret {| switch_message := "Ping monitoring stopped"; switch_status := "inactive" |})
    (λ e,
      logger ERROR ("Failed to stop monitoring: " +:+ exn_str e) ;;
      raise (HTTPException 500 "Failed to stop monitoring")).

End Routes.

End router.

(** A computation that fails, if it does, with this exception and no
    other. *)
Definition fails_only_with {A} (e : exn) (m : M A) : Prop :=
  ∀ w e' w', m w = Raise e' w' → e' = e.

(** A computation that does not fail. *)
Definition never_fails {A} (m : M A) : Prop :=
  ∀ w, ∃ a w', m w = Ok a w'.

(* ================================================================== *)
(** * ping_metrics.py: the ISP lookup and its cache *)
(* ================================================================== *)

(** The dict built from the answer of ipinfo.io. *)
Record isp_info := {
  isp_ip : json;
  isp_hostname : json;
  isp_city : json;
  isp_region : json;
  isp_country : json;
  isp_provider : json
}.

(** The module-level [_isp_cache]. *)
Record isp_cache := {
  isp_data : option isp_info;
  isp_timestamp : Q
}.

Definition ISP_CACHE_TTL : Q := 3600.

(** An exception of the [requests] call, and whether its class derives
    from [requests.exceptions.RequestException]. *)
Record raised := {
  raised_exn : exn;
  is_RequestException : bool
}.

(** The response of [requests.get]: its status, its reason phrase and what
    [response.json()] gives. *)
Record http_response := {
  status_code : Z;
  reason : string;
  json_body : raised + json
}.

(** [data.get(key, default)] on a decoded object; of a repeated key the
    last value counts. *)
Definition dict_get_default (data : list (string * json)) (key : string) (default_ : json)
    : json :=
  default default_ (snd <$> List.find (λ kv, String.eqb kv.1 key) (reverse data)).

(** [response.raise_for_status()] *)
Definition raise_for_status (response : http_response) : option raised :=
  let code := status_code response in
  if (400 <=? code) && (code <? 500) then
    Some {| raised_exn := Exn "HTTPError"
              (pretty code +:+ " Client Error: " +:+ reason response
               +:+ " for url: https://ipinfo.io/json");
            is_RequestException := true |}
  else if (500 <=? code) && (code <? 600) then
    Some {| raised_exn := Exn "HTTPError"
              (pretty code +:+ " Server Error: " +:+ reason response
               +:+ " for url: https://ipinfo.io/json");
            is_RequestException := true |}
  else None.

(** The fallback of a rate-limited lookup without cached data. *)
Definition rate_limited_info : isp_info :=
  {| isp_ip := JStr "Unknown"; isp_hostname := JStr "Unknown";
     isp_city := JStr "Unknown"; isp_region := JStr "Unknown";
     isp_country := JStr "Unknown";
     isp_provider := JStr "Rate limited - try again later" |}.

(** What a call leaves: the response or the [HTTPException], the cache, and
    the lines logged. *)
Record isp_outcome := {
  isp_result : exn + isp_info;
  isp_cache_after : isp_cache;
  isp_logged : list (level * string)
}.

(** The [except] clauses of [get_isp_info]. *)
Definition isp_failed (r : raised) (cache : isp_cache) : isp_outcome :=
  if is_RequestException r then
    let logged := [(ERROR, "Request failed to get ISP info: " +:+ exn_str (raised_exn r))] in
    match isp_data cache with
    | Some data =>
        {| isp_result := inr data; isp_cache_after := cache;
           isp_logged := logged ++ [(INFO, "Request failed, returning cached ISP info")] |}
    | None =>
        {| isp_result :=
             inl (HTTPException 503 "ISP information service temporarily unavailable");
           isp_cache_after := cache; isp_logged := logged |}
    end
  else
    let logged := [(ERROR, "Unexpected error getting ISP info: " +:+ exn_str (raised_exn r))] in
    match isp_data cache with
    | Some data =>
        {| isp_result := inr data; isp_cache_after := cache;
           isp_logged := logged ++ [(INFO, "Error occurred, returning cached ISP info")] |}
    | None =>
        {| isp_result := inl (HTTPException 500 "Failed to retrieve ISP information");
           isp_cache_after := cache; isp_logged := logged |}
    end.

(** [GET /ping-metrics/isp-info/], at time [current_time] ([time.time()]),
    given what the request to ipinfo.io would do. *)
Definition get_isp_info (current_time : Q) (net : raised + http_response)
    (cache : isp_cache) : isp_outcome :=
  let fresh :=
    match isp_data cache with
    | Some data =>
        if Qlt_le_dec (current_time - isp_timestamp cache) ISP_CACHE_TTL
        then Some data else None
    | None => None
    end in
  match fresh with
  | Some data =>
      {| isp_result := inr data; isp_cache_after := cache;
         isp_logged := [(INFO, "Returning cached ISP info"%string)] |}
  | None =>
      match net with
      | inl r => isp_failed r cache
      | inr response =>
          if status_code response =? 429 then
            match isp_data cache with
            | Some data =>
                {| isp_result := inr data; isp_cache_after := cache;
                   isp_logged := [(WARNING, "Rate limited, returning cached ISP info"%string)] |}
            | None =>
                {| isp_result := inr rate_limited_info; isp_cache_after := cache;
                   isp_logged :=
                     [(WARNING, "Rate limited and no cached data available"%string)] |}
            end
          else
            match raise_for_status response with
            | Some r => isp_failed r cache
            | None =>
                match json_body response with
                | inl r => isp_failed r cache
                | inr (JObj data) =>
                    let isp_info :=
                      {| isp_ip := dict_get_default data "ip" (JStr "Unknown");
                         isp_hostname := dict_get_default data "hostname" (JStr "Unknown");
                         isp_city := dict_get_default data "city" (JStr "Unknown");
                         isp_region := dict_get_default data "region" (JStr "Unknown");
                         isp_country := dict_get_default data "country" (JStr "Unknown");
                         isp_provider := dict_get_default data "org" (JStr "Unknown") |} in
                    {| isp_result := inr isp_info;
                       isp_cache_after :=
                         {| isp_data := Some isp_info; isp_timestamp := current_time |};
                       isp_logged :=
                         [(INFO, "Successfully retrieved and cached ISP info"%string)] |}
                | inr _ =>
                    isp_failed
                      {| raised_exn := Exn "AttributeError" "object has no attribute 'get'";
                         is_RequestException := false |}
                      cache
                end
            end
      end
  end.

(** A cache filled at time 1000. *)
Definition isp_cache_filled : isp_cache :=
  {| isp_data := Some rate_limited_info; isp_timestamp := 1000 |}.

(** A request that times out. *)
Definition request_timeout : raised + http_response :=
  inl {| raised_exn := Exn "ConnectTimeout" "timed out"; is_RequestException := true |}.

(* ================================================================== *)
(** * main.py: start-up and shutdown *)
(* ================================================================== *)

(** What [asyncpg.create_pool] and [pool.close] do: the exception each
    raises, if it raises. *)
Record Host := {
  create_pool : option exn;
  close_pool : option exn
}.

Module database.

(** [DatabaseManager.connect]; what it prints goes to the standard output,
    which the world does not hold. *)
Definition connect (host : Host) : M unit :=
  try_except
    (match create_pool host with
     | None =>
         modify (set_db (λ d,
           {| pool := true; ping_metrics := ping_metrics d; next_id := next_id d |}))
     | Some e => raise e
     end)
    (λ e, raise e).

(** [DatabaseManager.disconnect]: the pool is closed, and stays in
    [self.pool]. *)
Definition disconnect (host : Host) : M unit :=
  connected ← gets (pool ∘ db_manager);
  if (connected : bool) then
    match close_pool host with
    | None => mret tt
    | Some e => raise e
    end
  else mret tt.

End database.

(** [lifespan], up to its [yield]. *)
Definition lifespan_startup (host : Host) : M unit :=
  logger INFO "Starting WiFi Performance Tracker Backend" ;;
  try_except
    (logger INFO "Connecting to database..." ;;
     database.connect host ;;
     logger INFO "Database connection established" ;;
     logger INFO "Starting ping monitoring service..." ;;
     start_monitoring ;;
     logger INFO "Ping monitoring service started" ;;
     logger INFO "Application startup completed successfully")
    (λ e,
      logger ERROR ("Failed to start application: " +:+ exn_str e) ;;
      raise e).

(** [lifespan], after its [yield]. *)
Definition lifespan_shutdown (host : Host) : M unit :=
  logger INFO "Shutting down WiFi Performance Tracker Backend" ;;
  try_except
    (logger INFO "Stopping ping monitoring service..." ;;
     stop_monitoring ;;
     logger INFO "Ping monitoring service stopped" ;;
     logger INFO "Closing database connection..." ;;
     database.disconnect host ;;
     logger INFO "Database connection closed" ;;
     logger INFO "Application shutdown completed successfully")
    (λ e, logger ERROR ("Error during shutdown: " +:+ exn_str e)).

Record health_status := {
  health : string;
  health_database : string;
  health_ping_monitoring : string;
  target_hosts_count : nat;
  health_websocket_clients : nat;
  health_ping_interval_seconds : Z
}.

(** [GET /health] *)
Definition health_check : M health_status :=
  try_except
    (db_healthy ← gets (pool ∘ db_manager);
     let monitoring_healthy := true in
     target_hosts ← get_target_hosts;
     clients ← gets clients_of;
     running ← gets (is_running ∘ ping_monitor);
     interval ← gets (ping_interval ∘ ping_monitor);
     mret {| health := if db_healthy && monitoring_healthy then "healthy" else "unhealthy";
             health_database := if (db_healthy : bool) then "connected" else "disconnected";
             health_ping_monitoring := if (running : bool) then "active" else "inactive";
             target_hosts_count := length target_hosts;
             health_websocket_clients := size clients;
             health_ping_interval_seconds := interval |})
    (λ e,
      logger ERROR ("Health check failed: " +:+ exn_str e) ;;
      raise (HTTPException 503 "Service unhealthy")).

(** The process before start-up: no pool yet. *)
Definition World_boot : World :=
  set_db (λ d, {| pool := false; ping_metrics := ping_metrics d; next_id := next_id d |})
    (World_init 1).

(** A machine on which the database can be reached, and one on which it
    cannot. *)
Definition good_host : Host := {| create_pool := None; close_pool := None |}.

Definition no_database : Host :=
  {| create_pool := Some (Exn "ConnectionRefusedError" "[Errno 111] Connection refused");
     close_pool := None |}.

(* ================================================================== *)
(** * websocket.py: the two endpoints *)
(* ================================================================== *)

(** The frames an endpoint sends on its own before it listens. *)
Inductive greeting :=
  | connection_established (connection_id : string) (message_ : string)
      (monitoring_active : bool)
  | initial_data (results : gmap string measurement) (timestamp_ : option measurement)
  | hosts_update (results : list string).

(** One turn of [receive_text] and [json.loads]: a text that decodes to a
    value, a text that does not, the end of the connection, or another
    failure of the socket. *)
Inductive inbound :=
  | Text (decoded : option json)
  | Closed
  | Broken (e : exn).

(** The failure of the send of a greeting, if it fails.  Greetings are not
    frames of the command protocol and are not kept on the wire. *)
Record Peer := {
  greet_fault : WebSocket → greeting → option exn
}.

(** [except WebSocketDisconnect], [except json.JSONDecodeError] *)
Definition is_WebSocketDisconnect (e : exn) : bool :=
  String.eqb (exn_class e) "WebSocketDisconnect".

Definition is_JSONDecodeError (e : exn) : bool :=
  String.eqb (exn_class e) "JSONDecodeError".

(** [try: body finally: cleanup] *)
Definition try_finally {A} (body : M A) (cleanup : M unit) : M A := λ w,
  match body w with
  | Ok a w' =>
      match cleanup w' with
      | Ok _ w'' => Ok a w''
      | Raise e w'' => Raise e w''
      end
  | Raise e w' =>
      match cleanup w' with
      | Ok _ w'' => Raise e w''
      | Raise e' w'' => Raise e' w''
      end
  end.

Definition py_type_name (v : json) : string :=
  match v with
  | JNull => "NoneType"
  | JBool _ => "bool"
  | JNum _ => "int"
  | JStr _ => "str"
  | JArr _ => "list"
  | JObj _ => "dict"
  end.

Section Endpoints.
Context (env : Env) (peer : Peer).

Definition greet (websocket : WebSocket) (g : greeting) : M unit := λ w,
  match greet_fault peer websocket g with
  | None => Ok tt w
  | Some e => Raise e w
  end.

(** [data = await websocket.receive_text(); message = json.loads(data)] *)
Definition receive (event : inbound) : M json :=
  match event with
  | Text (Some message) => mret message
  | Text None => raise (Exn "JSONDecodeError" "Expecting value: line 1 column 1 (char 0)")
  | Closed => raise (Exn "WebSocketDisconnect" "")
  | Broken e => raise e
  end.

(** The call of [handle_websocket_message] on what was decoded: only a
    dict has the [get] the handler starts with; of a repeated key the last
    value counts. *)
Definition dispatch (websocket : WebSocket) (connection_id : string) (message : json)
    : M unit :=
  match message with
  | JObj l =>
      handle_websocket_message env websocket connection_id (list_to_map (reverse l))
  | _ =>
      raise (Exn "AttributeError"
               ("'" +:+ py_type_name message +:+ "' object has no attribute 'get'"))
  end.

(** The [while True] of both endpoints, over the traffic of the connection.
    A connection ends with the peer going away: when the script is used up,
    the next [receive_text] raises [WebSocketDisconnect]. *)
Fixpoint receive_loop (websocket : WebSocket) (connection_id : string)
    (script : list inbound) : M unit :=
  match script with
  | [] => logger INFO ("WebSocket " +:+ connection_id +:+ " disconnected normally")
  | event :: rest =>
      continue ←
        try_except
          (message ← receive event;
           dispatch websocket connection_id message ;;
           mret true)
          (λ e,
            if is_WebSocketDisconnect e then
              logger INFO ("WebSocket " +:+ connection_id +:+ " disconnected normally") ;;
              mret false
            else if is_JSONDecodeError e then
              send_json env websocket (Reply (error [Lit "Invalid JSON format"])) ;;
              mret true
            else
              logger ERROR ("Error handling WebSocket message: " +:+ exn_str e) ;;
              send_json env websocket (Reply (error [Lit "Internal server error"])) ;;
              mret true);
      if (continue : bool) then receive_loop websocket connection_id rest
      else mret tt
  end.

(** The two [except] clauses around an endpoint. *)
Definition endpoint_failed (connection_id : string) (e : exn) : M unit :=
  if is_WebSocketDisconnect e
  then logger INFO ("WebSocket " +:+ connection_id +:+ " disconnected during setup")
  else logger ERROR ("WebSocket error: " +:+ exn_str e).

(** The [finally] clause: [if connection_id: disconnect(...)]. *)
Definition endpoint_finally (connection_id : string) (websocket : WebSocket) : M unit :=
  if String.eqb connection_id "" then mret tt
  else disconnect connection_id websocket.

(** [websocket_ping_status].  [connect] does not fail ([accept] is taken to
    succeed), so [connection_id] is bound when the handlers and the
    [finally] clause run. *)
Definition websocket_ping_status (websocket : WebSocket) (script : list inbound)
    : M unit :=
  connection_id ← connect websocket;
  try_finally
    (try_except
       (running ← gets (is_running ∘ ping_monitor);
        greet websocket
          (connection_established connection_id
             "Connected to ping status updates (legacy endpoint)" running) ;;
        latest_results ← get_latest_results;
        (if decide (dom latest_results = ∅) then mret tt
         else
           cache ← gets cache_of;
           greet websocket (initial_data latest_results (cache !! "timestamp"%string))) ;;
        receive_loop websocket connection_id script)
       (endpoint_failed connection_id))
    (endpoint_finally connection_id websocket).

(** [websocket_dns_status] *)
Definition websocket_dns_status (websocket : WebSocket) (script : list inbound)
    : M unit :=
  connection_id ← connect websocket;
  try_finally
    (try_except
       (running ← gets (is_running ∘ ping_monitor);
        greet websocket
          (connection_established connection_id "Connected to DNS status updates" running) ;;
        active_hosts ← get_target_hosts;
        (match active_hosts with
         | [] => mret tt
         | _ => greet websocket (hosts_update active_hosts)
         end) ;;
        receive_loop websocket connection_id script)
       (endpoint_failed connection_id))
    (endpoint_finally connection_id websocket).

End Endpoints.

(** A peer that takes every greeting. *)
Definition quiet_peer : Peer := {| greet_fault := λ _ _, None |}.

(** The traffic of a short session: a command, a text that is not JSON, a
    JSON text that is not an object, and the end. *)
Definition short_session : list inbound :=
  [Text (Some (JObj [("type"%string, JStr "ping")])); Text None;
   Text (Some (JArr [])); Closed].

(* ================================================================== *)
(** * Running computations *)
(* ================================================================== *)

Ltac run :=
  repeat (progress (
    unfold mbind, M_bind, mret, M_ret, gets, modify, logger, raise,
           try_except, compose; simpl)).

Lemma bind_Ok {A B} (m : M A) (f : A → M B) w a w' :
  m w = Ok a w' → (m ≫= f) w = f a w'.
Proof. intros H. unfold mbind, M_bind. by rewrite H. Qed.

Lemma bind_Raise {A B} (m : M A) (f : A → M B) w e w' :
  m w = Raise e w' → (m ≫= f) w = Raise e w'.
Proof. intros H. unfold mbind, M_bind. by rewrite H. Qed.

Lemma try_except_Ok {A} (m : M A) h w a w' :
  m w = Ok a w' → try_except m h w = Ok a w'.
Proof. intros H. unfold try_except. by rewrite H. Qed.

Lemma try_except_Raise {A} (m : M A) h w e w' :
  m w = Raise e w' → try_except m h w = h e w'.
Proof. intros H. unfold try_except. by rewrite H. Qed.

Lemma for_each_app {A} (xs ys : list A) (body : A → M unit) w :
  for_each (xs ++ ys) body w =
  (for_each xs body ;; for_each ys body) w.
Proof.
  revert w. induction xs as [|x xs IH]; intros w; simpl.
  - done.
  - unfold mbind, M_bind. destruct (body x w) as [[] w1|e w1]; [|done].
    rewrite IH. done.
Qed.

(* ================================================================== *)
(** * Frame rules *)
(* ================================================================== *)

Section Frames.
Context {B : Type} (f : World → B).

Lemma preserves_ret {A} (a : A) : preserves f (mret a).
Proof. by intros w. Qed.

Lemma preserves_raise {A} (e : exn) : preserves f (raise e : M A).
Proof. by intros w. Qed.

Lemma preserves_gets {A} (g : World → A) : preserves f (gets g).
Proof. by intros w. Qed.

Lemma preserves_bind {A C} (m : M A) (k : A → M C) :
  preserves f m → (∀ a, preserves f (k a)) → preserves f (m ≫= k).
Proof.
  intros Hm Hk w. specialize (Hm w). unfold mbind, M_bind.
  destruct (m w) as [a w1|e w1]; simpl in *; [|done].
  by rewrite Hk.
Qed.

Lemma preserves_try {A} (m : M A) (h : exn → M A) :
  preserves f m → (∀ e, preserves f (h e)) → preserves f (try_except m h).
Proof.
  intros Hm Hh w. specialize (Hm w). unfold try_except.
  destruct (m w) as [a w1|e w1]; simpl in *; [done|].
  by rewrite Hh.
Qed.

Lemma preserves_modify (g : World → World) :
  (∀ w, f (g w) = f w) → preserves f (modify g).
Proof. intros Hg w. apply Hg. Qed.

Lemma preserves_for_each {A} (xs : list A) (body : A → M unit) :
  (∀ x, preserves f (body x)) → preserves f (for_each xs body).
Proof.
  intros Hb. induction xs as [|x xs IH]; simpl.
  - apply preserves_ret.
  - apply preserves_bind; [apply Hb|by intros _].
Qed.

(** A computation that only reads. *)
Lemma preserves_reader {A} (m : M A) :
  (∀ w, final (m w) = w) → preserves f m.
Proof. intros Hm w. by rewrite Hm. Qed.

Lemma preserves_eval {C} (r : exn + C) : preserves f (eval r).
Proof. by destruct r. Qed.

End Frames.

Ltac frame_step :=
  first
    [ apply preserves_ret | apply preserves_raise | apply preserves_gets
    | apply preserves_eval
    | apply preserves_modify; intros ?; reflexivity
    | apply preserves_bind; [|intros ?]
    | apply preserves_try; [|intros ?]
    | apply preserves_for_each; intros ?
    | match goal with
      | |- preserves _ (if ?b then _ else _) => destruct b
      | |- preserves _ (match ?x with _ => _ end) => destruct x
      end ].

Ltac frame := unfold logger; repeat frame_step.

(* ================================================================== *)
(** * The target registry *)
(* ================================================================== *)

Section Registry.

Lemma list_remove_elem x l : x ∈ l → is_Some (list_remove x l).
Proof.
  induction l as [|y l IH]; intros Hin; simpl.
  - by apply elem_of_nil in Hin.
  - case_decide as Hxy; [by eexists|].
    apply elem_of_cons in Hin as [?|Hin]; [done|].
    destruct (IH Hin) as [l' ->]. by eexists.
Qed.

Lemma list_remove_absent x l : x ∉ l → list_remove x l = None.
Proof.
  induction l as [|y l IH]; intros Hnin; simpl; [done|].
  apply not_elem_of_cons in Hnin as [Hne Hnin].
  case_decide; [done|]. by rewrite IH.
Qed.

Lemma filter_ne_absent (x : string) (l : list string) :
  x ∉ l → filter (λ y, y ≠ x) l = l.
Proof.
  induction l as [|y l IH]; intros Hnin; [done|].
  apply not_elem_of_cons in Hnin as [Hne Hnin].
  rewrite filter_cons_True by done. by rewrite IH.
Qed.

(** Under [NoDup], dropping the first occurrence drops them all. *)
Lemma list_remove_filter x l l' :
  NoDup l → list_remove x l = Some l' → l' = filter (λ y, y ≠ x) l.
Proof.
  revert l'. induction l as [|y l IH]; intros l' Hnd Hrm; simpl in *; [done|].
  apply NoDup_cons in Hnd as [Hy Hnd].
  case_decide as Hxy.
  - simplify_eq. rewrite filter_cons_False by naive_solver.
    by rewrite filter_ne_absent.
  - destruct (list_remove x l) as [l0|] eqn:E; simplify_eq/=.
    rewrite filter_cons_True by naive_solver.
    f_equal. by apply IH.
Qed.

Lemma list_remove_NoDup x l l' :
  NoDup l → list_remove x l = Some l' → NoDup l' ∧ x ∉ l'.
Proof.
  intros Hnd Hrm. rewrite (list_remove_filter _ _ _ Hnd Hrm). split.
  - by apply NoDup_filter.
  - by intros [? _]%list_elem_of_filter.
Qed.

(** [add_target_host] never raises and only ever appends. *)
Lemma add_target_host_run (w : World) (h : string) :
  add_target_host h w =
    Ok tt (if decide (h ∈ hosts_of w) then w
           else push_log INFO ("Added new target host: " +:+ h)
                  (set_monitor (with_target_hosts (hosts_of w ++ [h])) w)).
Proof. unfold add_target_host. run. by case_decide. Qed.

Lemma add_target_host_NoDup (w w' : World) (h : string) :
  NoDup (hosts_of w) → add_target_host h w = Ok tt w' → NoDup (hosts_of w').
Proof.
  rewrite add_target_host_run. intros Hnd [= <-].
  case_decide as Hin; [done|]. unfold hosts_of in *; simpl.
  apply NoDup_app. split_and!; [done| |apply NoDup_singleton].
  intros x Hx ->%list_elem_of_singleton. done.
Qed.

(** What [remove_target_host] does on a registered host. *)
Lemma remove_target_host_run (w : World) (h : string) (hosts' : list string) :
  h ∈ hosts_of w →
  list_remove h (hosts_of w) = Some hosts' →
  remove_target_host h w =
    Ok tt (push_log INFO ("Removed target host: " +:+ h)
             (set_monitor (with_latest_results (delete h (cache_of w)))
                (set_monitor (with_target_hosts hosts') w))).
Proof.
  intros Hin Hrm. unfold remove_target_host. run.
  rewrite decide_True by done. rewrite Hrm. run.
  unfold cache_of; simpl. case_decide as Hdom; run; [done|].
  apply not_elem_of_dom in Hdom. rewrite (delete_id _ _ Hdom).
  by destruct w as [[] ? ? ? ? ?].
Qed.

Lemma remove_target_host_absent (w : World) (h : string) :
  h ∉ hosts_of w → remove_target_host h w = Ok tt w.
Proof. intros Hnin. unfold remove_target_host. run. by rewrite decide_False. Qed.

(** [remove_target_host] never raises: the guard rules the [ValueError]
    out. *)
Lemma remove_target_host_returns (w : World) (h : string) :
  ∃ w', remove_target_host h w = Ok tt w'.
Proof.
  destruct (decide (h ∈ hosts_of w)) as [Hin|Hnin].
  - destruct (list_remove_elem _ _ Hin) as [l' Hl'].
    eexists. by apply remove_target_host_run.
  - exists w. by apply remove_target_host_absent.
Qed.

Lemma remove_target_host_NoDup (w w' : World) (h : string) :
  NoDup (hosts_of w) → remove_target_host h w = Ok tt w' → NoDup (hosts_of w').
Proof.
  intros Hnd Hrun. destruct (decide (h ∈ hosts_of w)) as [Hin|Hnin].
  - destruct (list_remove_elem _ _ Hin) as [l' Hl'].
    rewrite (remove_target_host_run _ _ _ Hin Hl') in Hrun.
    injection Hrun as <-. unfold hosts_of; simpl.
    by apply (list_remove_NoDup h (hosts_of w)).
  - rewrite remove_target_host_absent in Hrun by done. by injection Hrun as <-.
Qed.

Lemma PingMonitor_init_NoDup interval : NoDup (target_hosts (PingMonitor_init interval)).
Proof. simpl. apply (bool_decide_unpack (NoDup _)). by vm_compute. Qed.

(** C8. On a deduplicated registry, [remove_target_host h] for a registered
    [h] returns normally and, in the state it returns in, [h] is gone from
    the registry and from the result cache, the other hosts are the ones
    registered before, in the same order, every other cache entry is what it
    was, and the subscribers are untouched. *)
Theorem remove_target_host_evicts (w : World) (h : string) :
  NoDup (hosts_of w) →
  h ∈ hosts_of w →
  ∃ w', remove_target_host h w = Ok tt w' ∧
        (h ∉ hosts_of w') ∧
        cache_of w' !! h = None ∧
        hosts_of w' = filter (λ x, x ≠ h) (hosts_of w) ∧
        (∀ h', h' ≠ h → (h' ∈ hosts_of w' ↔ h' ∈ hosts_of w)) ∧
        (∀ h', h' ≠ h → cache_of w' !! h' = cache_of w !! h') ∧
        clients_of w' = clients_of w.
Proof.
  intros Hnd Hin.
  destruct (list_remove_elem _ _ Hin) as [l' Hl'].
  eexists. split; [by apply remove_target_host_run|].
  destruct (list_remove_NoDup _ _ _ Hnd Hl') as [_ Hgone].
  pose proof (list_remove_filter _ _ _ Hnd Hl') as Hfil.
  unfold hosts_of, cache_of, clients_of in *; simpl.
  split_and!; [done|by apply lookup_delete_eq|done| | |done].
  - intros h' Hne. rewrite Hfil, list_elem_of_filter. tauto.
  - intros h' Hne. by apply lookup_delete_ne.
Qed.

Lemma remove_target_host_evicts_witness :
  NoDup (hosts_of World_cached) ∧
  "google.com"%string ∈ hosts_of World_cached ∧
  ∃ w', remove_target_host "google.com" World_cached = Ok tt w' ∧
        ("google.com"%string ∉ hosts_of w') ∧
        cache_of w' !! "google.com"%string = None ∧
        hosts_of w' = filter (λ x, x ≠ "google.com"%string) (hosts_of World_cached) ∧
        (∀ h', h' ≠ "google.com"%string → (h' ∈ hosts_of w' ↔ h' ∈ hosts_of World_cached)) ∧
        (∀ h', h' ≠ "google.com"%string → cache_of w' !! h' = cache_of World_cached !! h') ∧
        clients_of w' = clients_of World_cached.
Proof.
  assert (Hnd : NoDup (hosts_of World_cached))
    by (apply (bool_decide_unpack (NoDup _)); vm_compute; exact I).
  assert (Hin : "google.com"%string ∈ hosts_of World_cached)
    by (apply (bool_decide_unpack (_ ∈ _)); vm_compute; exact I).
  exact (conj Hnd (conj Hin (remove_target_host_evicts World_cached "google.com" Hnd Hin))).
Defined.

(** C9. [add_target_host h] leaves the whole state as it is when [h] is
    registered; a second call right after a first changes nothing; and any
    sequence of calls on a deduplicated registry (the one [__init__] builds
    is) ends, without raising, in a deduplicated registry. *)
Theorem add_target_host_idempotent (w : World) (h : string) :
  (h ∈ hosts_of w → add_target_host h w = Ok tt w) ∧
  (∃ w', add_target_host h w = Ok tt w' ∧ add_target_host h w' = Ok tt w') ∧
  (NoDup (hosts_of w) →
   ∀ hs, ∃ w', for_each hs add_target_host w = Ok tt w' ∧ NoDup (hosts_of w')).
Proof.
  split_and!.
  - intros Hin. rewrite add_target_host_run. by rewrite decide_True.
  - rewrite add_target_host_run. eexists. split; [done|].
    rewrite add_target_host_run. f_equal.
    destruct (decide (h ∈ hosts_of w)) as [Hin|Hnin].
    + by rewrite decide_True.
    + rewrite decide_True; [done|].
      unfold hosts_of; simpl. apply elem_of_app. right.
      by apply list_elem_of_singleton.
  - intros Hnd hs. revert w Hnd.
    induction hs as [|x hs IH]; intros w Hnd; simpl.
    + by eexists.
    + pose proof (add_target_host_run w x) as Hrun.
      rewrite (bind_Ok _ _ _ _ _ Hrun).
      apply IH. by eapply add_target_host_NoDup.
Qed.

Lemma add_target_host_idempotent_witness :
  "github.com"%string ∈ hosts_of (World_init 1) ∧
  NoDup (hosts_of (World_init 1)) ∧
  add_target_host "github.com" (World_init 1) = Ok tt (World_init 1) ∧
  ∃ w', for_each ["example.org"; "github.com"; "example.org"]%string
          add_target_host (World_init 1) = Ok tt w' ∧
        NoDup (hosts_of w').
Proof.
  assert (Hin : "github.com"%string ∈ hosts_of (World_init 1))
    by (apply (bool_decide_unpack (_ ∈ _)); vm_compute; exact I).
  assert (Hnd : NoDup (hosts_of (World_init 1)))
    by (apply (bool_decide_unpack (NoDup _)); vm_compute; exact I).
  pose proof (add_target_host_idempotent (World_init 1) "github.com") as (H1 & _ & H3).
  exact (conj Hin (conj Hnd (conj (H1 Hin) (H3 Hnd _)))).
Defined.

(** C10. [remove_target_host h] for an [h] that is not registered returns
    normally and leaves the whole state, registry and result cache included,
    as it was; hence on a deduplicated registry a second removal of the same
    host changes nothing. *)
Theorem remove_target_host_absent_noop (w : World) (h : string) :
  (h ∉ hosts_of w → remove_target_host h w = Ok tt w) ∧
  (NoDup (hosts_of w) →
   ∃ w', remove_target_host h w = Ok tt w' ∧ remove_target_host h w' = Ok tt w').
Proof.
  split; [apply remove_target_host_absent|].
  intros Hnd. destruct (decide (h ∈ hosts_of w)) as [Hin|Hnin].
  - destruct (list_remove_elem _ _ Hin) as [l' Hl'].
    eexists. split; [by apply remove_target_host_run|].
    apply remove_target_host_absent. unfold hosts_of; simpl.
    by apply (list_remove_NoDup h (hosts_of w)).
  - exists w. by rewrite remove_target_host_absent.
Qed.

Lemma remove_target_host_absent_noop_witness :
  ("example.org"%string ∉ hosts_of World_cached) ∧
  NoDup (hosts_of World_cached) ∧
  remove_target_host "example.org" World_cached = Ok tt World_cached ∧
  ∃ w', remove_target_host "8.8.8.8" World_cached = Ok tt w' ∧
        remove_target_host "8.8.8.8" w' = Ok tt w'.
Proof.
  assert (Hnin : "example.org"%string ∉ hosts_of World_cached)
    by (apply (bool_decide_unpack (_ ∉ _)); vm_compute; exact I).
  assert (Hnd : NoDup (hosts_of World_cached))
    by (apply (bool_decide_unpack (NoDup _)); vm_compute; exact I).
  exact (conj Hnin (conj Hnd
           (conj (proj1 (remove_target_host_absent_noop World_cached "example.org") Hnin)
                 (proj2 (remove_target_host_absent_noop World_cached "8.8.8.8") Hnd)))).
Defined.

End Registry.

(* ================================================================== *)
(** * The prober *)
(* ================================================================== *)

Section Prober.
Context (env : Env).

Lemma ping_host_run (h : string) (timeout : Z) (w : World) :
  ping_host env h timeout w
    = Ok (measured h (clock w) (ping env (clock w) h timeout)) w.
Proof.
  unfold ping_host, call_ping, call_round2, utcnow, measured. run.
  by destruct (ping env (clock w) h timeout) as [e|[|x|b|t]].
Qed.

(** For every host and timeout, and whatever the library does, [ping_host]
    returns a measurement, never an exception, and changes nothing; a
    measurement with [packet_loss] has an [error_message], one without has a
    [response_time_ms]; a probe that comes back with [None] or that raises
    is reported as [packet_loss] with an [error_message]. *)
Lemma ping_host_total (h : string) (timeout : Z) (w : World) :
  ∃ m, ping_host env h timeout w = Ok m w ∧
       host m = h ∧
       (packet_loss m = true → is_Some (error_message m)) ∧
       (packet_loss m = false → is_Some (response_time_ms m)) ∧
       (ping env (clock w) h timeout = inr PyNone →
        packet_loss m = true ∧
        error_message m = Some "Ping timeout or host unreachable"%string) ∧
       (∀ e, ping env (clock w) h timeout = inl e →
        packet_loss m = true ∧ error_message m = Some (exn_str e)).
Proof.
  eexists. split; [apply ping_host_run|]. unfold measured.
  destruct (ping env (clock w) h timeout) as [e|[|x|b|t]]; simpl;
    split_and!; try done; try (intros; by eexists).
  intros e' [= <-]. done.
Qed.

(** The library's other way of reporting a failure, the value [False], is
    not [None]: the probe is reported as answered, in [round(False, 2)]
    milliseconds. *)
Lemma ping_host_False (h : string) (timeout : Z) (w : World) :
  ping env (clock w) h timeout = inr (PyBool false) →
  ping_host env h timeout w
    = Ok {| host := h; response_time_ms := Some 0%Q; packet_loss := false;
            error_message := None; timestamp := clock w |} w.
Proof. intros H. rewrite ping_host_run, H. reflexivity. Qed.

(** The prober yields one measurement per host of the snapshot, in order,
    and never raises. *)
Lemma gather_ping_host (hosts : list string) (w : World) :
  ∃ results, gather (λ host, ping_host env host 3) hosts w = Ok results w ∧
             host <$> results = hosts.
Proof.
  induction hosts as [|h hosts [rs [Hrs Hhosts]]]; simpl.
  - by exists [].
  - rewrite (bind_Ok _ _ _ _ _ (ping_host_run h 3 w)).
    rewrite (bind_Ok _ _ _ _ _ Hrs). eexists. split; [done|].
    rewrite fmap_cons, Hhosts. f_equal. unfold measured.
    by destruct (ping env (clock w) h 3) as [e|[|x|b|t]].
Qed.

Lemma ping_all_hosts_run (w : World) :
  ∃ results, ping_all_hosts env w = Ok results w ∧
             host <$> results = hosts_of w.
Proof. unfold ping_all_hosts. run. apply gather_ping_host. Qed.

End Prober.

(** C5, where the code departs from it.  [no-such-host.invalid] cannot be
    resolved; ping3 returns [False] for it, as for every error it meets with
    its [EXCEPTIONS] switch off.  [ping_host] tests the value against [None]
    alone, so the probe is reported as answered in 0 ms: [packet_loss] is
    false and there is no [error_message].  The probe that times out, for
    which ping3 returns [None], is reported as lost. *)
Theorem ping_host_unresolved_is_no_loss :
  ping dead_env (clock (World_init 1)) "no-such-host.invalid" 3 = inr (PyBool false) ∧
  ping_host dead_env "no-such-host.invalid" 3 (World_init 1)
    = Ok {| host := "no-such-host.invalid"; response_time_ms := Some 0%Q;
            packet_loss := false; error_message := None;
            timestamp := clock (World_init 1) |} (World_init 1) ∧
  ping dead_env (clock (World_init 1)) "198.51.100.7" 3 = inr PyNone ∧
  ping_host dead_env "198.51.100.7" 3 (World_init 1)
    = Ok {| host := "198.51.100.7"; response_time_ms := None;
            packet_loss := true;
            error_message := Some "Ping timeout or host unreachable"%string;
            timestamp := clock (World_init 1) |} (World_init 1).
Proof. split_and!; reflexivity. Qed.

(* ================================================================== *)
(** * The broadcaster of the monitor *)
(* ================================================================== *)

Section Broadcaster.
Context (env : Env).

Lemma same_services_refl w : same_services w w.
Proof. by repeat split. Qed.

Lemma same_services_trans w1 w2 w3 :
  same_services w1 w2 → same_services w2 w3 → same_services w1 w3.
Proof.
  unfold same_services.
  intros (-> & -> & -> & -> & -> & ->) (-> & -> & -> & -> & -> & ->). done.
Qed.

Lemma deliver_run data flag c w :
  deliver env data flag c w =
    if eligible flag c then send_json env c (Broadcast data) w else Ok tt w.
Proof.
  unfold deliver, eligible, on_dns_status, on_ping_status.
  destruct flag; simpl;
    by destruct (contains _ (client_path c)).
Qed.

(** One turn of the loop: what it leaves on the wire and in
    [clients_to_remove]. *)
Lemma broadcast_turn data flag c (R : gset WebSocket) w :
  ∃ w',
    try_except
      (deliver env data flag c ;; mret R)
      (λ e, logger WARNING ("Failed to send data to WebSocket client: " +:+ exn_str e) ;;
            mret ({[c]} ∪ R)) w
    = Ok (if eligible flag c && send_fails env (Broadcast data) c then {[c]} ∪ R else R) w' ∧
    wire w' = wire w ++ (if eligible flag c then [attempt_of env (Broadcast data) c] else []) ∧
    ping_monitor w' = ping_monitor w ∧
    websocket_manager w' = websocket_manager w ∧
    same_services w w'.
Proof.
  unfold try_except, mbind, M_bind. rewrite deliver_run.
  unfold send_fails, attempt_of, send_json.
  destruct (eligible flag c); simpl.
  - destruct (send_fault env c (Broadcast data)) as [e|] eqn:E; simpl.
    + eexists. split; [run; done|]. simpl. by repeat split.
    + eexists. split; [run; done|]. simpl. by repeat split.
  - eexists. split; [run; done|]. rewrite app_nil_r. by repeat split.
Qed.

Lemma broadcast_loop_run cs data flag (R : gset WebSocket) w :
  ∃ w',
    broadcast_loop env cs data flag R w
    = Ok (list_to_set (List.filter (λ c, eligible flag c && send_fails env (Broadcast data) c) cs) ∪ R) w' ∧
    wire w' = wire w ++ (attempt_of env (Broadcast data) <$> List.filter (eligible flag) cs) ∧
    ping_monitor w' = ping_monitor w ∧
    websocket_manager w' = websocket_manager w ∧
    same_services w w'.
Proof.
  revert R w. induction cs as [|c cs IH]; intros R w; simpl.
  - exists w. rewrite app_nil_r, (left_id_L ∅ (∪)).
    split; [done|]. repeat split; done.
  - destruct (broadcast_turn data flag c R w) as (w1 & Hturn & Hwire1 & Hmon1 & Hman1 & Hsame1).
    rewrite (bind_Ok _ _ _ _ _ Hturn).
    destruct (IH (if eligible flag c && send_fails env (Broadcast data) c
                  then {[c]} ∪ R else R) w1)
      as (w2 & Hloop & Hwire2 & Hmon2 & Hman2 & Hsame2).
    exists w2. rewrite Hloop, Hwire2, Hwire1, Hmon2, Hmon1, Hman2, Hman1.
    split_and!; [| |done|done|by eapply same_services_trans].
    + f_equal. destruct (eligible flag c); simpl; [|done].
      destruct (send_fails env (Broadcast data) c); simpl; [|done].
      set_solver.
    + rewrite <- app_assoc. f_equal. by destruct (eligible flag c).
Qed.

(** The loop that discards the failed clients. *)
Lemma discard_loop_run (l : list WebSocket) w :
  ∃ w',
    for_each l (discard_client) w = Ok tt w' ∧
    clients_of w' = clients_of w ∖ list_to_set l ∧
    wire w' = wire w ∧
    websocket_manager w' = websocket_manager w ∧
    same_services w w'.
Proof.
  revert w. induction l as [|c l IH]; intros w; simpl.
  - exists w. split; [done|]. split; [set_solver|]. by repeat split.
  - rewrite (bind_Ok _ _ w tt
      (set_monitor (λ m, with_websocket_clients (websocket_clients m ∖ {[c]}) m) w))
      by reflexivity.
    destruct (IH (set_monitor (λ m, with_websocket_clients (websocket_clients m ∖ {[c]}) m) w))
      as (w' & Hrun & Hcl & Hwire & Hman & Hsame).
    exists w'. rewrite Hrun, Hcl, Hwire, Hman. split; [done|].
    split; [unfold clients_of; simpl; set_solver|].
    split; [done|]. split; [done|].
    eapply same_services_trans; [|exact Hsame]. by repeat split.
Qed.

(** [broadcast_to_websockets], whole: it returns normally; the wire gets one
    attempt per eligible subscriber, carrying the routed payload; the
    subscribers become those whose attempt did not fail. *)
Lemma broadcast_to_websockets_run (data : envelope) (w : World) :
  ∃ w',
    broadcast_to_websockets env data w = Ok tt w' ∧
    wire w' = wire w ++
      (attempt_of env (Broadcast (route data).1)
         <$> List.filter (eligible (route data).2) (elements (clients_of w))) ∧
    clients_of w' = clients_of w ∖
      list_to_set (List.filter (λ c, eligible (route data).2 c
                                     && send_fails env (Broadcast (route data).1) c)
                     (elements (clients_of w))) ∧
    websocket_manager w' = websocket_manager w ∧
    same_services w w'.
Proof.
  unfold broadcast_to_websockets. run.
  case_decide as Hempty.
  - exists w. rewrite Hempty, elements_empty. simpl. rewrite app_nil_r.
    split; [done|]. split; [done|]. split; [set_solver|].
    split; [done|apply same_services_refl].
  - destruct (route data) as [data' flag]; simpl.
    destruct (broadcast_loop_run (elements (clients_of w)) data' flag ∅ w)
      as (w1 & Hloop & Hwire1 & Hmon1 & Hman1 & Hsame1).
    rewrite Hloop. rewrite (right_id_L ∅ (∪)).
    match goal with |- context [for_each (elements ?R) _ w1] =>
      destruct (discard_loop_run (elements R) w1)
        as (w2 & Hdis & Hcl2 & Hwire2 & Hman2 & Hsame2)
    end.
    exists w2. rewrite Hdis, Hwire2, Hwire1, Hman2, Hman1, Hcl2.
    split_and!; [done|done| |done|by eapply same_services_trans].
    unfold clients_of. rewrite Hmon1. f_equal.
    apply set_eq. intros x. rewrite !elem_of_list_to_set, elem_of_elements.
    by rewrite elem_of_list_to_set.
Qed.

(** ** Routing *)

Lemma is_dns_host_spec r : is_dns_host r = true ↔ host r ∈ DNS_HOSTS.
Proof. unfold is_dns_host. by rewrite bool_decide_eq_true. Qed.

Lemma filter_dns_targets (l : list measurement) :
  Forall (λ t, t ∈ DNS_HOSTS) (host <$> List.filter is_dns_host l).
Proof.
  apply Forall_fmap, Forall_forall. intros r Hr.
  apply list_elem_of_In, filter_In in Hr as [_ Hr]. by apply is_dns_host_spec.
Qed.

Lemma filter_dns_nil (l : list measurement) :
  Forall (λ t, t ∉ DNS_HOSTS) (host <$> l) → List.filter is_dns_host l = [].
Proof.
  induction l as [|r l IH]; simpl; [done|].
  intros [Hr Hl]%Forall_cons. rewrite (IH Hl).
  destruct (is_dns_host r) eqn:E; [|done]. by apply is_dns_host_spec in E.
Qed.

(** When the flag is raised the payload is a [dns_status_update] that names
    DNS resolvers only. *)
Lemma route_dns_update (data : envelope) :
  (route data).2 = true →
  e_type (route data).1 = Some "dns_status_update"%string ∧
  Forall (λ t, t ∈ DNS_HOSTS) (payload_targets (route data).1).
Proof.
  unfold route.
  destruct (bool_decide (e_type data = Some "ping_result"%string)
            && bool_decide (is_Some (e_result data))).
  - destruct (e_result data) as [r|]; [|done].
    destruct (is_dns_host r) eqn:E; [|done]. intros _. split; [done|].
    unfold payload_targets; simpl. apply Forall_singleton. by apply is_dns_host_spec.
  - destruct (bool_decide (e_type data = Some "ping_update"%string)
              && bool_decide (default [] (e_results data) ≠ [])); [|done].
    simpl. case_bool_decide; [|done]. intros _. split; [done|].
    unfold payload_targets; simpl. apply filter_dns_targets.
Qed.

(** Otherwise the payload is the caller's, as it came. *)
Lemma route_passthrough (data : envelope) :
  (route data).2 = false → (route data).1 = data.
Proof.
  unfold route.
  destruct (bool_decide (e_type data = Some "ping_result"%string)
            && bool_decide (is_Some (e_result data))).
  - destruct (e_result data) as [r|]; [|done]. by destruct (is_dns_host r).
  - destruct (bool_decide (e_type data = Some "ping_update"%string)
              && bool_decide (default [] (e_results data) ≠ [])); [|done].
    simpl. by case_bool_decide.
Qed.

(** A payload that names no DNS resolver never raises the flag. *)
Lemma route_no_dns (data : envelope) :
  Forall (λ t, t ∉ DNS_HOSTS) (payload_targets data) →
  (route data).2 = false.
Proof.
  unfold payload_targets. rewrite fmap_app. intros [H1 H2]%Forall_app.
  unfold route.
  destruct (bool_decide (e_type data = Some "ping_result"%string)
            && bool_decide (is_Some (e_result data))).
  - destruct (e_result data) as [r|]; [|done].
    destruct (is_dns_host r) eqn:E; [|done].
    apply is_dns_host_spec in E. simpl in H1.
    apply Forall_cons in H1 as [Hr _]. by destruct Hr.
  - destruct (bool_decide (e_type data = Some "ping_update"%string)
              && bool_decide (default [] (e_results data) ≠ [])); [|done].
    simpl. rewrite (filter_dns_nil _ H2). done.
Qed.

(** A cycle's envelope raises the flag exactly when a DNS resolver was
    probed. *)
Lemma route_ping_update (now : datetime) (results : list measurement) :
  (route (ping_update now results)).2 = true ↔
  Exists (λ r, host r ∈ DNS_HOSTS) results.
Proof.
  unfold route; simpl.
  destruct results as [|r0 results]; simpl.
  { split; [done|]. by intros ?%Exists_nil. }
  set (l := r0 :: results).
  change (if is_dns_host r0 then r0 :: List.filter is_dns_host results
          else List.filter is_dns_host results) with (List.filter is_dns_host l).
  rewrite Exists_exists. split.
  - case_bool_decide as Hne; [|done]. intros _.
    destruct (List.filter is_dns_host l) as [|r l'] eqn:E; [done|].
    assert (Hr : In r (List.filter is_dns_host l)) by (rewrite E; by left).
    apply filter_In in Hr as [Hr Hd]. exists r. split.
    + by apply list_elem_of_In.
    + by apply is_dns_host_spec.
  - intros (r & Hr & Hd). rewrite bool_decide_eq_true_2; [done|].
    intros E. assert (Hin : In r (List.filter is_dns_host l)).
    { apply filter_In. split; [by apply list_elem_of_In|by apply is_dns_host_spec]. }
    by rewrite E in Hin.
Qed.

Lemma eligible_dns_only flag c :
  topic_of c = Some dns_only → eligible flag c = flag.
Proof.
  unfold topic_of, eligible.
  destruct (on_ping_status c), (on_dns_status c); try done.
  intros _. by destruct flag.
Qed.

Lemma eligible_full flag c :
  topic_of c = Some full → eligible flag c = negb flag.
Proof.
  unfold topic_of, eligible.
  destruct (on_ping_status c), (on_dns_status c); try done.
  intros _. by destruct flag.
Qed.

End Broadcaster.

(* ================================================================== *)
(** * The connection manager *)
(* ================================================================== *)

Section Manager.
Context (env : Env).

Lemma dict_del_absent id (d : list (string * WebSocket)) :
  dict_get id d = None → dict_del id d = d.
Proof.
  unfold dict_get, dict_del. induction d as [|[k v] d IH]; simpl; [done|].
  destruct (String.eqb k id); simpl; [done|]. intros H. by rewrite IH.
Qed.

Lemma dict_get_del id (d : list (string * WebSocket)) :
  dict_get id (dict_del id d) = None.
Proof.
  unfold dict_get, dict_del. induction d as [|[k v] d IH]; simpl; [done|].
  destruct (String.eqb k id) eqn:E; simpl; [done|]. by rewrite E.
Qed.


Lemma disconnect_run (id : string) (ws : WebSocket) (w : World) :
  ∃ w',
    disconnect id ws w = Ok tt w' ∧
    active_connections (websocket_manager w')
      = dict_del id (active_connections (websocket_manager w)) ∧
    clients_of w' = clients_of w ∖ {[ws]} ∧
    wire w' = wire w ∧
    same_services w w'.
Proof.
  unfold disconnect, remove_websocket_client, discard_client. run.
  case_decide as Hin; run.
  - eexists. split; [done|]. simpl. by repeat split.
  - eexists. split; [done|]. simpl. split; [|by repeat split].
    symmetry. apply dict_del_absent.
    by destruct (dict_get id (active_connections (websocket_manager w))) eqn:E;
      [destruct Hin; eexists|].
Qed.

Lemma manager_broadcast_turn message id ws (D : list (string * WebSocket)) w :
  ∃ w',
    try_except
      (send_json env ws message ;; mret D)
      (λ e, logger ERROR ("Failed to broadcast to " +:+ id +:+ ": " +:+ exn_str e) ;;
            mret (D ++ [(id, ws)])) w
    = Ok (if send_fails env message ws then D ++ [(id, ws)] else D) w' ∧
    wire w' = wire w ++ [attempt_of env message ws] ∧
    ping_monitor w' = ping_monitor w ∧
    websocket_manager w' = websocket_manager w ∧
    same_services w w'.
Proof.
  unfold try_except, mbind, M_bind, send_fails, attempt_of, send_json.
  destruct (send_fault env ws message) as [e|]; simpl.
  - eexists. split; [run; done|]. simpl. by repeat split.
  - eexists. split; [run; done|]. simpl. by repeat split.
Qed.

Lemma manager_broadcast_loop_run items message (D : list (string * WebSocket)) w :
  ∃ w',
    manager_broadcast_loop env items message D w
    = Ok (D ++ List.filter (λ kv, send_fails env message kv.2) items) w' ∧
    wire w' = wire w ++ (attempt_of env message ∘ snd <$> items) ∧
    ping_monitor w' = ping_monitor w ∧
    websocket_manager w' = websocket_manager w ∧
    same_services w w'.
Proof.
  revert D w. induction items as [|[id ws] items IH]; intros D w; simpl.
  - exists w. rewrite !app_nil_r. split; [done|]. by repeat split.
  - destruct (manager_broadcast_turn message id ws D w)
      as (w1 & Hturn & Hwire1 & Hmon1 & Hman1 & Hsame1).
    rewrite (bind_Ok _ _ _ _ _ Hturn).
    destruct (IH (if send_fails env message ws then D ++ [(id, ws)] else D) w1)
      as (w2 & Hloop & Hwire2 & Hmon2 & Hman2 & Hsame2).
    exists w2. rewrite Hloop, Hwire2, Hwire1, Hmon2, Hmon1, Hman2, Hman1.
    split_and!; [| |done|done|by eapply same_services_trans].
    + f_equal. destruct (send_fails env message ws); simpl; [|done].
      by rewrite <- app_assoc.
    + by rewrite <- app_assoc.
Qed.



End Manager.

(* ================================================================== *)
(** * Fan-out: failure isolation and topic filtering *)
(* ================================================================== *)

Section FanOut.
Context (env : Env).


Lemma elem_of_attempts (f : frame) (P : WebSocket → bool) (l : list WebSocket) (a : attempt) :
  a ∈ attempt_of env f <$> List.filter P l ↔
  ∃ c, a = attempt_of env f c ∧ c ∈ l ∧ P c = true.
Proof.
  rewrite list_elem_of_fmap. split.
  - intros (c & -> & Hc). exists c. split; [done|].
    apply list_elem_of_In, filter_In in Hc as [Hc HP]. split; [|done].
    by apply list_elem_of_In.
  - intros (c & -> & Hc & HP). exists c. split; [done|].
    apply list_elem_of_In, filter_In. split; [|done]. by apply list_elem_of_In.
Qed.


(** What the routing does for a socket whose [path] attribute names the
    DNS endpoint: whatever is attempted towards it is a [dns_status_update]
    whose payload names DNS resolvers only; and when the payload handed in
    names no DNS resolver, nothing is attempted towards it. *)
Lemma dns_path_gets_dns_only (data : envelope) (w : World) (c : WebSocket) :
  topic_of c = Some dns_only →
  ∃ w' delta,
    broadcast_to_websockets env data w = Ok tt w' ∧
    wire w' = wire w ++ delta ∧
    (∀ a, a ∈ delta → to a = c →
       ∃ d, payload a = Broadcast d ∧
            e_type d = Some "dns_status_update"%string ∧
            Forall (λ t, t ∈ DNS_HOSTS) (payload_targets d)) ∧
    (Forall (λ t, t ∉ DNS_HOSTS) (payload_targets data) →
     ∀ a, a ∈ delta → to a ≠ c).
Proof.
  intros Htopic.
  destruct (broadcast_to_websockets_run env data w) as (w' & Hrun & Hwire & _).
  exists w'. eexists. split; [exact Hrun|]. split; [exact Hwire|]. split.
  - intros a (c' & -> & Hc & He)%elem_of_attempts Hto. simpl in Hto. subst c'.
    rewrite (eligible_dns_only _ _ Htopic) in He.
    exists (route data).1. split; [done|]. by apply route_dns_update.
  - intros Hnone a (c' & -> & Hc & He)%elem_of_attempts Hto. simpl in Hto. subst c'.
    rewrite (eligible_dns_only _ _ Htopic), (route_no_dns data Hnone) in He. done.
Qed.

(** With a DNS resolver among the probed targets, nothing at all is
    attempted towards a subscriber of topic [full]. *)
Lemma full_topic_starved (now : datetime) (results : list measurement)
    (w : World) (c : WebSocket) :
  topic_of c = Some full →
  Exists (λ r, host r ∈ DNS_HOSTS) results →
  ∃ w' delta,
    broadcast_to_websockets env (ping_update now results) w = Ok tt w' ∧
    wire w' = wire w ++ delta ∧
    ∀ a, a ∈ delta → to a ≠ c.
Proof.
  intros Htopic Hdns. apply route_ping_update with (now := now) in Hdns.
  destruct (broadcast_to_websockets_run env (ping_update now results) w)
    as (w' & Hrun & Hwire & _).
  exists w'. eexists. split; [exact Hrun|]. split; [exact Hwire|].
  intros a (c' & -> & Hc & He)%elem_of_attempts Hto. simpl in Hto. subst c'.
  rewrite (eligible_full _ _ Htopic), Hdns in He. done.
Qed.

(** In the broadcast of a cycle's envelope, a registered subscriber of
    topic [full] is attempted with the envelope of all the cycle's results
    when no DNS resolver was probed, and a registered socket whose [path]
    names the DNS endpoint is attempted with the derived
    [dns_status_update], holding the resolvers' results, when at least one
    was. *)
Lemma broadcast_by_topic (now : datetime) (results : list measurement)
    (w : World) (c : WebSocket) :
  c ∈ clients_of w →
  ∃ w' delta,
    broadcast_to_websockets env (ping_update now results) w = Ok tt w' ∧
    wire w' = wire w ++ delta ∧
    (topic_of c = Some full →
     Forall (λ r, host r ∉ DNS_HOSTS) results →
     attempt_of env (Broadcast (ping_update now results)) c ∈ delta) ∧
    (topic_of c = Some dns_only →
     Exists (λ r, host r ∈ DNS_HOSTS) results →
     attempt_of env
       (Broadcast {| e_type := Some "dns_status_update"%string;
                     e_result := None;
                     e_results := Some (List.filter is_dns_host results);
                     e_timestamp := Some now |}) c ∈ delta).
Proof.
  intros Hc.
  destruct (broadcast_to_websockets_run env (ping_update now results) w)
    as (w' & Hrun & Hwire & _).
  exists w'. eexists. split; [exact Hrun|]. split; [exact Hwire|]. split.
  - intros Htopic Hnone.
    assert (Hflag : (route (ping_update now results)).2 = false).
    { apply route_no_dns. unfold payload_targets; simpl. by apply Forall_fmap. }
    apply elem_of_attempts. exists c. rewrite (route_passthrough _ Hflag).
    split; [done|]. split; [by apply elem_of_elements|].
    by rewrite (eligible_full _ _ Htopic), Hflag.
  - intros Htopic Hdns.
    pose proof (proj2 (route_ping_update now results) Hdns) as Hflag.
    apply elem_of_attempts. exists c. split.
    + f_equal. f_equal. revert Hflag. unfold route; simpl.
      destruct results as [|r0 results]; [done|]. simpl.
      by case_bool_decide.
    + split; [by apply elem_of_elements|].
      by rewrite (eligible_dns_only _ _ Htopic).
Qed.

(** A socket without a [path] attribute is routed by the default of the
    [getattr], the path of the full endpoint. *)
Lemma no_path_is_full_topic (c : WebSocket) :
  ws_path c = None → topic_of c = Some full.
Proof.
  intros H. unfold topic_of, on_ping_status, on_dns_status, client_path.
  rewrite H. reflexivity.
Qed.

End FanOut.

(** C3, where the code departs from it.  One client is connected on each
    endpoint and the registry is the default one, so every cycle probes the
    three resolvers.  The envelope of the cycle is replaced by the derived
    [dns_status_update], which goes to sockets whose [path] attribute names
    the DNS endpoint only; no socket has a [path] attribute, so an iteration
    of the loop calls [send_json] for nobody: the client of the full topic
    is not sent the cycle's measurements, and the client of the DNS endpoint
    is not sent the DNS envelope. *)
Theorem cycle_update_reaches_no_client :
  hosts_of World_two_clients
    = ["8.8.8.8"; "1.1.1.1"; "208.67.222.222"; "google.com"; "github.com"]%string ∧
  ws_ping_client ∈ clients_of World_two_clients ∧
  ws_dns_client ∈ clients_of World_two_clients ∧
  topic_of ws_ping_client = Some full ∧
  wire World_two_clients = [] ∧
  wire (final (monitoring_cycle quiet_env World_two_clients)) = [] ∧
  clients_of (final (monitoring_cycle quiet_env World_two_clients))
    = clients_of World_two_clients.
Proof.
  split_and!; vm_compute; reflexivity.
Qed.

(** C4, where the code departs from it.  The three resolvers were taken out
    of the registry, so a cycle probes [google.com] and [github.com] only.
    The client connected on the DNS endpoint has no [path] attribute and is
    routed as a client of the full endpoint: it is sent the cycle's
    [ping_update], whose results name no DNS resolver. *)
Theorem dns_client_gets_site_results :
  hosts_of World_sites_only = ["google.com"; "github.com"]%string ∧
  Forall (λ h, h ∉ DNS_HOSTS) (hosts_of World_sites_only) ∧
  ws_dns_client ∈ clients_of World_sites_only ∧
  wire World_sites_only = [] ∧
  List.filter (λ a, bool_decide (to a = ws_dns_client))
    (wire (final (monitoring_cycle quiet_env World_sites_only)))
    = [ {| to := ws_dns_client;
           payload := Broadcast (ping_update 0 [probed "google.com"; probed "github.com"]);
           delivered := true |} ].
Proof.
  split_and!; try (vm_compute; reflexivity).
  repeat (apply Forall_cons; split;
          [apply (bool_decide_unpack (_ ∉ _)); vm_compute; exact I|]).
  constructor.
Qed.


(* ================================================================== *)
(** * Persistence inside a cycle *)
(* ================================================================== *)

Section Persistence.
Context (env : Env).

Lemma insert_ping_metric_run (metric : PingMetricCreate) (w : World) :
  insert_ping_metric env metric w =
    if pool (db_manager w) then
      match db_fault env (db_manager w) (InsertMetric metric) with
      | Some e => Raise e w
      | None =>
          Ok (next_id (db_manager w))
             (set_db (λ d,
                {| pool := pool d;
                   ping_metrics := ping_metrics d ++
                     [{| row_id := next_id (db_manager w);
                         row_timestamp := clock w;
                         row_target_host := pmc_target_host metric;
                         row_response_time_ms := pmc_response_time_ms metric;
                         row_packet_loss := pmc_packet_loss metric;
                         row_error_message := pmc_error_message metric;
                         row_created_at := clock w |}];
                   next_id := next_id (db_manager w) + 1 |}) w)
      end
    else Raise (Exn "RuntimeError" "Database pool not initialized") w.
Proof.
  unfold insert_ping_metric, utcnow, get_connection, execute. run.
  destruct (pool (db_manager w)); simpl; [|done].
  by destruct (db_fault env (db_manager w) (InsertMetric metric)).
Qed.

(** A rejected insert leaves everything as it was. *)
Lemma insert_ping_metric_Raise metric w e w' :
  insert_ping_metric env metric w = Raise e w' → w' = w.
Proof.
  rewrite insert_ping_metric_run.
  destruct (pool (db_manager w)); [|by intros [= _ <-]].
  destruct (db_fault env (db_manager w) (InsertMetric metric)); [|done].
  by intros [= _ <-].
Qed.

Lemma save_one_Raise result w e w' :
  insert_ping_metric env (metric_of result) w = Raise e w' →
  save_one env result w = Raise e w.
Proof.
  intros H. pose proof (insert_ping_metric_Raise _ _ _ _ H) as ->.
  unfold save_one. by rewrite (bind_Raise _ _ _ _ _ H).
Qed.

(** An accepted one adds its row to the table and its result to the cache,
    and nothing else. *)
Lemma save_one_Ok result w w1 :
  save_one env result w = Ok tt w1 →
  ping_metrics (db_manager w1)
    = ping_metrics (db_manager w) ++ [row_of result (next_id (db_manager w)) (clock w)] ∧
  cache_of w1 = <[host result := result]> (cache_of w) ∧
  hosts_of w1 = hosts_of w ∧
  clients_of w1 = clients_of w ∧
  wire w1 = wire w ∧
  logs w1 = logs w ∧
  clock w1 = clock w.
Proof.
  unfold save_one, mbind, M_bind. rewrite insert_ping_metric_run.
  destruct (pool (db_manager w)); [|done].
  destruct (db_fault env (db_manager w) (InsertMetric (metric_of result))); [done|].
  unfold cache_result. run. intros [= <-]. simpl. by repeat split.
Qed.

(** The rows and cache entries a run of accepted inserts leaves. *)
Lemma save_loop_Ok (results : list measurement) w w1 :
  for_each results (save_one env) w = Ok tt w1 →
  row_target_host <$> ping_metrics (db_manager w1)
    = (row_target_host <$> ping_metrics (db_manager w)) ++ (host <$> results) ∧
  cache_of w1 = foldl (λ cache r, <[host r := r]> cache) (cache_of w) results ∧
  hosts_of w1 = hosts_of w ∧
  clients_of w1 = clients_of w ∧
  wire w1 = wire w ∧
  logs w1 = logs w ∧
  clock w1 = clock w.
Proof.
  revert w. induction results as [|r results IH]; intros w; simpl.
  - intros [= <-]. rewrite app_nil_r. by repeat split.
  - unfold mbind, M_bind at 1.
    destruct (save_one env r w) as [[] w0|e w0] eqn:E; [|done].
    intros Hrest. apply save_one_Ok in E as (Hrows & Hcache & Hh & Hc & Hw & Hl & Hk).
    apply IH in Hrest as (Hrows' & Hcache' & Hh' & Hc' & Hw' & Hl' & Hk').
    rewrite Hrows', Hrows, Hcache', Hcache, Hh', Hc', Hw', Hl', Hk'.
    split_and!; try done.
    rewrite fmap_app, <- app_assoc. done.
Qed.

(** The loop stops at the first rejected insert. *)
Lemma save_loop_Raise (pre post : list measurement) (bad : measurement) w w1 e w1' :
  for_each pre (save_one env) w = Ok tt w1 →
  insert_ping_metric env (metric_of bad) w1 = Raise e w1' →
  for_each (pre ++ bad :: post) (save_one env) w = Raise e w1.
Proof.
  intros Hpre Hbad. rewrite for_each_app.
  rewrite (bind_Ok _ _ _ _ _ Hpre). simpl.
  by rewrite (bind_Raise _ _ _ _ _ (save_one_Raise _ _ _ _ Hbad)).
Qed.

(** The part of an iteration after the save never raises, and broadcasts the
    envelope built from the whole result list. *)
Lemma broadcast_phase_run (results : list measurement) (w : World) :
  ∃ w', broadcast_phase env results w = Ok tt w' ∧
        wire w' = wire w ++
          (attempt_of env (Broadcast (route (ping_update (clock w) results)).1)
             <$> List.filter (eligible (route (ping_update (clock w) results)).2)
                   (elements (clients_of w))) ∧
        cache_of w' = cache_of w ∧
        db_manager w' = db_manager w.
Proof.
  unfold broadcast_phase, utcnow, sleep. run.
  destruct (broadcast_to_websockets_run env (ping_update (clock w) results) w)
    as (w1 & Hrun & Hwire & _ & _ & Hsame).
  rewrite Hrun. eexists. split; [done|]. simpl.
  destruct Hsame as (_ & Hcache & _ & _ & Hdb & _).
  unfold cache_of in *. simpl. by rewrite <- Hcache, <- Hdb.
Qed.

Lemma save_ping_results_Ok (results : list measurement) (w w1 : World) :
  for_each results (save_one env) w = Ok tt w1 →
  save_ping_results env results w = Ok tt w1.
Proof. intros H. unfold save_ping_results. by apply try_except_Ok. Qed.

(** C2, as the code has it.  Let the prober of a cycle return
    [pre ++ bad :: post], the inserts for [pre] be accepted and the insert
    for [bad] be rejected.  Then [save_ping_results] returns normally with
    the failure logged; the table has gained the rows of [pre] and the cache
    the entries of [pre], and nothing of [bad] or [post]; and the iteration
    goes on to the broadcast phase with the whole result list, which returns
    normally after attempting the envelope built from all results. *)
Theorem save_stops_at_first_failure (w w1 w1' : World)
    (pre post : list measurement) (bad : measurement) (e : exn) :
  ping_all_hosts env w = Ok (pre ++ bad :: post) w →
  for_each pre (save_one env) w = Ok tt w1 →
  insert_ping_metric env (metric_of bad) w1 = Raise e w1' →
  let results := pre ++ bad :: post in
  let w2 := push_log ERROR ("Failed to save ping results: " +:+ exn_str e) w1 in
  save_ping_results env results w = Ok tt w2 ∧
  row_target_host <$> ping_metrics (db_manager w2)
    = (row_target_host <$> ping_metrics (db_manager w)) ++ (host <$> pre) ∧
  cache_of w2 = foldl (λ cache r, <[host r := r]> cache) (cache_of w) pre ∧
  monitoring_cycle env w = broadcast_phase env results w2 ∧
  ∃ w3, broadcast_phase env results w2 = Ok tt w3 ∧
        wire w3 = wire w ++
          (attempt_of env (Broadcast (route (ping_update (clock w) results)).1)
             <$> List.filter (eligible (route (ping_update (clock w) results)).2)
                   (elements (clients_of w))).
Proof.
  intros Hping Hpre Hbad results w2.
  assert (Hsave : save_ping_results env results w = Ok tt w2).
  { unfold save_ping_results.
    rewrite (try_except_Raise _ _ _ _ _ (save_loop_Raise pre post bad _ _ _ _ Hpre Hbad)).
    done. }
  destruct (save_loop_Ok _ _ _ Hpre) as (Hrows & Hcache & _ & Hcl & Hwire & _ & Hclock).
  destruct (broadcast_phase_run results w2) as (w3 & Hphase & Hwire3 & _).
  split_and!; [done|done|done| |].
  - unfold monitoring_cycle.
    rewrite (try_except_Ok _ _ w tt w3); [done|].
    rewrite (bind_Ok _ _ _ _ _ Hping). by rewrite (bind_Ok _ _ _ _ _ Hsave).
  - exists w3. split; [done|]. rewrite Hwire3. unfold w2, clients_of in *. simpl.
    by rewrite Hwire, Hclock, Hcl.
Qed.

End Persistence.

(** C2, against the claim as worded.  The server rejects the insert for
    [1.1.1.1] only.  The cycle probed the five default hosts; after
    [save_ping_results] the table and the cache hold [8.8.8.8] alone: the
    three results that follow the rejected one were neither inserted nor
    cached, though none of their inserts would have been rejected. *)
Lemma later_results_not_saved :
  ping_all_hosts flaky_db (World_init 1) = Ok probed_all (World_init 1) ∧
  Forall (λ h, db_fault flaky_db (db_manager World_one_saved)
                 (InsertMetric (metric_of (probed h))) = None)
    ["208.67.222.222"; "google.com"; "github.com"]%string ∧
  row_target_host <$>
    ping_metrics (db_manager (final (save_ping_results flaky_db probed_all (World_init 1))))
    = ["8.8.8.8"%string] ∧
  dom (cache_of (final (save_ping_results flaky_db probed_all (World_init 1))))
    = {["8.8.8.8"%string]}.
Proof.
  split_and!.
  - vm_compute. reflexivity.
  - repeat constructor.
  - vm_compute. reflexivity.
  - apply set_eq. intros x. rewrite elem_of_dom, elem_of_singleton.
    change (cache_of (final (save_ping_results flaky_db probed_all (World_init 1))))
      with (<["8.8.8.8"%string := probed "8.8.8.8"]> (∅ : gmap string measurement)).
    rewrite lookup_insert_is_Some. rewrite lookup_empty. split.
    + intros [?|[_ [? ?]]]; done.
    + intros ->. by left.
Qed.

Lemma save_stops_at_first_failure_witness :
  ping_all_hosts flaky_db (World_init 1) = Ok probed_all (World_init 1) ∧
  for_each [probed "8.8.8.8"] (save_one flaky_db) (World_init 1) = Ok tt World_one_saved ∧
  insert_ping_metric flaky_db (metric_of (probed "1.1.1.1")) World_one_saved
    = Raise (Exn "PostgresError" "connection is closed") World_one_saved ∧
  save_ping_results flaky_db probed_all (World_init 1)
    = Ok tt (push_log ERROR "Failed to save ping results: connection is closed" World_one_saved) ∧
  monitoring_cycle flaky_db (World_init 1)
    = broadcast_phase flaky_db probed_all
        (push_log ERROR "Failed to save ping results: connection is closed" World_one_saved).
Proof.
  assert (H1 : ping_all_hosts flaky_db (World_init 1) = Ok probed_all (World_init 1))
    by (vm_compute; reflexivity).
  assert (H2 : for_each [probed "8.8.8.8"] (save_one flaky_db) (World_init 1)
               = Ok tt World_one_saved)
    by (vm_compute; reflexivity).
  assert (H3 : insert_ping_metric flaky_db (metric_of (probed "1.1.1.1")) World_one_saved
               = Raise (Exn "PostgresError" "connection is closed") World_one_saved)
    by (vm_compute; reflexivity).
  destruct (save_stops_at_first_failure flaky_db (World_init 1) World_one_saved World_one_saved
              [probed "8.8.8.8"]
              [probed "208.67.222.222"; probed "google.com"; probed "github.com"]
              (probed "1.1.1.1") _ H1 H2 H3) as (Hsave & _ & _ & Hcycle & _).
  exact (conj H1 (conj H2 (conj H3 (conj Hsave Hcycle)))).
Defined.

(* ================================================================== *)
(** * The command handler *)
(* ================================================================== *)

Section Handler.
Context (env : Env).

Lemma send_json_run (ws : WebSocket) (f : frame) (w : World) :
  wire (final (send_json env ws f w)) = wire w ++ [attempt_of env f ws] ∧
  ping_monitor (final (send_json env ws f w)) = ping_monitor w ∧
  websocket_manager (final (send_json env ws f w)) = websocket_manager w ∧
  db_manager (final (send_json env ws f w)) = db_manager w.
Proof.
  unfold send_json, attempt_of.
  by destruct (send_fault env ws f).
Qed.

(** C6, as the code has it.  On a message of type [subscribe_host] the
    handler makes exactly one [send_json] on the sender's socket, a
    [subscription_confirmed] when the message carries a truthy [host] and an
    [error] otherwise, and leaves the monitor (targets, subscribers, result
    cache), the connection manager and the database as they were. *)
Theorem subscribe_host_acknowledged (websocket : WebSocket) (connection_id : string)
    (message : gmap string json) (w : World) :
  msg_get message "type" = JStr "subscribe_host" →
  let host := msg_get message "host" in
  let answer :=
    if truthy host
    then subscription_confirmed host [Lit "Subscribed to updates for "; Val host]
    else error [Lit "Host parameter required for subscription"] in
  let w' := final (handle_websocket_message env websocket connection_id message w) in
  handle_websocket_message env websocket connection_id message w
    = send_json env websocket (Reply answer) w ∧
  wire w' = wire w ++ [attempt_of env (Reply answer) websocket] ∧
  ping_monitor w' = ping_monitor w ∧
  websocket_manager w' = websocket_manager w ∧
  db_manager w' = db_manager w.
Proof.
  intros Htype host answer w'.
  assert (Hrun : handle_websocket_message env websocket connection_id message w
                 = send_json env websocket (Reply answer) w).
  { unfold handle_websocket_message. rewrite Htype. simpl.
    unfold answer, host. by destruct (truthy (msg_get message "host")). }
  split; [exact Hrun|]. unfold w'. rewrite Hrun. apply send_json_run.
Qed.

End Handler.

(** C6, against the claim as worded: a [subscribe_host] message that names no
    host is answered with an [error], not with a [subscription_confirmed]. *)
Lemma subscribe_without_host_is_an_error :
  msg_get subscribe_nothing "type" = JStr "subscribe_host" ∧
  wire (final (handle_websocket_message quiet_env ws_full "conn_1" subscribe_nothing
                 World_subscribed))
    = [ {| to := ws_full;
           payload := Reply (error [Lit "Host parameter required for subscription"]);
           delivered := true |} ].
Proof. split; vm_compute; reflexivity. Qed.

Lemma subscribe_host_acknowledged_witness :
  msg_get subscribe_google "type" = JStr "subscribe_host" ∧
  wire (final (handle_websocket_message quiet_env ws_full "conn_1" subscribe_google
                 World_subscribed))
    = [ {| to := ws_full;
           payload := Reply (subscription_confirmed (JStr "google.com")
                               [Lit "Subscribed to updates for "; Val (JStr "google.com")]);
           delivered := true |} ] ∧
  ping_monitor (final (handle_websocket_message quiet_env ws_full "conn_1" subscribe_google
                         World_subscribed))
    = ping_monitor World_subscribed.
Proof.
  assert (Htype : msg_get subscribe_google "type" = JStr "subscribe_host")
    by (vm_compute; reflexivity).
  destruct (subscribe_host_acknowledged quiet_env ws_full "conn_1" subscribe_google
              World_subscribed Htype) as (_ & Hwire & Hmon & _).
  exact (conj Htype (conj Hwire Hmon)).
Defined.

(* ================================================================== *)
(** * The host summary *)
(* ================================================================== *)

Section Summary.
Context (env : Env).

(** Whenever [get_host_summary] returns, a row came back with a positive
    count, and the uptime it reports is 100 minus the loss rate of that row,
    the rate being the fraction of lost pings. *)
Lemma get_host_summary_uptime (h : string) (hours minutes : option Z)
    (w w' : World) (s : host_summary) :
  get_host_summary env h hours minutes w = Ok s w' →
  ∃ row since_time,
    columns s = Some row ∧
    total_pings row = Z.of_nat (length (window_rows w h since_time)) ∧
    packet_losses row
      = Z.of_nat (length (List.filter row_packet_loss (window_rows w h since_time))) ∧
    0 < total_pings row ∧
    packet_loss_rate row
      = (inject_Z (packet_losses row) / inject_Z (total_pings row))%Q ∧
    uptime_percentage s = (100 - packet_loss_rate row)%Q.
Proof.
  unfold get_host_summary, try_except.
  match goal with |- context [match ?body w with _ => _ end] =>
    destruct (body w) as [s0 w0|e0 w0] eqn:Hbody
  end; [|by run].
  intros [= -> ->]. revert Hbody.
  unfold utcnow. run.
  assert (Hfetch : ∀ (t : datetime) (k : option summary_row → M host_summary),
    (fetch_host_summary env h t ≫= k) w = Ok s w' →
    ∃ row, k (Some row) w = Ok s w' ∧
      total_pings row = Z.of_nat (length (window_rows w h t)) ∧
      packet_losses row
        = Z.of_nat (length (List.filter row_packet_loss (window_rows w h t))) ∧
      0 < total_pings row ∧
      packet_loss_rate row
        = (inject_Z (packet_losses row) / inject_Z (total_pings row))%Q).
  { intros t k. unfold fetch_host_summary, get_connection, execute. run.
    destruct (pool (db_manager w)); simpl; [|done].
    destruct (db_fault env (db_manager w) (SelectHostSummary h t)); simpl; [done|].
    fold (window_rows w h t).
    destruct (Z.of_nat (length (window_rows w h t)) =? 0) eqn:E; simpl; [done|].
    intros Hk. eexists. split; [exact Hk|]. simpl.
    apply Z.eqb_neq in E. split_and!; try done. lia. }
  assert (Hrow : ∀ row th tm,
    (let uptime := if 0 <? total_pings row then (100 - packet_loss_rate row)%Q else 0%Q in
     logger INFO ("Generated summary for host " +:+ h) ;;
     mret {| columns := Some row; summary_host := h; hours_analyzed := th;
             minutes_analyzed := tm; uptime_percentage := uptime |}) w = Ok s w' →
    0 < total_pings row →
    columns s = Some row ∧ uptime_percentage s = (100 - packet_loss_rate row)%Q).
  { intros row th tm. run. intros [= <- _] Hpos. simpl.
    apply Z.ltb_lt in Hpos. by rewrite Hpos. }
  assert (Hend : ∀ (t : datetime) (k : option summary_row → M host_summary),
    (fetch_host_summary env h t ≫= k) w = Ok s w' →
    (∀ row, k (Some row) w = Ok s w' → 0 < total_pings row →
       columns s = Some row ∧ uptime_percentage s = (100 - packet_loss_rate row)%Q) →
    ∃ row since_time,
      columns s = Some row ∧
      total_pings row = Z.of_nat (length (window_rows w h since_time)) ∧
      packet_losses row
        = Z.of_nat (length (List.filter row_packet_loss (window_rows w h since_time))) ∧
      0 < total_pings row ∧
      packet_loss_rate row
        = (inject_Z (packet_losses row) / inject_Z (total_pings row))%Q ∧
      uptime_percentage s = (100 - packet_loss_rate row)%Q).
  { intros t k Hbody Hk'.
    apply Hfetch in Hbody as (row & Hk & Ht & Hl & Hpos & Hrate).
    destruct (Hk' row Hk Hpos) as [Hc Hu].
    exists row, t. by split_and!. }
  destruct minutes as [m|]; [|destruct hours as [hh|]]; simpl.
  - replace (match hours with Some _ | _ => Some m end) with (Some m)
      by (by destruct hours).
    destruct (since (clock w) (timedelta (timedelta_minutes m))) as [e|t]; simpl;
      [by destruct hours|].
    destruct hours; simpl; intros Hbody;
      (eapply Hend; [exact Hbody|]); intros row; apply Hrow.
  - destruct (since (clock w) (timedelta (timedelta_hours hh))) as [e|t];
      unfold eval; run; [done|].
    intros Hbody. eapply Hend; [exact Hbody|]. intros row; apply Hrow.
  - destruct (datetime_sub (clock w) _) as [e|t]; unfold eval; run; [done|].
    intros Hbody. eapply Hend; [exact Hbody|]. intros row; apply Hrow.
Qed.

End Summary.

(** C1, at the scenario of the claim.  For host [8.8.8.8] with
    [minutes=120], over a table whose window holds ten rows of that host, two
    of them lost, [get_host_summary] returns a summary with [total_pings] 10
    and [packet_losses] 2 whose [uptime_percentage] is 99.8, not 80. *)
Theorem host_summary_uptime_is_off :
  ∃ s w',
    get_host_summary quiet_env "8.8.8.8" None (Some 120) World_fixture = Ok s w' ∧
    summary_total_pings s = 10 ∧
    packet_losses <$> columns s = Some 2 ∧
    (uptime_percentage s == 998 # 10)%Q ∧
    ¬ (uptime_percentage s == 80)%Q.
Proof.
  eexists. eexists. split; [vm_compute; reflexivity|].
  split_and!; try (vm_compute; reflexivity).
  vm_compute. discriminate.
Qed.

(* ================================================================== *)
(** * What each entry point leaves alone *)
(* ================================================================== *)

Section Invariants.
Context (env : Env).

Lemma send_json_preserves {B} (f : World → B) ws fr :
  (∀ a w, f (push_wire a w) = f w) → preserves f (send_json env ws fr).
Proof. intros Hf w. unfold send_json. destruct (send_fault env ws fr); apply Hf. Qed.

Lemma get_connection_reads w : final (get_connection w) = w.
Proof. unfold get_connection. by destruct (pool (db_manager w)). Qed.

Lemma execute_reads st w : final (execute env st w) = w.
Proof. unfold execute. by destruct (db_fault env (db_manager w) st). Qed.

Lemma call_ping_reads h t w : final (call_ping env h t w) = w.
Proof. unfold call_ping. by destruct (ping env (clock w) h t) as [e|r]. Qed.

(** The command handler writes to the wire and the log, and to nothing
    else: whatever the command, the monitor, the connection manager and the
    database are as before. *)
Lemma handle_websocket_message_preserves {B} (f : World → B) ws id message :
  (∀ a w, f (push_wire a w) = f w) →
  (∀ l s w, f (push_log l s w) = f w) →
  preserves f (handle_websocket_message env ws id message).
Proof.
  intros Hwire Hlog.
  assert (Hsend : ∀ fr, preserves f (send_json env ws fr))
    by (intros fr; by apply send_json_preserves).
  assert (Hlogger : ∀ l s, preserves f (logger l s))
    by (intros l s w; apply Hlog).
  assert (Hconn : preserves f get_connection)
    by (apply preserves_reader, get_connection_reads).
  assert (Hexec : ∀ st, preserves f (execute env st))
    by (intros st; apply preserves_reader, execute_reads).
  unfold handle_websocket_message, get_target_hosts, get_latest_results,
    get_latest_metrics_by_host, get_host_summary, fetch_host_summary,
    int_or_none, str_arg, utcnow.
  repeat first [ apply Hsend | apply Hlogger | apply Hconn | apply Hexec | frame_step ].
Qed.

Lemma gather_preserves {A C B} (f : World → B) (task : A → M C) (xs : list A) :
  (∀ x, preserves f (task x)) → preserves f (gather task xs).
Proof.
  intros Ht. induction xs as [|x xs IH]; simpl; [apply preserves_ret|].
  apply preserves_bind; [apply Ht|intros r].
  apply preserves_bind; [apply IH|intros rs]. apply preserves_ret.
Qed.

Lemma broadcast_loop_preserves_hosts cs data flag R :
  preserves hosts_of (broadcast_loop env cs data flag R).
Proof.
  revert R. induction cs as [|c cs IH]; intros R; simpl; [apply preserves_ret|].
  apply preserves_bind; [|intros R'; apply IH].
  unfold deliver.
  repeat first [ apply send_json_preserves; reflexivity | frame_step ].
Qed.

Lemma manager_broadcast_loop_preserves_hosts items message D :
  preserves hosts_of (manager_broadcast_loop env items message D).
Proof.
  revert D. induction items as [|[id ws] items IH]; intros D; simpl;
    [apply preserves_ret|].
  apply preserves_bind; [|intros D'; apply IH].
  repeat first [ apply send_json_preserves; reflexivity | frame_step ].
Qed.

Lemma disconnect_preserves_hosts id ws : preserves hosts_of (disconnect id ws).
Proof.
  unfold disconnect, remove_websocket_client, discard_client. frame.
Qed.

(** No entry point but the two registry methods writes to the registry. *)
Lemma perform_preserves_hosts (c : call) :
  (∀ h, c ≠ AddTargetHost h) → (∀ h, c ≠ RemoveTargetHost h) →
  preserves hosts_of (perform env c).
Proof.
  intros Hadd Hrm. destruct c; simpl.
  - by destruct (Hadd h).
  - by destruct (Hrm h).
  - unfold start_monitoring. frame.
  - unfold stop_monitoring. frame.
  - unfold monitoring_cycle, ping_all_hosts, save_ping_results, broadcast_phase,
      broadcast_to_websockets, utcnow, sleep.
    repeat first
      [ apply gather_preserves; intros ?; unfold ping_host, utcnow
      | apply preserves_reader, call_ping_reads
      | apply preserves_reader, get_connection_reads
      | apply preserves_reader, execute_reads
      | apply broadcast_loop_preserves_hosts
      | frame_step ].
  - unfold connect, add_websocket_client. frame.
  - apply disconnect_preserves_hosts.
  - apply handle_websocket_message_preserves; reflexivity.
  - unfold send_personal_message.
    repeat first
      [ apply send_json_preserves; reflexivity
      | apply disconnect_preserves_hosts
      | frame_step ].
  - unfold broadcast.
    repeat first
      [ apply manager_broadcast_loop_preserves_hosts
      | apply disconnect_preserves_hosts
      | frame_step ].
  - unfold insert_ping_metric, utcnow.
    repeat first
      [ apply preserves_reader, get_connection_reads
      | apply preserves_reader, execute_reads
      | frame_step ].
  - unfold cache_result. frame.
  - apply send_json_preserves; reflexivity.
  - unfold discard_client. frame.
  - frame.
  - unfold sleep. frame.
  - frame.
Qed.

End Invariants.

(** In every state the service can be in, the registry holds each target
    once. *)
Lemma reachable_NoDup (w : World) : reachable w → NoDup (hosts_of w).
Proof.
  intros (interval & history & ->).
  induction history as [|[env c] history IH] using rev_ind.
  - apply PingMonitor_init_NoDup.
  - unfold run_calls in *. rewrite foldl_app. simpl.
    set (w := foldl _ _ history) in *.
    destruct c as [h|h| | | | | | | | | | | | | | |];
      try (rewrite perform_preserves_hosts; done).
    + simpl. rewrite add_target_host_run. simpl.
      eapply add_target_host_NoDup; [exact IH|apply add_target_host_run].
    + simpl. destruct (remove_target_host_returns w h) as [w' E].
      rewrite E. by eapply remove_target_host_NoDup.
Qed.

(* ================================================================== *)
(** * The scheduler: an iteration, the loop, start and stop *)
(* ================================================================== *)

Section Scheduler.
Context (env : Env).

(** Sends and log lines are all the two broadcast loops write. *)
Lemma broadcast_loop_preserves {B} (f : World → B) cs data flag R :
  (∀ a w, f (push_wire a w) = f w) →
  (∀ l s w, f (push_log l s w) = f w) →
  preserves f (broadcast_loop env cs data flag R).
Proof.
  intros Hwire Hlog.
  revert R. induction cs as [|c cs IH]; intros R; simpl; [apply preserves_ret|].
  apply preserves_bind; [|intros R'; apply IH].
  unfold deliver, logger.
  repeat first
    [ apply send_json_preserves; exact Hwire
    | apply preserves_modify; intros ?; apply Hlog
    | frame_step ].
Qed.

Lemma manager_broadcast_loop_preserves {B} (f : World → B) items message D :
  (∀ a w, f (push_wire a w) = f w) →
  (∀ l s w, f (push_log l s w) = f w) →
  preserves f (manager_broadcast_loop env items message D).
Proof.
  intros Hwire Hlog.
  revert D. induction items as [|[id ws] items IH]; intros D; simpl;
    [apply preserves_ret|].
  apply preserves_bind; [|intros D'; apply IH].
  unfold logger.
  repeat first
    [ apply send_json_preserves; exact Hwire
    | apply preserves_modify; intros ?; apply Hlog
    | frame_step ].
Qed.

Lemma ping_all_hosts_reads (w : World) : final (ping_all_hosts env w) = w.
Proof. by destruct (ping_all_hosts_run env w) as (rs & -> & _). Qed.

(** [save_ping_results] always returns. *)
Lemma save_ping_results_returns (results : list measurement) (w : World) :
  ∃ w', save_ping_results env results w = Ok tt w'.
Proof.
  unfold save_ping_results, try_except.
  destruct (for_each results (save_one env) w) as [[] w'|e w']; by eexists.
Qed.

Lemma save_ping_results_preserves {B} (f : World → B) (results : list measurement) :
  (∀ g w, f (set_db g w) = f w) →
  (∀ g w, f (set_monitor (λ m, with_latest_results (g m) m) w) = f w) →
  (∀ l s w, f (push_log l s w) = f w) →
  preserves f (save_ping_results env results).
Proof.
  intros Hdb Hcache Hlog.
  unfold save_ping_results, save_one, insert_ping_metric, cache_result, utcnow, logger.
  repeat first
    [ apply preserves_reader, get_connection_reads
    | apply preserves_reader, execute_reads
    | apply preserves_modify; intros ?; first [apply Hdb | apply Hlog]
    | apply preserves_modify; intros ?;
      apply (Hcache (λ m, <[host _ := _]> (latest_results m)))
    | frame_step ].
Qed.

(** What the broadcast phase does to the state. *)
Lemma broadcast_phase_effect (results : list measurement) (w : World) :
  ∃ w', broadcast_phase env results w = Ok tt w' ∧
        monitor_settings w' = monitor_settings w ∧
        registry_and_cache w' = registry_and_cache w ∧
        websocket_manager w' = websocket_manager w ∧
        db_manager w' = db_manager w ∧
        clients_of w' ⊆ clients_of w.
Proof.
  unfold broadcast_phase, utcnow, sleep. run.
  destruct (broadcast_to_websockets_run env (ping_update (clock w) results) w)
    as (w1 & Hrun & _ & Hcl & Hman & Hh & Hc & Hr & Hi & Hdb & Hk).
  rewrite Hrun. eexists. split; [done|].
  unfold monitor_settings, registry_and_cache, hosts_of, cache_of, clients_of in *.
  simpl. rewrite Hi, Hr, Hh, Hc, Hman, Hdb, Hcl.
  split_and!; try done. set_solver.
Qed.

Lemma monitoring_cycle_effect (w : World) :
  ∃ w', monitoring_cycle env w = Ok tt w' ∧
        monitor_settings w' = monitor_settings w ∧
        websocket_manager w' = websocket_manager w ∧
        clients_of w' ⊆ clients_of w.
Proof.
  destruct (ping_all_hosts_run env w) as (results & Hping & _).
  destruct (save_ping_results_returns results w) as (w2 & Hsave).
  destruct (broadcast_phase_effect results w2)
    as (w3 & Hphase & Hset & _ & Hman & _ & Hcl).
  exists w3. split.
  - unfold monitoring_cycle. apply try_except_Ok.
    rewrite (bind_Ok _ _ _ _ _ Hping). by rewrite (bind_Ok _ _ _ _ _ Hsave).
  - pose proof (save_ping_results_preserves monitor_settings results
      (λ _ _, eq_refl) (λ _ _, eq_refl) (λ _ _ _, eq_refl) w) as Hs.
    pose proof (save_ping_results_preserves websocket_manager results
      (λ _ _, eq_refl) (λ _ _, eq_refl) (λ _ _ _, eq_refl) w) as Hm.
    pose proof (save_ping_results_preserves clients_of results
      (λ _ _, eq_refl) (λ _ _, eq_refl) (λ _ _ _, eq_refl) w) as Hc.
    rewrite Hsave in Hs, Hm, Hc. simpl in *.
    rewrite Hset, Hman, Hs, Hm. split_and!; try done.
    by rewrite <- Hc.
Qed.




End Scheduler.


(* ================================================================== *)
(** * The prober and the save phase *)
(* ================================================================== *)

Section Cycle.
Context (env : Env).

Lemma measured_sound (h : string) (now : datetime) (r : exn + py_value) :
  host (measured h now r) = h ∧
  timestamp (measured h now r) = now ∧
  (packet_loss (measured h now r) = true ↔ is_Some (error_message (measured h now r))) ∧
  (packet_loss (measured h now r) = false ↔ is_Some (response_time_ms (measured h now r))).
Proof.
  unfold measured. destruct r as [e|[|x|b|t]]; simpl;
    repeat split; try done; try (intros; by eexists); try (by intros [? ?]).
Qed.

Lemma gather_ping_host_measured (hosts : list string) (w : World) :
  gather (λ host, ping_host env host 3) hosts w
    = Ok ((λ h, measured h (clock w) (ping env (clock w) h 3)) <$> hosts) w.
Proof.
  induction hosts as [|h hosts IH]; simpl; [done|].
  rewrite (bind_Ok _ _ _ _ _ (ping_host_run env h 3 w)).
  by rewrite (bind_Ok _ _ _ _ _ IH).
Qed.

(** X3. The prober returns normally, whatever the library does for each
    host, and leaves the monitor, the connection manager, the database, the
    wire and the log as they were.  Its result list is aligned with the
    registry, one measurement per registered host in registry order; in
    each, a lost packet goes with an error message and with no response
    time, an answered one with a response time and no error message. *)
Theorem ping_all_hosts_aligned (w : World) :
  ∃ results w',
    ping_all_hosts env w = Ok results w' ∧
    ping_monitor w' = ping_monitor w ∧
    websocket_manager w' = websocket_manager w ∧
    db_manager w' = db_manager w ∧
    wire w' = wire w ∧
    logs w' = logs w ∧
    host <$> results = hosts_of w ∧
    Forall (λ m, (packet_loss m = true ↔ is_Some (error_message m)) ∧
                 (packet_loss m = false ↔ is_Some (response_time_ms m)) ∧
                 (is_Some (error_message m) ↔ response_time_ms m = None)) results.
Proof.
  eexists. exists w.
  split; [unfold ping_all_hosts; run; apply gather_ping_host_measured|].
  split_and!; try reflexivity.
  - rewrite <- list_fmap_compose. rewrite <- (list_fmap_id (hosts_of w)) at 2.
    apply list_fmap_ext. intros i h _. apply measured_sound.
  - apply Forall_fmap, Forall_forall. intros h _. simpl.
    destruct (measured_sound h (clock w) (ping env (clock w) h 3)) as (_ & _ & ? & ?).
    split_and!; try done.
    unfold measured. destruct (ping env (clock w) h 3) as [e|[|x|b|t]]; simpl;
      split; try done; try (by intros [? ?]); try (intros; by eexists).
Qed.

(** The effect of the save loop when every insert is accepted. *)
Lemma save_loop_accepts (results : list measurement) (w : World) :
  pool (db_manager w) = true →
  (∀ d metric, db_fault env d (InsertMetric metric) = None) →
  ∃ w', for_each results (save_one env) w = Ok tt w' ∧
        pool (db_manager w') = true ∧
        next_id (db_manager w') = next_id (db_manager w) + Z.of_nat (length results) ∧
        ping_metrics (db_manager w')
          = ping_metrics (db_manager w) ++
            imap (λ i r, row_of r (next_id (db_manager w) + Z.of_nat i) (clock w)) results ∧
        cache_of w' = foldl (λ cache r, <[host r := r]> cache) (cache_of w) results ∧
        logs w' = logs w.
Proof.
  intros Hpool Hok. revert w Hpool.
  induction results as [|r results IH]; intros w Hpool; simpl.
  - exists w. rewrite app_nil_r. split_and!; try done. lia.
  - assert (Hone : save_one env r w = Ok tt
      (set_monitor (λ m, with_latest_results (<[host r := r]> (latest_results m)) m)
        (set_db (λ d,
           {| pool := pool d;
              ping_metrics := ping_metrics d ++ [row_of r (next_id (db_manager w)) (clock w)];
              next_id := next_id (db_manager w) + 1 |}) w))).
    { unfold save_one, mbind, M_bind. rewrite insert_ping_metric_run, Hpool, Hok.
      reflexivity. }
    rewrite (bind_Ok _ _ _ _ _ Hone).
    match goal with |- context [for_each results _ ?w1] =>
      destruct (IH w1) as (w' & Hrun & Hp & Hn & Hrows & Hcache & Hlogs); [done|]
    end.
    exists w'. split; [done|]. rewrite Hp, Hn, Hrows, Hcache, Hlogs. simpl.
    split_and!; try done; [lia|].
    rewrite <- app_assoc. simpl. f_equal. f_equal.
    + f_equal. lia.
    + apply imap_ext. intros i x _. simpl. f_equal. lia.
Qed.

Lemma foldl_cache_other (results : list measurement) (cache : gmap string measurement)
    (h : string) :
  h ∉ host <$> results →
  foldl (λ cache r, <[host r := r]> cache) cache results !! h = cache !! h.
Proof.
  revert cache. induction results as [|y l IHl]; intros c Hy; simpl; [done|].
  rewrite fmap_cons in Hy. apply not_elem_of_cons in Hy as [Hne Hy].
  rewrite IHl by done. by rewrite lookup_insert_ne.
Qed.

Lemma foldl_cache_lookup (results : list measurement) (cache : gmap string measurement)
    (r : measurement) :
  NoDup (host <$> results) → r ∈ results →
  foldl (λ cache r, <[host r := r]> cache) cache results !! host r = Some r.
Proof.
  revert cache. induction results as [|x results IH]; intros cache Hnd Hin; simpl.
  - by apply elem_of_nil in Hin.
  - rewrite fmap_cons in Hnd. apply NoDup_cons in Hnd as [Hx Hnd].
    apply elem_of_cons in Hin as [->|Hin]; [|by apply IH].
    rewrite foldl_cache_other by done. apply lookup_insert_eq.
Qed.

Lemma row_data_imap (results : list measurement) (id now : Z) :
  row_data <$> imap (λ i r, row_of r (id + Z.of_nat i) now) results
    = imap (λ i r, (id + Z.of_nat i, metric_of r)) results.
Proof.
  apply list_eq. intros i.
  rewrite list_lookup_fmap, !list_lookup_imap.
  by destruct (results !! i).
Qed.

(** X4. With the pool connected and a server that accepts every insert,
    [save_ping_results] returns normally without logging anything; the table
    gains one row per result, in order, with consecutive ids and the four
    fields of the result; and, the results being for distinct hosts, the
    cache then holds each result under its host and keeps its entries for
    other hosts. *)
Theorem save_ping_results_saves_all (results : list measurement) (w : World) :
  pool (db_manager w) = true →
  (∀ d metric, db_fault env d (InsertMetric metric) = None) →
  NoDup (host <$> results) →
  ∃ w', save_ping_results env results w = Ok tt w' ∧
        logs w' = logs w ∧
        row_data <$> ping_metrics (db_manager w')
          = (row_data <$> ping_metrics (db_manager w)) ++
            imap (λ i r, (next_id (db_manager w) + Z.of_nat i, metric_of r)) results ∧
        (∀ r, r ∈ results → cache_of w' !! host r = Some r) ∧
        (∀ h, h ∉ host <$> results → cache_of w' !! h = cache_of w !! h).
Proof.
  intros Hpool Hok Hnd.
  destruct (save_loop_accepts results w Hpool Hok)
    as (w' & Hrun & _ & _ & Hrows & Hcache & Hlogs).
  exists w'. split; [by apply save_ping_results_Ok|].
  split; [done|]. split; [by rewrite Hrows, fmap_app, row_data_imap|].
  rewrite Hcache. split.
  - intros r Hr. by apply foldl_cache_lookup.
  - intros h Hh. by apply foldl_cache_other.
Qed.

(** What the save loop can have done when it stops, however it stops. *)
Lemma save_loop_grows (results : list measurement) (w : World) :
  ping_metrics (db_manager w) `prefix_of`
    ping_metrics (db_manager (final (for_each results (save_one env) w))) ∧
  (∀ h, is_Some (cache_of w !! h) →
        is_Some (cache_of (final (for_each results (save_one env) w)) !! h)) ∧
  (∀ h, is_Some (cache_of (final (for_each results (save_one env) w)) !! h) →
        is_Some (cache_of w !! h) ∨ h ∈ host <$> results).
Proof.
  revert w. induction results as [|r results IH]; intros w; simpl.
  - split_and!; [done|done|by left].
  - unfold mbind, M_bind at 1 2 3.
    destruct (save_one env r w) as [[] w1|e w1] eqn:E.
    + apply save_one_Ok in E as (Hrows & Hcache & _).
      destruct (IH w1) as (Hpre & Hkeep & Hnew). split_and!.
      * etrans; [|exact Hpre]. rewrite Hrows. by apply prefix_app_r.
      * intros h Hh. apply Hkeep. rewrite Hcache.
        apply lookup_insert_is_Some'. by right.
      * intros h Hh. apply Hnew in Hh as [Hh|Hh].
        -- rewrite Hcache in Hh. apply lookup_insert_is_Some' in Hh as [->|Hh].
           ++ right. apply elem_of_cons. by left.
           ++ by left.
        -- right. apply elem_of_cons. by right.
    + unfold save_one in E.
      destruct (insert_ping_metric env (metric_of r) w) as [id w0|e0 w0] eqn:Ei.
      * rewrite (bind_Ok _ _ _ _ _ Ei) in E. done.
      * rewrite (bind_Raise _ _ _ _ _ Ei) in E. injection E as <- <-.
        apply insert_ping_metric_Raise in Ei as ->. simpl.
        split_and!; [done|done|by left].
Qed.

(** X5. [save_ping_results] never raises, whatever the database does, and
    never takes anything away: the rows of the table are still there, in
    front of the new ones, every host that was cached is still cached, and a
    newly cached host is one of the hosts of the results. *)
Theorem save_ping_results_only_adds (results : list measurement) (w : World) :
  ∃ w', save_ping_results env results w = Ok tt w' ∧
        ping_metrics (db_manager w) `prefix_of` ping_metrics (db_manager w') ∧
        (∀ h, is_Some (cache_of w !! h) → is_Some (cache_of w' !! h)) ∧
        (∀ h, is_Some (cache_of w' !! h) →
              is_Some (cache_of w !! h) ∨ h ∈ host <$> results).
Proof.
  destruct (save_loop_grows results w) as (Hpre & Hkeep & Hnew).
  unfold save_ping_results, try_except.
  destruct (for_each results (save_one env) w) as [[] w'|e w']; simpl in *.
  - by exists w'.
  - eexists. split; [run; done|]. simpl. done.
Qed.

End Cycle.

Lemma save_ping_results_saves_all_witness :
  pool (db_manager (World_init 1)) = true ∧
  (∀ d metric, db_fault quiet_env d (InsertMetric metric) = None) ∧
  NoDup (host <$> probed_all) ∧
  ∃ w', save_ping_results quiet_env probed_all (World_init 1) = Ok tt w' ∧
        logs w' = [] ∧
        row_data <$> ping_metrics (db_manager w')
          = [(1, metric_of (probed "8.8.8.8")); (2, metric_of (probed "1.1.1.1"));
             (3, metric_of (probed "208.67.222.222")); (4, metric_of (probed "google.com"));
             (5, metric_of (probed "github.com"))] ∧
        cache_of w' !! "google.com"%string = Some (probed "google.com").
Proof.
  assert (Hpool : pool (db_manager (World_init 1)) = true) by reflexivity.
  assert (Hok : ∀ d metric, db_fault quiet_env d (InsertMetric metric) = None)
    by (intros d metric; reflexivity).
  assert (Hnd : NoDup (host <$> probed_all))
    by (apply (bool_decide_unpack (NoDup _)); vm_compute; exact I).
  split; [exact Hpool|]. split; [exact Hok|]. split; [exact Hnd|].
  destruct (save_ping_results_saves_all quiet_env probed_all (World_init 1) Hpool Hok Hnd)
    as (w' & Hrun & Hlogs & Hrows & Hcache & _).
  exists w'. split; [exact Hrun|]. split; [exact Hlogs|]. split; [exact Hrows|].
  apply (Hcache (probed "google.com")).
  unfold probed_all. do 3 apply list_elem_of_further. apply list_elem_of_here.
Defined.

(* ================================================================== *)
(** * Start, stop and the registry as operations that compose *)
(* ================================================================== *)

Section Lifecycle.

Lemma start_monitoring_run (w : World) :
  start_monitoring w =
    Ok tt (if is_running (ping_monitor w)
           then push_log WARNING "Ping monitoring is already running" w
           else push_log INFO "Starting ping monitoring service"
                  (set_monitor (with_is_running true) w)).
Proof. unfold start_monitoring. run. by destruct (is_running (ping_monitor w)). Qed.

Lemma stop_monitoring_run (w : World) :
  stop_monitoring w =
    Ok tt (if is_running (ping_monitor w)
           then push_log INFO "Stopping ping monitoring service"
                  (set_monitor (with_is_running false) w)
           else push_log WARNING "Ping monitoring is not running" w).
Proof. unfold stop_monitoring. run. by destruct (is_running (ping_monitor w)). Qed.

Lemma PingMonitor_eta (m : PingMonitor) :
  {| is_running := is_running m; ping_interval := ping_interval m;
     target_hosts := target_hosts m; websocket_clients := websocket_clients m;
     latest_results := latest_results m |} = m.
Proof. by destruct m. Qed.

(** X6. [start_monitoring] and [stop_monitoring] return normally and end with
    the monitor running, respectively stopped; a second call in a row changes
    nothing but the log (a warning); and starting a stopped monitor and then
    stopping it gives back the monitor as it was, registry, subscribers and
    cache included. *)
Theorem start_stop_monitoring (w : World) :
  (∃ w1 w2,
     start_monitoring w = Ok tt w1 ∧
     is_running (ping_monitor w1) = true ∧
     start_monitoring w1 = Ok tt w2 ∧
     ping_monitor w2 = ping_monitor w1 ∧
     logs w2 = logs w1 ++ [(WARNING, "Ping monitoring is already running"%string)]) ∧
  (∃ w1 w2,
     stop_monitoring w = Ok tt w1 ∧
     is_running (ping_monitor w1) = false ∧
     stop_monitoring w1 = Ok tt w2 ∧
     ping_monitor w2 = ping_monitor w1 ∧
     logs w2 = logs w1 ++ [(WARNING, "Ping monitoring is not running"%string)]) ∧
  (is_running (ping_monitor w) = false →
   ∃ w', (start_monitoring ;; stop_monitoring) w = Ok tt w' ∧
         ping_monitor w' = ping_monitor w).
Proof.
  split_and!.
  - eexists. eexists. split; [apply start_monitoring_run|].
    assert (Hr : is_running (ping_monitor
      (if is_running (ping_monitor w)
       then push_log WARNING "Ping monitoring is already running" w
       else push_log INFO "Starting ping monitoring service"
              (set_monitor (with_is_running true) w))) = true)
      by (destruct (is_running (ping_monitor w)) eqn:E; simpl; done).
    split; [exact Hr|]. rewrite start_monitoring_run, Hr. done.
  - eexists. eexists. split; [apply stop_monitoring_run|].
    assert (Hr : is_running (ping_monitor
      (if is_running (ping_monitor w)
       then push_log INFO "Stopping ping monitoring service"
              (set_monitor (with_is_running false) w)
       else push_log WARNING "Ping monitoring is not running" w)) = false)
      by (destruct (is_running (ping_monitor w)) eqn:E; simpl; done).
    split; [exact Hr|]. rewrite stop_monitoring_run, Hr. done.
  - intros Hstopped. eexists.
    rewrite (bind_Ok _ _ _ _ _ (start_monitoring_run w)), stop_monitoring_run.
    rewrite Hstopped. simpl. split; [done|].
    destruct w as [[r i t c l] ? ? ? ? ?]. simpl in *. by subst.
Qed.

Lemma start_stop_monitoring_witness :
  is_running (ping_monitor World_cached) = false ∧
  ∃ w', (start_monitoring ;; stop_monitoring) World_cached = Ok tt w' ∧
        ping_monitor w' = ping_monitor World_cached.
Proof.
  assert (H : is_running (ping_monitor World_cached) = false) by reflexivity.
  split; [exact H|].
  exact (proj2 (proj2 (start_stop_monitoring World_cached)) H).
Defined.

Lemma list_remove_app_last (h : string) (l : list string) :
  h ∉ l → list_remove h (l ++ [h]) = Some l.
Proof.
  induction l as [|y l IH]; intros Hnin; simpl.
  - by rewrite decide_True.
  - apply not_elem_of_cons in Hnin as [Hne Hnin].
    rewrite decide_False by done. by rewrite IH.
Qed.

(** X7. Adding a host that is neither registered nor cached and removing it
    again gives back the monitor as it was.  Removing a registered host and
    adding it again does not: the host is now the last of the registry, so
    the last to be probed and reported, and its cache entry is gone until the
    next cycle. *)
Theorem add_remove_target_host (w : World) (h : string) :
  (h ∉ hosts_of w → cache_of w !! h = None →
   ∃ w', (add_target_host h ;; remove_target_host h) w = Ok tt w' ∧
         ping_monitor w' = ping_monitor w) ∧
  (h ∈ hosts_of w → NoDup (hosts_of w) →
   ∃ w', (remove_target_host h ;; add_target_host h) w = Ok tt w' ∧
         hosts_of w' = filter (λ x, x ≠ h) (hosts_of w) ++ [h] ∧
         cache_of w' = delete h (cache_of w) ∧
         clients_of w' = clients_of w).
Proof.
  split.
  - intros Hnin Hcache.
    pose proof (add_target_host_run w h) as Hadd.
    rewrite decide_False in Hadd by done.
    rewrite (bind_Ok _ _ _ _ _ Hadd). eexists. split.
    + apply remove_target_host_run.
      * unfold hosts_of. simpl. apply elem_of_app. right. by apply list_elem_of_singleton.
      * unfold hosts_of at 1. simpl. by apply list_remove_app_last.
    + simpl. unfold cache_of at 1. simpl. rewrite delete_id by done.
      unfold hosts_of. by destruct w as [[r i t c l] ? ? ? ? ?].
  - intros Hin Hnd.
    destruct (list_remove_elem _ _ Hin) as [l' Hl'].
    pose proof (list_remove_filter _ _ _ Hnd Hl') as Hfil.
    destruct (list_remove_NoDup _ _ _ Hnd Hl') as [_ Hgone].
    rewrite (bind_Ok _ _ _ _ _ (remove_target_host_run w h l' Hin Hl')).
    rewrite add_target_host_run. eexists. split; [done|].
    rewrite decide_False by (unfold hosts_of; simpl; done).
    unfold hosts_of, cache_of, clients_of. simpl. by rewrite Hfil.
Qed.

Lemma add_remove_target_host_witness :
  ("example.org"%string ∉ hosts_of World_cached) ∧
  cache_of World_cached !! "example.org"%string = None ∧
  "8.8.8.8"%string ∈ hosts_of World_cached ∧
  NoDup (hosts_of World_cached) ∧
  (∃ w', (add_target_host "example.org" ;; remove_target_host "example.org") World_cached
           = Ok tt w' ∧
         ping_monitor w' = ping_monitor World_cached) ∧
  (∃ w', (remove_target_host "8.8.8.8" ;; add_target_host "8.8.8.8") World_cached
           = Ok tt w' ∧
         hosts_of w'
           = ["1.1.1.1"; "208.67.222.222"; "google.com"; "github.com"; "8.8.8.8"]%string).
Proof.
  assert (H1 : "example.org"%string ∉ hosts_of World_cached)
    by (apply (bool_decide_unpack (_ ∉ _)); vm_compute; exact I).
  assert (H2 : cache_of World_cached !! "example.org"%string = None)
    by (vm_compute; reflexivity).
  assert (H3 : "8.8.8.8"%string ∈ hosts_of World_cached)
    by (apply (bool_decide_unpack (_ ∈ _)); vm_compute; exact I).
  assert (H4 : NoDup (hosts_of World_cached))
    by (apply (bool_decide_unpack (NoDup _)); vm_compute; exact I).
  split; [exact H1|]. split; [exact H2|]. split; [exact H3|]. split; [exact H4|]. split.
  - exact (proj1 (add_remove_target_host World_cached "example.org") H1 H2).
  - destruct (proj2 (add_remove_target_host World_cached "8.8.8.8") H3 H4)
      as (w' & Hrun & Hhosts & _).
    exists w'. split; [exact Hrun|]. rewrite Hhosts. vm_compute. reflexivity.
Defined.

End Lifecycle.

(* ================================================================== *)
(** * The two registries of subscribers *)
(* ================================================================== *)

Section Registries.
Context (env : Env).

(** X8. [broadcast_to_websockets] returns normally and writes to nothing but
    the wire, the log and the monitor's own set of subscribers, which it can
    only shrink.  In particular [active_connections] is as before: a
    subscriber dropped for a failed send is still a connection of the
    manager and still counts in [get_connection_count]. *)
Theorem broadcast_to_websockets_frame (data : envelope) (w : World) :
  ∃ w', broadcast_to_websockets env data w = Ok tt w' ∧
        clients_of w' ⊆ clients_of w ∧
        websocket_manager w' = websocket_manager w ∧
        get_connection_count w' = Ok (length (active_connections (websocket_manager w))) w' ∧
        registry_and_cache w' = registry_and_cache w ∧
        db_manager w' = db_manager w ∧
        clock w' = clock w.
Proof.
  destruct (broadcast_to_websockets_run env data w)
    as (w' & Hrun & _ & Hcl & Hman & Hh & Hc & _ & _ & Hdb & Hk).
  exists w'. split; [done|]. rewrite Hcl.
  unfold get_connection_count, gets, registry_and_cache. rewrite Hman, Hh, Hc.
  split_and!; try done. set_solver.
Qed.

Lemma dict_get_None (id : string) (d : list (string * WebSocket)) :
  dict_get id d = None ↔ ∀ ws, (id, ws) ∉ d.
Proof.
  unfold dict_get. induction d as [|[k v] d IH]; simpl.
  - split; [intros _ ws Hin; by apply elem_of_nil in Hin|done].
  - destruct (String.eqb_spec k id) as [->|Hne]; simpl.
    + split; [done|]. intros H. destruct (H v). apply list_elem_of_here.
    + rewrite IH. split; intros H ws.
      * intros [[=]|Hin]%elem_of_cons; [done|]. by apply (H ws).
      * intros Hin. apply (H ws). by apply list_elem_of_further.
Qed.

Lemma dict_get_Some (id : string) (ws : WebSocket) (d : list (string * WebSocket)) :
  dict_get id d = Some ws → (id, ws) ∈ d.
Proof.
  unfold dict_get. induction d as [|[k v] d IH]; simpl; [done|].
  destruct (String.eqb_spec k id) as [->|Hne]; simpl.
  - intros [= ->]. apply list_elem_of_here.
  - intros H. apply list_elem_of_further. by apply IH.
Qed.

Lemma dict_set_fresh (id : string) (ws : WebSocket) (d : list (string * WebSocket)) :
  dict_get id d = None → dict_set id ws d = d ++ [(id, ws)].
Proof.
  unfold dict_get. induction d as [|[k v] d IH]; simpl; [done|].
  destruct (String.eqb k id); simpl; [done|]. intros H. by rewrite IH.
Qed.

Lemma dict_del_app_fresh (id : string) (ws : WebSocket) (d : list (string * WebSocket)) :
  dict_get id d = None → dict_del id (d ++ [(id, ws)]) = d.
Proof.
  intros H. unfold dict_del. rewrite List.filter_app. simpl.
  rewrite String.eqb_refl. simpl. rewrite app_nil_r.
  by apply dict_del_absent.
Qed.

Lemma elem_of_dict_del (id : string) (kv : string * WebSocket) (d : list (string * WebSocket)) :
  kv ∈ dict_del id d → kv ∈ d.
Proof.
  unfold dict_del. rewrite !list_elem_of_In, filter_In. tauto.
Qed.

Lemma elem_of_dict_set (id : string) (ws : WebSocket) (kv : string * WebSocket)
    (d : list (string * WebSocket)) :
  kv ∈ dict_set id ws d → kv = (id, ws) ∨ kv ∈ d.
Proof.
  induction d as [|[k v] d IH]; simpl.
  - intros ->%list_elem_of_singleton. by left.
  - destruct (String.eqb k id); simpl.
    + intros [->|Hin]%elem_of_cons; [by left|]. right. by apply list_elem_of_further.
    + intros [->|Hin]%elem_of_cons; [right; apply list_elem_of_here|].
      destruct (IH Hin) as [->|Hd]; [by left|]. right. by apply list_elem_of_further.
Qed.

Lemma conn_id_inj (j k : nat) : "conn_" +:+ pretty j = "conn_" +:+ pretty k → j = k.
Proof. simpl. intros [= H]. by apply pretty_nat_inj in H. Qed.

(** The next id [connect] hands out is not in use. *)
Lemma next_conn_id_fresh (g : WebSocketManager) :
  conn_ids_bounded g →
  dict_get ("conn_" +:+ pretty (S (connection_counter g))) (active_connections g) = None.
Proof.
  intros Hb. apply dict_get_None. intros ws Hin.
  destruct (Hb _ _ Hin) as (k & Hk & Hle). apply conn_id_inj in Hk. lia.
Qed.

(** What [connect] does. *)
Lemma connect_run (ws : WebSocket) (w : World) :
  ∃ w',
    connect ws w = Ok ("conn_" +:+ pretty (S (connection_counter (websocket_manager w)))) w' ∧
    active_connections (websocket_manager w')
      = dict_set ("conn_" +:+ pretty (S (connection_counter (websocket_manager w)))) ws
          (active_connections (websocket_manager w)) ∧
    connection_counter (websocket_manager w') = S (connection_counter (websocket_manager w)) ∧
    clients_of w' = {[ws]} ∪ clients_of w ∧
    wire w' = wire w ∧
    registry_and_cache w' = registry_and_cache w ∧
    db_manager w' = db_manager w.
Proof.
  unfold connect, add_websocket_client. run. eexists. split; [done|]. simpl.
  by repeat split.
Qed.

Lemma connect_bounded (ws : WebSocket) (w : World) :
  conn_ids_bounded (websocket_manager w) →
  conn_ids_bounded (websocket_manager (final (connect ws w))).
Proof.
  intros Hb. destruct (connect_run ws w) as (w' & Hrun & Hconn & Hcnt & _).
  rewrite Hrun. simpl. intros id ws' Hin. rewrite Hconn in Hin. rewrite Hcnt.
  apply elem_of_dict_set in Hin as [[= -> ->]|Hin].
  - eexists. split; [done|]. lia.
  - destruct (Hb _ _ Hin) as (k & -> & Hle). exists k. split; [done|]. lia.
Qed.

Lemma disconnect_bounded (id : string) (ws : WebSocket) (w : World) :
  conn_ids_bounded (websocket_manager w) →
  conn_ids_bounded (websocket_manager (final (disconnect id ws w))).
Proof.
  intros Hb. destruct (disconnect_run id ws w) as (w' & Hrun & Hconn & _).
  rewrite Hrun. simpl. intros id' ws' Hin. rewrite Hconn in Hin.
  apply elem_of_dict_del in Hin. destruct (Hb _ _ Hin) as (k & -> & Hle).
  exists k. split; [done|].
  assert (Hcnt : connection_counter (websocket_manager w')
                 = connection_counter (websocket_manager w)).
  { revert Hrun. unfold disconnect, remove_websocket_client, discard_client. run.
    case_decide; run; by intros [= <-]. }
  by rewrite Hcnt.
Qed.

End Registries.

(* ================================================================== *)
(** * The connection manager *)
(* ================================================================== *)

Section Connections.
Context (env : Env).

Lemma disconnect_loop_bounded (D : list (string * WebSocket)) (w : World) :
  conn_ids_bounded (websocket_manager w) →
  conn_ids_bounded
    (websocket_manager (final (for_each D (λ kv, disconnect kv.1 kv.2) w))).
Proof.
  revert w. induction D as [|[id ws] D IH]; intros w Hb; simpl; [done|].
  pose proof (disconnect_bounded id ws w Hb) as Hb1.
  destruct (disconnect_run id ws w) as (w1 & Hdis & _).
  rewrite (bind_Ok _ _ _ _ _ Hdis). rewrite Hdis in Hb1. by apply IH.
Qed.

Lemma registry_preserves_manager (c : call) :
  match c with
  | MonitoringCycle | Connect _ | Disconnect _ _ | PersonalMessage _ _
  | ManagerBroadcast _ => True
  | _ => preserves websocket_manager (perform env c)
  end.
Proof.
  destruct c; simpl; try done.
  - unfold add_target_host. frame.
  - unfold remove_target_host. frame.
  - unfold start_monitoring. frame.
  - unfold stop_monitoring. frame.
  - apply handle_websocket_message_preserves; reflexivity.
  - unfold insert_ping_metric, utcnow.
    repeat first
      [ apply preserves_reader, get_connection_reads
      | apply preserves_reader, execute_reads
      | frame_step ].
  - apply (send_json_preserves env websocket_manager). reflexivity.
Qed.

(** Every entry point keeps the ids within what the counter has handed
    out. *)
Lemma perform_bounded (c : call) (w : World) :
  conn_ids_bounded (websocket_manager w) →
  conn_ids_bounded (websocket_manager (final (perform env c w))).
Proof.
  intros Hb. pose proof (registry_preserves_manager c) as Hc.
  destruct c; cbn [perform] in *; try (by rewrite Hc).
  - destruct (monitoring_cycle_effect env w) as (w' & Hrun & _ & Hman & _).
    rewrite Hrun. simpl. by rewrite Hman.
  - pose proof (connect_bounded ws w Hb) as Hb'.
    destruct (connect_run ws w) as (w' & Hrun & _).
    rewrite (bind_Ok _ _ _ _ _ Hrun). by rewrite Hrun in Hb'.
  - by apply disconnect_bounded.
  - unfold send_personal_message. run.
    destruct (dict_get id (active_connections (websocket_manager w))) as [ws|]; [|done].
    unfold send_json. destruct (send_fault env ws f) as [e|]; simpl; [|done].
    by apply (disconnect_bounded id ws (push_log _ _ (push_wire _ w))).
  - unfold broadcast. run.
    destruct (manager_broadcast_loop_run env (active_connections (websocket_manager w)) f [] w)
      as (w1 & Hloop & _ & _ & Hman & _).
    rewrite Hloop. apply disconnect_loop_bounded. by rewrite Hman.
Qed.

End Connections.

(** In every state the service can be in, each connection id is one the
    counter has handed out. *)
Lemma reachable_conn_ids_bounded (w : World) :
  reachable w → conn_ids_bounded (websocket_manager w).
Proof.
  intros (interval & history & ->).
  induction history as [|[env c] history IH] using rev_ind.
  - by intros id ws ?%elem_of_nil.
  - unfold run_calls in *. rewrite foldl_app. simpl. by apply perform_bounded.
Qed.

Lemma reachable_step (env : Env) (c : call) (w : World) :
  reachable w → reachable (final (perform env c w)).
Proof.
  intros (interval & history & ->). exists interval, (history ++ [(env, c)]).
  unfold run_calls. by rewrite foldl_app.
Qed.

Section ConnectionIds.
Context (env : Env).

(** X9. In every state the service can reach, [connect] hands out an id that
    no connection holds: the new connection is appended to
    [active_connections] and displaces none, the count goes up by one, and
    the socket becomes a subscriber of the monitor. *)
Theorem connect_fresh_id (ws : WebSocket) (w : World) :
  reachable w →
  ∃ id w',
    connect ws w = Ok id w' ∧
    dict_get id (active_connections (websocket_manager w)) = None ∧
    active_connections (websocket_manager w')
      = active_connections (websocket_manager w) ++ [(id, ws)] ∧
    get_connection_count w'
      = Ok (S (length (active_connections (websocket_manager w)))) w' ∧
    clients_of w' = {[ws]} ∪ clients_of w ∧
    registry_and_cache w' = registry_and_cache w.
Proof.
  intros Hreach.
  pose proof (next_conn_id_fresh _ (reachable_conn_ids_bounded w Hreach)) as Hfresh.
  destruct (connect_run ws w) as (w' & Hrun & Hconn & _ & Hcl & _ & Hrc & _).
  eexists _, w'. split; [exact Hrun|]. split; [exact Hfresh|].
  rewrite (dict_set_fresh _ _ _ Hfresh) in Hconn.
  split_and!; try done.
  unfold get_connection_count, gets. rewrite Hconn, length_app. simpl.
  do 2 f_equal. lia.
Qed.

(** X10. In every reachable state, connecting a socket that is not yet a
    subscriber and disconnecting it under the id it was given restores both
    registries; only the counter remembers the visit. *)
Theorem connect_disconnect_round_trip (ws : WebSocket) (w : World) :
  reachable w →
  ws ∉ clients_of w →
  ∃ w',
    (id ← connect ws; disconnect id ws) w = Ok tt w' ∧
    active_connections (websocket_manager w') = active_connections (websocket_manager w) ∧
    connection_counter (websocket_manager w')
      = S (connection_counter (websocket_manager w)) ∧
    clients_of w' = clients_of w ∧
    registry_and_cache w' = registry_and_cache w.
Proof.
  intros Hreach Hnew.
  pose proof (next_conn_id_fresh _ (reachable_conn_ids_bounded w Hreach)) as Hfresh.
  destruct (connect_run ws w) as (w1 & Hrun & Hconn & Hcnt & Hcl & _ & Hrc & _).
  rewrite (dict_set_fresh _ _ _ Hfresh) in Hconn.
  rewrite (bind_Ok _ _ _ _ _ Hrun).
  destruct (disconnect_run ("conn_" +:+ pretty (S (connection_counter (websocket_manager w))))
              ws w1) as (w2 & Hdis & Hconn2 & Hcl2 & _ & Hh & Hc & _).
  exists w2. split; [exact Hdis|].
  rewrite Hconn2, Hconn, (dict_del_app_fresh _ _ _ Hfresh), Hcl2, Hcl.
  split_and!; [done| |set_solver|].
  - rewrite <- Hcnt. revert Hdis.
    unfold disconnect, remove_websocket_client, discard_client. run.
    case_decide; run; by intros [= <-].
  - unfold registry_and_cache in *. by rewrite Hh, Hc.
Qed.

(** X11. [disconnect] always returns, and a second call with the same
    arguments changes neither registry.  Under an id the manager does not
    hold it leaves [active_connections] alone, yet still drops the socket
    from the monitor's subscribers. *)
Theorem disconnect_idempotent (id : string) (ws : WebSocket) (w : World) :
  ∃ w1 w2,
    disconnect id ws w = Ok tt w1 ∧
    disconnect id ws w1 = Ok tt w2 ∧
    websocket_manager w2 = websocket_manager w1 ∧
    clients_of w2 = clients_of w1 ∧
    (dict_get id (active_connections (websocket_manager w)) = None →
     websocket_manager w1 = websocket_manager w ∧
     clients_of w1 = clients_of w ∖ {[ws]}).
Proof.
  assert (Hstep : ∀ w, ∃ w1,
    disconnect id ws w = Ok tt w1 ∧
    clients_of w1 = clients_of w ∖ {[ws]} ∧
    dict_get id (active_connections (websocket_manager w1)) = None ∧
    (dict_get id (active_connections (websocket_manager w)) = None →
     websocket_manager w1 = websocket_manager w)).
  { clear w. intros w. unfold disconnect, remove_websocket_client, discard_client. run.
    case_decide as Hin; run.
    - eexists. split; [done|]. simpl. split; [done|]. split; [apply dict_get_del|].
      intros Hnone. rewrite Hnone in Hin. by destruct Hin.
    - eexists. split; [done|]. simpl. split; [done|].
      destruct (dict_get id (active_connections (websocket_manager w))) eqn:E;
        [destruct Hin; by eexists|].
      split; [done|]. by destruct w as [? [] ? ? ? ?]. }
  destruct (Hstep w) as (w1 & Hrun1 & Hcl1 & Hgone & Hkeep).
  destruct (Hstep w1) as (w2 & Hrun2 & Hcl2 & _ & Hkeep2).
  exists w1, w2. split_and!; try done.
  - by apply Hkeep2.
  - rewrite Hcl2, Hcl1. set_solver.
  - intros Hnone. split; [by apply Hkeep|done].
Qed.

(** X12. [send_personal_message] never raises.  Under an unknown id it does
    nothing at all; otherwise it makes one send to that connection's socket,
    and if the send fails the connection is gone from both registries. *)
Theorem send_personal_message_contained (message : frame) (id : string) (w : World) :
  ∃ w',
    send_personal_message env message id w = Ok tt w' ∧
    match dict_get id (active_connections (websocket_manager w)) with
    | None => w' = w
    | Some ws =>
        wire w' = wire w ++ [attempt_of env message ws] ∧
        if send_fails env message ws
        then dict_get id (active_connections (websocket_manager w')) = None ∧
             ws ∉ clients_of w'
        else websocket_manager w' = websocket_manager w ∧
             ping_monitor w' = ping_monitor w
    end.
Proof.
  unfold send_personal_message. run.
  destruct (dict_get id (active_connections (websocket_manager w))) as [ws|];
    [|by exists w].
  unfold send_json, send_fails, attempt_of.
  destruct (send_fault env ws message) as [e|] eqn:E; simpl.
  - match goal with |- context [disconnect id ws ?w0] =>
      destruct (disconnect_run id ws w0) as (w' & Hdis & Hconn & Hcl & Hwire & _)
    end.
    exists w'. split; [exact Hdis|]. split; [by rewrite Hwire|].
    split; [rewrite Hconn; apply dict_get_del|]. rewrite Hcl. set_solver.
  - eexists. split; [done|]. simpl. done.
Qed.

End ConnectionIds.

Lemma connect_fresh_id_witness :
  reachable World_two_connected ∧
  ∃ id w',
    connect ws_plain World_two_connected = Ok id w' ∧
    dict_get id (active_connections (websocket_manager World_two_connected)) = None ∧
    active_connections (websocket_manager w')
      = active_connections (websocket_manager World_two_connected) ++ [(id, ws_plain)] ∧
    get_connection_count w'
      = Ok (S (length (active_connections (websocket_manager World_two_connected)))) w' ∧
    clients_of w' = {[ws_plain]} ∪ clients_of World_two_connected ∧
    registry_and_cache w' = registry_and_cache World_two_connected.
Proof.
  assert (H : reachable World_two_connected).
  { exists 1, [(quiet_env, Connect ws_full); (quiet_env, Connect ws_dns)]. reflexivity. }
  exact (conj H (connect_fresh_id ws_plain World_two_connected H)).
Defined.

Lemma connect_disconnect_round_trip_witness :
  reachable World_two_connected ∧
  (ws_plain ∉ clients_of World_two_connected) ∧
  ∃ w',
    (id ← connect ws_plain; disconnect id ws_plain) World_two_connected = Ok tt w' ∧
    active_connections (websocket_manager w')
      = active_connections (websocket_manager World_two_connected) ∧
    connection_counter (websocket_manager w')
      = S (connection_counter (websocket_manager World_two_connected)) ∧
    clients_of w' = clients_of World_two_connected ∧
    registry_and_cache w' = registry_and_cache World_two_connected.
Proof.
  assert (H : reachable World_two_connected).
  { exists 1, [(quiet_env, Connect ws_full); (quiet_env, Connect ws_dns)]. reflexivity. }
  assert (Hnew : ws_plain ∉ clients_of World_two_connected).
  { apply (bool_decide_unpack (_ ∉ _)). vm_compute. exact I. }
  exact (conj H (conj Hnew (connect_disconnect_round_trip ws_plain World_two_connected H Hnew))).
Defined.

(* ================================================================== *)
(** * The result cache and the registry *)
(* ================================================================== *)

Section CacheInvariant.
Context (env : Env).

Lemma disconnect_preserves {B} (f : World → B) id ws :
  (∀ g w, f (set_manager g w) = f w) →
  (∀ g w, f (set_monitor (λ m, with_websocket_clients (g m) m) w) = f w) →
  (∀ l s w, f (push_log l s w) = f w) →
  preserves f (disconnect id ws).
Proof.
  intros Hman Hcl Hlog.
  unfold disconnect, remove_websocket_client, discard_client, logger.
  repeat first
    [ apply preserves_modify; intros ?; first [apply Hman | apply Hlog]
    | apply preserves_modify; intros ?;
      apply (Hcl (λ m, websocket_clients m ∖ {[ws]}))
    | frame_step ].
Qed.

(** No step but the registry methods, an iteration of the loop and the
    cache write of the save touches the registry or the cache. *)
Lemma perform_preserves_registry_and_cache (c : call) :
  match c with
  | AddTargetHost _ | RemoveTargetHost _ | MonitoringCycle | CacheResult _ => True
  | _ => preserves registry_and_cache (perform env c)
  end.
Proof.
  destruct c; cbn [perform]; try exact I.
  - unfold start_monitoring. frame.
  - unfold stop_monitoring. frame.
  - unfold connect, add_websocket_client. frame.
  - apply disconnect_preserves; reflexivity.
  - apply handle_websocket_message_preserves; reflexivity.
  - unfold send_personal_message.
    repeat first
      [ apply send_json_preserves; reflexivity
      | apply disconnect_preserves; reflexivity
      | frame_step ].
  - unfold broadcast.
    repeat first
      [ apply manager_broadcast_loop_preserves; reflexivity
      | apply disconnect_preserves; reflexivity
      | frame_step ].
  - unfold insert_ping_metric, utcnow.
    repeat first
      [ apply preserves_reader, get_connection_reads
      | apply preserves_reader, execute_reads
      | frame_step ].
  - apply (send_json_preserves env registry_and_cache). reflexivity.
  - unfold discard_client. frame.
  - frame.
  - unfold sleep. frame.
  - frame.
Qed.

(** The save loop keeps the cache keyed by host, however it stops. *)
Lemma save_loop_keyed (results : list measurement) (w : World) :
  cache_keyed_by_host w →
  cache_keyed_by_host (final (for_each results (save_one env) w)).
Proof.
  revert w. induction results as [|r results IH]; intros w Hinv; simpl; [done|].
  unfold mbind, M_bind at 1.
  destruct (save_one env r w) as [[] w1|e w1] eqn:E.
  - apply IH. apply save_one_Ok in E as (_ & Hcache & _).
    intros h m. rewrite Hcache. intros Hm.
    apply lookup_insert_Some in Hm as [[<- <-]|[_ Hm]]; [done|by apply Hinv].
  - unfold save_one in E.
    destruct (insert_ping_metric env (metric_of r) w) as [id w0|e0 w0] eqn:Ei.
    + rewrite (bind_Ok _ _ _ _ _ Ei) in E. done.
    + rewrite (bind_Raise _ _ _ _ _ Ei) in E. injection E as <- <-.
      apply insert_ping_metric_Raise in Ei as ->. done.
Qed.

Lemma monitoring_cycle_keyed (w : World) :
  cache_keyed_by_host w →
  cache_keyed_by_host (final (monitoring_cycle env w)).
Proof.
  intros Hinv.
  destruct (ping_all_hosts_run env w) as (results & Hping & Hhosts).
  destruct (save_ping_results_returns env results w) as (w2 & Hsave).
  destruct (broadcast_phase_effect env results w2)
    as (w3 & Hphase & _ & Hrc & _).
  assert (Hcycle : monitoring_cycle env w = Ok tt w3).
  { unfold monitoring_cycle. apply try_except_Ok.
    rewrite (bind_Ok _ _ _ _ _ Hping). by rewrite (bind_Ok _ _ _ _ _ Hsave). }
  rewrite Hcycle. simpl.
  unfold registry_and_cache in Hrc. injection Hrc as _ Hc3.
  intros h m. rewrite Hc3.
  pose proof (save_loop_keyed results w Hinv) as Hloop.
  revert Hsave. unfold save_ping_results, try_except.
  destruct (for_each results (save_one env) w) as [[] w'|e w']; simpl in *.
  - intros [= <-]. apply Hloop.
  - run. intros [= <-]. apply Hloop.
Qed.

Lemma perform_cache_keyed (c : call) (w : World) :
  cache_keyed_by_host w →
  cache_keyed_by_host (final (perform env c w)).
Proof.
  intros Hinv. pose proof (perform_preserves_registry_and_cache c) as Hc.
  assert (Hsame : ∀ w', registry_and_cache w' = registry_and_cache w →
                        cache_keyed_by_host w').
  { intros w' [= Hh Hcache] h. rewrite Hcache. apply Hinv. }
  destruct c; cbn [perform] in *; try (by apply Hsame, Hc).
  - rewrite add_target_host_run. simpl. case_decide; [done|].
    intros h' m. unfold cache_of in *; simpl in *. apply Hinv.
  - destruct (decide (h ∈ hosts_of w)) as [Hin|Hnin].
    + destruct (list_remove_elem _ _ Hin) as [l' Hl'].
      rewrite (remove_target_host_run _ _ _ Hin Hl'). simpl.
      intros h' m. unfold cache_of at 1. simpl.
      intros [_ Hm]%lookup_delete_Some. by apply Hinv.
    + by rewrite remove_target_host_absent.
  - by apply monitoring_cycle_keyed.
  - unfold cache_result. run. intros h m. unfold cache_of. simpl.
    intros Hm. apply lookup_insert_Some in Hm as [[<- <-]|[_ Hm]]; [done|].
    by apply Hinv.
Qed.

(** X13. The cache can hold a host that is no longer registered.  Let the
    registry hold [h], once, with the pool connected and a server that
    accepts every insert.  If [h] is removed while an iteration of the loop
    awaits its probes, the removal clears the cache entry of [h] and the
    save then writes it again: when the save returns, [h] is not registered
    and the cache holds the result of this iteration for it. *)
Theorem removed_host_is_cached_again (h : string) (w : World) :
  NoDup (hosts_of w) →
  h ∈ hosts_of w →
  pool (db_manager w) = true →
  (∀ d metric, db_fault env d (InsertMetric metric) = None) →
  ∃ results w',
    cycle_with_removal env h w = Ok results w' ∧
    (h ∉ hosts_of w') ∧
    ∃ m, m ∈ results ∧ host m = h ∧ cache_of w' !! h = Some m.
Proof.
  intros Hnd Hin Hpool Hok.
  destruct (ping_all_hosts_run env w) as (results & Hping & Hhosts).
  destruct (list_remove_elem _ _ Hin) as [l' Hl'].
  pose proof (remove_target_host_run _ _ _ Hin Hl') as Hrm.
  set (w1 := push_log INFO ("Removed target host: " +:+ h)
               (set_monitor (with_latest_results (delete h (cache_of w)))
                  (set_monitor (with_target_hosts l') w))) in *.
  assert (Hpool1 : pool (db_manager w1) = true) by exact Hpool.
  destruct (save_loop_accepts env results w1 Hpool1 Hok)
    as (w' & Hrun & _ & _ & _ & Hcache & _).
  pose proof (save_ping_results_preserves env hosts_of results
    (λ _ _, eq_refl) (λ _ _, eq_refl) (λ _ _ _, eq_refl) w1) as Hh.
  rewrite (save_ping_results_Ok env _ _ _ Hrun) in Hh. simpl in Hh.
  exists results, w'. split; [|split].
  - unfold cycle_with_removal.
    rewrite (bind_Ok _ _ _ _ _ Hping). rewrite (bind_Ok _ _ _ _ _ Hrm).
    by rewrite (bind_Ok _ _ _ _ _ (save_ping_results_Ok env _ _ _ Hrun)).
  - rewrite Hh. unfold w1, hosts_of. simpl.
    rewrite (list_remove_filter _ _ _ Hnd Hl').
    intros [Hne _]%list_elem_of_filter. done.
  - assert (Hm : h ∈ host <$> results) by (by rewrite Hhosts).
    apply list_elem_of_fmap in Hm as (m & -> & Hm).
    exists m. split; [done|]. split; [done|].
    rewrite Hcache. apply foldl_cache_lookup; [by rewrite Hhosts|done].
Qed.

End CacheInvariant.

(** In every state the service can be in, under any interleaving of its
    tasks, the cache is keyed by host. *)
Lemma reachable_cache_keyed (w : World) :
  reachable w → cache_keyed_by_host w.
Proof.
  intros (interval & history & ->).
  induction history as [|[env c] history IH] using rev_ind.
  - intros h m. unfold cache_of. simpl. by rewrite lookup_empty.
  - unfold run_calls in *. rewrite foldl_app. simpl.
    by apply perform_cache_keyed.
Qed.

Lemma removed_host_is_cached_again_witness :
  NoDup (hosts_of (World_init 1)) ∧
  "google.com"%string ∈ hosts_of (World_init 1) ∧
  pool (db_manager (World_init 1)) = true ∧
  (∀ d metric, db_fault quiet_env d (InsertMetric metric) = None) ∧
  ∃ results w',
    cycle_with_removal quiet_env "google.com" (World_init 1) = Ok results w' ∧
    ("google.com"%string ∉ hosts_of w') ∧
    ∃ m, m ∈ results ∧ host m = "google.com"%string ∧
         cache_of w' !! "google.com"%string = Some m.
Proof.
  assert (Hnd : NoDup (hosts_of (World_init 1)))
    by (apply (bool_decide_unpack (NoDup _)); vm_compute; exact I).
  assert (Hin : "google.com"%string ∈ hosts_of (World_init 1))
    by (apply (bool_decide_unpack (_ ∈ _)); vm_compute; exact I).
  assert (Hpool : pool (db_manager (World_init 1)) = true) by reflexivity.
  assert (Hok : ∀ d metric, db_fault quiet_env d (InsertMetric metric) = None)
    by (intros d metric; reflexivity).
  exact (conj Hnd (conj Hin (conj Hpool (conj Hok
    (removed_host_is_cached_again quiet_env "google.com" (World_init 1)
       Hnd Hin Hpool Hok))))).
Defined.

(* ================================================================== *)
(** * The command handler: what goes on the wire *)
(* ================================================================== *)

Section Replies.
Context (env : Env).

Lemma send_json_reply_shape (ws : WebSocket) (r : reply) (w : World) :
  reply_shape env ws (wire w) (send_json env ws (Reply r) w).
Proof.
  exists [], r. unfold send_json, attempt_of.
  destruct (send_fault env ws (Reply r)) as [e|] eqn:E; simpl;
    (split; [done|]); (split; [by left|done]).
Qed.

(** A query followed by the reply, with the error reply as the handler of
    both. *)
Lemma try_send_reply_shape {A} (ws : WebSocket) (query : M A)
    (k : A → reply) (h : exn → reply) (w : World) :
  preserves wire query →
  reply_shape env ws (wire w)
    (try_except (a ← query; send_json env ws (Reply (k a)))
                (λ e, send_json env ws (Reply (h e))) w).
Proof.
  intros Hq. specialize (Hq w). unfold try_except, mbind, M_bind.
  destruct (query w) as [a w1|e w1]; simpl in Hq.
  - unfold send_json at 1.
    destruct (send_fault env ws (Reply (k a))) as [e|] eqn:E.
    + destruct (send_json_reply_shape ws (h e) (push_wire (Attempt ws (Reply (k a)) false) w1))
        as (failed & r & Hwire & [->|[r0 ->]] & Hout).
      * exists [Attempt ws (Reply (k a)) false], r.
        split; [|split; [right; by eexists|done]].
        rewrite Hwire. simpl. rewrite Hq. by rewrite <- app_assoc.
      * exfalso. revert Hwire. unfold send_json.
        destruct (send_fault env ws (Reply (h e))); simpl; intros Hwire;
          apply app_inv_head in Hwire; discriminate Hwire.
    + exists [], (k a). simpl. unfold attempt_of. rewrite E, Hq. simpl.
      split; [done|]. split; [by left|done].
  - destruct (send_json_reply_shape ws (h e) w1) as (failed & r & Hwire & Hf & Hout).
    exists failed, r. by rewrite Hwire, Hq.
Qed.

Lemma get_latest_metrics_by_host_preserves_wire :
  preserves wire (get_latest_metrics_by_host env).
Proof.
  unfold get_latest_metrics_by_host.
  repeat first
    [ apply preserves_reader, get_connection_reads
    | apply preserves_reader, execute_reads
    | frame_step ].
Qed.

Lemma get_host_summary_preserves_wire h hours minutes :
  preserves wire (get_host_summary env h hours minutes).
Proof.
  unfold get_host_summary, fetch_host_summary, utcnow.
  repeat first
    [ apply preserves_reader, get_connection_reads
    | apply preserves_reader, execute_reads
    | frame_step ].
Qed.

Lemma handle_websocket_message_reply_shape ws id message w :
  reply_shape env ws (wire w) (handle_websocket_message env ws id message w).
Proof.
  unfold handle_websocket_message.
  repeat match goal with
  | |- context [if is_str ?v ?s then _ else _] => destruct (is_str v s)
  end.
  - apply send_json_reply_shape.
  - apply send_json_reply_shape.
  - apply (try_send_reply_shape ws (get_latest_metrics_by_host env)
             latest_metrics_response
             (λ e, error [Lit ("Failed to get latest metrics: " +:+ exn_str e)])).
    apply get_latest_metrics_by_host_preserves_wire.
  - destruct (truthy _); apply send_json_reply_shape.
  - destruct (truthy _); [|apply send_json_reply_shape].
    apply (try_send_reply_shape ws _
             (host_summary_response (msg_get message "host"))
             (λ e, error [Lit ("Failed to get host summary: " +:+ exn_str e)])).
    unfold int_or_none, str_arg.
    repeat first [ apply get_host_summary_preserves_wire | frame_step ].
  - apply send_json_reply_shape.
Qed.

(** X14. Whatever the command, the handler puts on the wire replies to the
    socket the command came from and nothing else: one reply, or two when
    the first could not be sent, in which case the second is the error
    reply.  It returns exactly when its last reply went through, and raises
    the send's exception otherwise.  The monitor, the connection manager,
    the database and the clock are as before. *)
Theorem handle_websocket_message_replies (ws : WebSocket) (id : string)
    (message : gmap string json) (w : World) :
  let o := handle_websocket_message env ws id message w in
  (∃ failed r,
     wire (final o) = wire w ++ failed ++ [attempt_of env (Reply r) ws] ∧
     (failed = [] ∨ ∃ r0, failed = [Attempt ws (Reply r0) false]) ∧
     match o with
     | Ok _ _ => send_fault env ws (Reply r) = None
     | Raise e _ => send_fault env ws (Reply r) = Some e
     end) ∧
  ping_monitor (final o) = ping_monitor w ∧
  websocket_manager (final o) = websocket_manager w ∧
  db_manager (final o) = db_manager w ∧
  clock (final o) = clock w.
Proof.
  intros o. split; [apply handle_websocket_message_reply_shape|].
  split_and!; apply handle_websocket_message_preserves; reflexivity.
Qed.

(** X15. The [pong] reply takes its timestamp from the result cache, under
    the key [timestamp], and the cache is keyed by host.  So in every
    reachable state the reply to a [ping] command carries no time: it
    carries the cached result of a host named [timestamp] when there is
    one, and the default of the [get] otherwise. *)
Theorem pong_timestamp_is_a_cache_entry (ws : WebSocket) (id : string)
    (message : gmap string json) (w : World) :
  reachable w →
  msg_get message "type" = JStr "ping" →
  wire (final (handle_websocket_message env ws id message w))
    = wire w ++ [attempt_of env (Reply (pong (cache_of w !! "timestamp"%string))) ws] ∧
  ∀ m, cache_of w !! "timestamp"%string = Some m → host m = "timestamp"%string.
Proof.
  intros Hreach Htype. split.
  - unfold handle_websocket_message. rewrite Htype. simpl. run.
    unfold send_json, attempt_of.
    by destruct (send_fault env ws (Reply (pong (cache_of w !! "timestamp"%string)))).
  - intros m. apply (reachable_cache_keyed w Hreach).
Qed.

End Replies.

Lemma pong_timestamp_is_a_cache_entry_witness :
  reachable World_after_cycle ∧
  msg_get ping_command "type" = JStr "ping" ∧
  wire (final (handle_websocket_message quiet_env ws_full "conn_1" ping_command
                 World_after_cycle))
    = wire World_after_cycle ++ [attempt_of quiet_env (Reply (pong None)) ws_full].
Proof.
  assert (H : reachable World_after_cycle).
  { exists 1, [(quiet_env, MonitoringCycle)]. reflexivity. }
  assert (Htype : msg_get ping_command "type" = JStr "ping") by reflexivity.
  destruct (pong_timestamp_is_a_cache_entry quiet_env ws_full "conn_1" ping_command
              World_after_cycle H Htype) as [Hwire _].
  exact (conj H (conj Htype Hwire)).
Defined.

(* ================================================================== *)
(** * The table: listing, paging, looking up, counting, cleaning up *)
(* ================================================================== *)

Section Table.
Context (env : Env) (srv : Server) (py : Python).

Lemma newer_first_trans : Transitive newer_first.
Proof. unfold newer_first. intros a b c ? ?. lia. Qed.

Lemma newer_first_total : Total newer_first.
Proof. unfold newer_first. intros a b. lia. Qed.

Lemma order_by_timestamp_desc_sorted (rows : list PingMetricRow) :
  StronglySorted newer_first (order_by_timestamp_desc rows).
Proof.
  apply (@StronglySorted_merge_sort _ newer_first _ newer_first_trans newer_first_total).
Qed.

Lemma order_by_timestamp_desc_perm (rows : list PingMetricRow) :
  order_by_timestamp_desc rows ≡ₚ rows.
Proof. apply merge_sort_Permutation. Qed.

Lemma run_query_reads q w : final (run_query srv q w) = w.
Proof. unfold run_query. by destruct (query_fault srv (db_manager w) q). Qed.

(** A duration within reach of a clock that reads a time after the
    epoch: the earliest [datetime] is 62135596800 seconds before it. *)
Lemma since_in_range (now us : Z) :
  0 ≤ now ≤ datetime_max →
  0 ≤ us ≤ 62135596800000000 →
  since now (timedelta us) = inr (now - us).
Proof.
  intros Hnow Hus. unfold since, timedelta.
  assert (Hdays : 0 ≤ us `div` 86400000000 ≤ 999999999).
  { split; [apply Z.div_pos; lia|].
    apply Z.lt_succ_r, Z.div_lt_upper_bound; lia. }
  rewrite (proj2 (Z.leb_le (-999999999) _)) by lia.
  rewrite (proj2 (Z.leb_le _ 999999999)) by lia. simpl.
  unfold datetime_sub, datetime_min, datetime_max in *.
  rewrite (proj2 (Z.leb_le _ (now - us))) by lia.
  rewrite (proj2 (Z.leb_le (now - us) _)) by lia. reflexivity.
Qed.

(** When the window cannot be computed, the call raises before the pool or
    the server is asked. *)
Lemma get_recent_metrics_overflow (hours : number) (host : option string)
    (e : exn) (w : World) :
  since (clock w) (timedelta_of_hours py hours) = inl e →
  get_recent_metrics srv py hours host w = Raise e w.
Proof. intros Hsince. unfold get_recent_metrics, utcnow. run. by rewrite Hsince. Qed.

Lemma get_recent_metrics_run (hours : number) (host : option string)
    (since_time : datetime) (w : World) :
  since (clock w) (timedelta_of_hours py hours) = inr since_time →
  get_recent_metrics srv py hours host w =
    if pool (db_manager w) then
      match query_fault srv (db_manager w)
              (SelectRecent since_time (host_filter host)) with
      | Some e => Raise e w
      | None =>
          Ok (take 1000 (order_by_timestamp_desc (recent_window w since_time host))) w
      end
    else Raise (Exn "RuntimeError" "Database pool not initialized") w.
Proof.
  intros Hsince. unfold get_recent_metrics, utcnow, get_connection, run_query. run.
  rewrite Hsince. run.
  destruct (pool (db_manager w)); simpl; [|done].
  by destruct (query_fault srv (db_manager w) _).
Qed.

(** X16. Let [since_time] be the start of the window, the time of the call
    less [hours] hours, both the duration and the difference being within
    what [timedelta] and [datetime] can hold.  With the pool connected and a
    server that answers, [get_recent_metrics] returns without changing
    anything; what it returns are rows of the window (not older than
    [since_time], of the host when a non-empty one is given), newest first,
    all of them when they are at most 1000 and otherwise 1000 of them, none
    older than a row left out. *)
Theorem get_recent_metrics_sound (hours : number) (host : option string)
    (since_time : datetime) (w : World) :
  since (clock w) (timedelta_of_hours py hours) = inr since_time →
  pool (db_manager w) = true →
  query_fault srv (db_manager w) (SelectRecent since_time (host_filter host)) = None →
  ∃ rows,
    get_recent_metrics srv py hours host w = Ok rows w ∧
    StronglySorted newer_first rows ∧
    rows ⊆+ recent_window w since_time host ∧
    length rows = (length (recent_window w since_time host) `min` 1000)%nat ∧
    (∀ r, r ∈ rows →
       r ∈ ping_metrics (db_manager w) ∧
       since_time ≤ row_timestamp r ∧
       ∀ h, host = Some h → h ≠ EmptyString → row_target_host r = h) ∧
    (∀ r r', r ∈ recent_window w since_time host → r ∉ rows → r' ∈ rows →
             row_timestamp r ≤ row_timestamp r').
Proof.
  intros Hsince Hpool Hok.
  rewrite (get_recent_metrics_run _ _ _ _ Hsince), Hpool, Hok.
  set (window := recent_window w since_time host).
  pose proof (order_by_timestamp_desc_sorted window) as Hsorted.
  pose proof (order_by_timestamp_desc_perm window) as Hperm.
  set (sorted := order_by_timestamp_desc window) in *.
  assert (Hsub : take 1000 sorted ⊆+ window).
  { rewrite <- Hperm. apply sublist_submseteq, sublist_take. }
  eexists. split; [done|]. split_and!.
  - rewrite <- (take_drop 1000 sorted) in Hsorted.
    by apply StronglySorted_app_1_l in Hsorted.
  - exact Hsub.
  - rewrite length_take, (Permutation_length Hperm). lia.
  - intros r Hr. eapply elem_of_submseteq in Hr; [|exact Hsub].
    unfold window, recent_window in Hr.
    apply list_elem_of_In, filter_In in Hr as [Hin Hr].
    apply andb_prop in Hr as [Hts Hhost]. apply Z.leb_le in Hts.
    split; [by apply list_elem_of_In|]. split; [done|].
    intros h -> Hne. destruct h; [done|]. simpl in Hhost.
    by apply bool_decide_eq_true in Hhost.
  - intros r r' Hr Hnot Hr'.
    rewrite <- Hperm, <- (take_drop 1000 sorted) in Hr.
    apply elem_of_app in Hr as [Hr|Hr]; [done|].
    rewrite <- (take_drop 1000 sorted) in Hsorted.
    apply (StronglySorted_app_1_elem_of _ _ _ r' r Hsorted Hr' Hr).
Qed.

Lemma py_slice_page {A} (l : list A) (offset limit : Z) :
  0 ≤ offset → 0 ≤ limit →
  py_slice l offset (offset + limit)
    = take (Z.to_nat limit) (drop (Z.to_nat offset) l).
Proof.
  intros Ho Hl. unfold py_slice.
  rewrite (proj2 (Z.ltb_ge offset 0)) by done.
  rewrite (proj2 (Z.ltb_ge (offset + limit) 0)) by lia.
  destruct (decide (Z.of_nat (length l) ≤ offset)) as [Hge|Hlt].
  - rewrite !drop_ge by lia. by rewrite !take_nil.
  - rewrite (Z.min_l offset) by lia.
    destruct (decide (offset + limit ≤ Z.of_nat (length l))) as [Hin|Hout].
    + rewrite Z.min_l by lia. do 2 f_equal. lia.
    + rewrite Z.min_r by lia. rewrite !take_ge; [done| |];
        rewrite length_drop; lia.
Qed.

Lemma get_ping_metrics_run (hours : number) (host : option string) (limit offset : Z)
    (metrics : list PingMetricRow) (w : World) :
  get_recent_metrics srv py hours host w = Ok metrics w →
  get_ping_metrics srv py hours host limit offset w
    = Ok (py_slice metrics offset (offset + limit))
         (push_log INFO
            ("Retrieved " +:+ pretty (length (py_slice metrics offset (offset + limit)))
             +:+ " ping metrics") w).
Proof.
  intros Hrun. unfold get_ping_metrics. apply try_except_Ok.
  rewrite (bind_Ok _ _ _ _ _ Hrun). by run.
Qed.

(** X17. A call of [get_ping_metrics] returns a page of the listing that
    [get_recent_metrics] gives at that moment: with the window within range,
    the pool connected and a server that answers, and for an offset and a
    limit that are not negative, it returns the [limit] rows that follow the
    first [offset] rows of the listing, or as many as there are.  So a page
    holds at most [limit] rows, is empty from the end of the listing on, and
    is the whole listing for offset 0 and a limit of 1000 or more.  The call
    logs one line and changes nothing else. *)
Theorem get_ping_metrics_pages (hours : number) (host : option string)
    (since_time : datetime) (offset limit : Z) (w : World) :
  since (clock w) (timedelta_of_hours py hours) = inr since_time →
  pool (db_manager w) = true →
  query_fault srv (db_manager w) (SelectRecent since_time (host_filter host)) = None →
  0 ≤ offset → 0 ≤ limit →
  ∃ metrics page w',
    get_recent_metrics srv py hours host w = Ok metrics w ∧
    get_ping_metrics srv py hours host limit offset w = Ok page w' ∧
    page = take (Z.to_nat limit) (drop (Z.to_nat offset) metrics) ∧
    Z.of_nat (length page) ≤ limit ∧
    (Z.of_nat (length metrics) ≤ offset → page = []) ∧
    (offset = 0 → 1000 ≤ limit → page = metrics) ∧
    w' = push_log INFO ("Retrieved " +:+ pretty (length page) +:+ " ping metrics") w.
Proof.
  intros Hsince Hpool Hok Ho Hl.
  assert (Hrun : ∃ metrics, get_recent_metrics srv py hours host w = Ok metrics w
                            ∧ (length metrics ≤ 1000)%nat).
  { rewrite (get_recent_metrics_run _ _ _ _ Hsince), Hpool, Hok.
    eexists. split; [done|]. rewrite length_take. lia. }
  destruct Hrun as (metrics & Hrun & Hlen).
  pose proof (get_ping_metrics_run hours host limit offset metrics w Hrun) as H1.
  rewrite (py_slice_page _ offset limit) in H1 by lia.
  exists metrics. eexists _, _.
  split; [exact Hrun|]. split; [exact H1|]. split; [done|].
  split_and!.
  - rewrite length_take. lia.
  - intros Hpast. rewrite drop_ge by lia. by rewrite take_nil.
  - intros -> Hbig. simpl. rewrite drop_0. apply take_ge. lia.
  - done.
Qed.

Lemma find_id_fresh (table : list PingMetricRow) (row : PingMetricRow) :
  Forall (λ r, row_id r < row_id row) table →
  List.find (λ r, row_id r =? row_id row) (table ++ [row]) = Some row.
Proof.
  induction table as [|r table IH]; intros Hall; simpl.
  - by rewrite Z.eqb_refl.
  - apply Forall_cons in Hall as [Hr Hall].
    rewrite (proj2 (Z.eqb_neq _ _)) by lia. by apply IH.
Qed.

Lemma create_ping_metric_run (metric : PingMetricCreate) (w : World) :
  pool (db_manager w) = true →
  db_fault env (db_manager w) (InsertMetric metric) = None →
  create_ping_metric env metric w =
    Ok (next_id (db_manager w))
       (push_log INFO ("Created ping metric with ID: " +:+ pretty (next_id (db_manager w)))
          (set_db (λ d,
             {| pool := pool d;
                ping_metrics := ping_metrics d ++
                  [row_of_metric metric (next_id (db_manager w)) (clock w)];
                next_id := next_id (db_manager w) + 1 |}) w)).
Proof.
  intros Hpool Hok. unfold create_ping_metric. apply try_except_Ok.
  unfold mbind, M_bind. rewrite insert_ping_metric_run, Hpool, Hok. by run.
Qed.

Lemma get_ping_metric_by_id_found (metric_id : Z) (row : PingMetricRow) (w : World) :
  pool (db_manager w) = true →
  query_fault srv (db_manager w) (SelectById metric_id) = None →
  List.find (λ r, row_id r =? metric_id) (ping_metrics (db_manager w)) = Some row →
  get_ping_metric_by_id srv metric_id w
    = Ok (Some row)
         (push_log INFO ("Retrieved ping metric with ID: " +:+ pretty metric_id) w).
Proof.
  intros Hpool Hok Hfind. unfold get_ping_metric_by_id, get_connection, run_query. run.
  by rewrite Hpool, Hok, Hfind.
Qed.

Lemma get_ping_metric_by_id_missing (metric_id : Z) (w : World) :
  pool (db_manager w) = true →
  query_fault srv (db_manager w) (SelectById metric_id) = None →
  List.find (λ r, row_id r =? metric_id) (ping_metrics (db_manager w)) = None →
  get_ping_metric_by_id srv metric_id w
    = Ok None
         (push_log WARNING ("Ping metric with ID " +:+ pretty metric_id +:+ " not found") w).
Proof.
  intros Hpool Hok Hfind. unfold get_ping_metric_by_id, get_connection, run_query. run.
  by rewrite Hpool, Hok, Hfind.
Qed.

(** X18. A metric created through the CRUD layer can be read back under
    the id it was given: with the pool connected, a server that answers and
    ids that the sequence has handed out, [create_ping_metric] followed by
    [get_ping_metric_by_id] returns the fields of the metric, stamped with
    the time of the call; the row is the one appended to the table, and the
    ids are still below the sequence. *)
Theorem create_then_get_by_id (metric : PingMetricCreate) (w : World) :
  pool (db_manager w) = true →
  db_fault env (db_manager w) (InsertMetric metric) = None →
  (∀ d id, query_fault srv d (SelectById id) = None) →
  ids_below_next (db_manager w) →
  ∃ w',
    (metric_id ← create_ping_metric env metric;
     get_ping_metric_by_id srv metric_id) w
      = Ok (Some (row_of_metric metric (next_id (db_manager w)) (clock w))) w' ∧
    ping_metrics (db_manager w')
      = ping_metrics (db_manager w)
        ++ [row_of_metric metric (next_id (db_manager w)) (clock w)] ∧
    next_id (db_manager w') = next_id (db_manager w) + 1 ∧
    ids_below_next (db_manager w').
Proof.
  intros Hpool Hok Hsrv Hids.
  rewrite (bind_Ok _ _ _ _ _ (create_ping_metric_run metric w Hpool Hok)).
  erewrite get_ping_metric_by_id_found;
    [|exact Hpool|apply Hsrv
     |apply (find_id_fresh _ (row_of_metric metric (next_id (db_manager w)) (clock w)) Hids)].
  eexists. split; [done|]. simpl. split; [done|]. split; [done|].
  unfold ids_below_next in *. simpl. apply Forall_app. split.
  - eapply Forall_impl; [exact Hids|]. simpl. intros r Hr. lia.
  - apply Forall_singleton. simpl. lia.
Qed.

Lemma head_newest (rows : list PingMetricRow) (row : PingMetricRow) :
  Forall (λ r, row_timestamp r < row_timestamp row) rows →
  head (order_by_timestamp_desc (rows ++ [row])) = Some row.
Proof.
  intros Hold.
  pose proof (order_by_timestamp_desc_sorted (rows ++ [row])) as Hsorted.
  pose proof (order_by_timestamp_desc_perm (rows ++ [row])) as Hperm.
  destruct (order_by_timestamp_desc (rows ++ [row])) as [|y s].
  - apply Permutation_nil_l in Hperm. by destruct rows.
  - simpl. f_equal.
    assert (Hy : y ∈ rows ++ [row]) by (rewrite <- Hperm; apply list_elem_of_here).
    assert (Hrow : row ∈ y :: s) by (rewrite Hperm; set_solver).
    apply elem_of_app in Hy as [Hy|Hy]; [|by apply list_elem_of_singleton in Hy].
    apply elem_of_cons in Hrow as [->|Hrow]; [done|].
    apply StronglySorted_inv in Hsorted as [_ Hall].
    rewrite Forall_forall in Hall. apply Hall in Hrow. unfold newer_first in Hrow.
    rewrite Forall_forall in Hold. apply Hold in Hy. lia.
Qed.

Lemma get_latest_metric_run (h : string) (w : World) :
  pool (db_manager w) = true →
  query_fault srv (db_manager w) (SelectLatest h) = None →
  get_latest_metric srv h w
    = Ok (head (order_by_timestamp_desc
            (List.filter (λ r, bool_decide (row_target_host r = h))
               (ping_metrics (db_manager w))))) w.
Proof.
  intros Hpool Hok. unfold get_latest_metric, get_connection, run_query. run.
  by rewrite Hpool, Hok.
Qed.

(** X19. Once a metric has been inserted at a time later than every stored
    row of its host, [get_latest_metric] for that host returns the row of
    that insert. *)
Theorem insert_then_latest (metric : PingMetricCreate) (w : World) :
  pool (db_manager w) = true →
  db_fault env (db_manager w) (InsertMetric metric) = None →
  (∀ d h, query_fault srv d (SelectLatest h) = None) →
  (∀ r, r ∈ ping_metrics (db_manager w) →
        row_target_host r = pmc_target_host metric → row_timestamp r < clock w) →
  ∃ w',
    (insert_ping_metric env metric ;; get_latest_metric srv (pmc_target_host metric)) w
      = Ok (Some (row_of_metric metric (next_id (db_manager w)) (clock w))) w' ∧
    ping_metrics (db_manager w')
      = ping_metrics (db_manager w)
        ++ [row_of_metric metric (next_id (db_manager w)) (clock w)].
Proof.
  intros Hpool Hok Hsrv Hold.
  unfold mbind, M_bind. rewrite insert_ping_metric_run, Hpool, Hok.
  rewrite get_latest_metric_run by (simpl; first [exact Hpool | apply Hsrv]).
  simpl. rewrite List.filter_app. simpl. rewrite bool_decide_eq_true_2 by done.
  rewrite (head_newest _ (row_of_metric metric (next_id (db_manager w)) (clock w))).
  - by eexists.
  - apply Forall_forall. intros r Hr. simpl.
    apply list_elem_of_In, filter_In in Hr as [Hin Hhost].
    apply bool_decide_eq_true in Hhost. apply Hold; [by apply list_elem_of_In|done].
Qed.

End Table.

(* ================================================================== *)
(** * Cleaning up and counting *)
(* ================================================================== *)

Section Cleanup.
Context (srv : Server) (py : Python).

#[local] Arguments String.append : simpl nomatch.

Lemma string_app_cons (c : Ascii.ascii) (s t : string) :
  String c s +:+ t = String c (s +:+ t).
Proof. reflexivity. Qed.

Lemma string_app_nil_r (s : string) : s +:+ EmptyString = s.
Proof.
  induction s as [|c s IH]; [done|]. by rewrite string_app_cons, IH.
Qed.

Lemma string_app_assoc (s1 s2 s3 : string) : (s1 +:+ s2) +:+ s3 = s1 +:+ (s2 +:+ s3).
Proof.
  induction s1 as [|c s1 IH]; [done|]. by rewrite !string_app_cons, IH.
Qed.

(** A run of digits is one word. *)
Lemma py_split_go_digits (d : Decimal.uint) (word : string) :
  py_split_go word (DecimalString.NilEmpty.string_of_uint d)
    = match word +:+ DecimalString.NilEmpty.string_of_uint d with
      | EmptyString => []
      | s => [s]
      end.
Proof.
  revert word. induction d as [|d IH|d IH|d IH|d IH|d IH|d IH|d IH|d IH|d IH|d IH];
    intros word; simpl;
    try (rewrite IH, string_app_assoc; reflexivity).
  rewrite string_app_nil_r. by destruct word.
Qed.

Lemma to_uint_nonnil (n : nat) : Nat.to_uint n ≠ Decimal.Nil.
Proof.
  pose proof (DecimalNat.Unsigned.to_of (Nat.to_uint n)) as H.
  rewrite DecimalNat.Unsigned.of_to in H. rewrite H.
  apply DecimalFacts.unorm_nonnil.
Qed.

(** [int(result.split()[-1])] reads back the count of the status. *)
Lemma delete_status_count (n : nat) :
  ∃ count, last (py_split (delete_status n)) = Some count ∧
           py_int count = inr (Z.of_nat n).
Proof.
  exists (DecimalString.NilEmpty.string_of_uint (Nat.to_uint n)).
  pose proof (to_uint_nonnil n) as Hnn.
  assert (Hzero : DecimalString.NilZero.string_of_uint (Nat.to_uint n)
                  = DecimalString.NilEmpty.string_of_uint (Nat.to_uint n)).
  { unfold DecimalString.NilZero.string_of_uint. by destruct (Nat.to_uint n). }
  split.
  - unfold delete_status, py_split. rewrite Hzero. simpl.
    rewrite py_split_go_digits. simpl.
    by destruct (Nat.to_uint n).
  - unfold py_int. rewrite <- Hzero, (DecimalString.NilZero.usu _ Hnn), Hzero.
    rewrite DecimalNat.Unsigned.of_to. by destruct (Nat.to_uint n).
Qed.

Lemma filter_filter_same {A} (f : A → bool) (l : list A) :
  List.filter f (List.filter f l) = List.filter f l.
Proof.
  induction l as [|x l IH]; simpl; [done|].
  destruct (f x) eqn:E; simpl; [|done]. by rewrite E, IH.
Qed.

Lemma delete_old_metrics_run (days : Z) (cutoff_date : datetime) (w : World) :
  let kept :=
    List.filter (λ r, cutoff_date <=? row_timestamp r) (ping_metrics (db_manager w)) in
  since (clock w) (timedelta (timedelta_days days)) = inr cutoff_date →
  pool (db_manager w) = true →
  query_fault srv (db_manager w) (DeleteOlder cutoff_date) = None →
  ∃ w',
    delete_old_metrics srv days w
      = Ok (Z.of_nat (length (ping_metrics (db_manager w)) - length kept)) w' ∧
    db_manager w' =
      {| pool := true; ping_metrics := kept; next_id := next_id (db_manager w) |} ∧
    ping_monitor w' = ping_monitor w ∧
    websocket_manager w' = websocket_manager w ∧
    wire w' = wire w.
Proof.
  intros kept Hsince Hpool Hok.
  unfold delete_old_metrics, utcnow, get_connection, run_query.
  unfold try_except, mbind, M_bind, gets, modify, mret, M_ret, compose.
  rewrite Hsince. unfold eval, mret, M_ret. rewrite Hpool, Hok. fold kept.
  destruct (delete_status_count (length (ping_metrics (db_manager w)) - length kept))
    as (count & Hlast & Hint).
  assert (Hstatus : ∃ c s,
    delete_status (length (ping_metrics (db_manager w)) - length kept) = String c s).
  { unfold delete_status. simpl. by eexists _, _. }
  destruct Hstatus as (c & s & Hs). rewrite Hs, <- Hs, Hlast, Hint.
  unfold logger, modify. eexists. split; [reflexivity|]. simpl. by rewrite Hpool.
Qed.

(** X20. Let [cutoff_date] be the time of the call less [days] days, both
    the duration and the difference being within what [timedelta] and
    [datetime] can hold.  With the pool connected and a server that answers,
    [delete_old_metrics] removes exactly the rows older than [cutoff_date],
    keeps the others in their order, and returns the number of rows it
    removed, read back from the status of the statement.  No row older than
    the cutoff is left, and the sequence of ids, the monitor and the
    sockets are as they were. *)
Theorem delete_old_metrics_deletes (days : Z) (cutoff_date : datetime) (w : World) :
  since (clock w) (timedelta (timedelta_days days)) = inr cutoff_date →
  pool (db_manager w) = true →
  query_fault srv (db_manager w) (DeleteOlder cutoff_date) = None →
  ∃ n w',
    delete_old_metrics srv days w = Ok n w' ∧
    ping_metrics (db_manager w')
      = List.filter (λ r, cutoff_date <=? row_timestamp r) (ping_metrics (db_manager w)) ∧
    n = Z.of_nat (length (List.filter
          (λ r, negb (cutoff_date <=? row_timestamp r))
          (ping_metrics (db_manager w)))) ∧
    Forall (λ r, cutoff_date ≤ row_timestamp r) (ping_metrics (db_manager w')) ∧
    next_id (db_manager w') = next_id (db_manager w) ∧
    ping_monitor w' = ping_monitor w ∧
    websocket_manager w' = websocket_manager w.
Proof.
  intros Hsince Hpool Hok.
  destruct (delete_old_metrics_run days cutoff_date w Hsince Hpool Hok)
    as (w' & Hrun & Hdb & Hmon & Hman & _).
  eexists _, w'. split; [exact Hrun|]. rewrite Hdb. simpl.
  split_and!; try done.
  - pose proof (filter_length
      (λ r, cutoff_date <=? row_timestamp r) (ping_metrics (db_manager w))) as Hlen.
    cbv beta in Hlen. f_equal. lia.
  - apply Forall_forall. intros r Hr.
    apply list_elem_of_In, filter_In in Hr as [_ Hr]. by apply Z.leb_le in Hr.
Qed.

(** A duration out of range is refused before the pool or the server is
    asked. *)
Lemma delete_old_metrics_overflow (days : Z) (e : exn) (w : World) :
  since (clock w) (timedelta (timedelta_days days)) = inl e →
  delete_old_metrics srv days w
    = Raise e (push_log ERROR ("Failed to delete old metrics: " +:+ exn_str e) w).
Proof.
  intros Hsince. unfold delete_old_metrics, utcnow.
  erewrite try_except_Raise; [|run; rewrite Hsince; reflexivity]. reflexivity.
Qed.

Lemma get_metrics_count_run (host : option string) (hours : option Z)
    (since_time : option datetime) (w : World) :
  let count :=
    Z.of_nat (length (List.filter
      (λ r, matches_since since_time r && matches_host (host_filter host) r)
      (ping_metrics (db_manager w)))) in
  count_since (clock w) hours = inr since_time →
  pool (db_manager w) = true →
  query_fault srv (db_manager w) (SelectCount since_time (host_filter host)) = None →
  get_metrics_count srv host hours w
    = Ok count (push_log INFO ("Total metrics count: " +:+ pretty count) w).
Proof.
  intros count Hsince Hpool Hok.
  unfold get_metrics_count, utcnow, get_connection, run_query.
  apply try_except_Ok. revert Hsince. unfold count_since.
  destruct hours as [h|]; [destruct (h =? 0)|].
  - intros [= <-]. run. by rewrite Hpool, Hok.
  - destruct (since (clock w) (timedelta (timedelta_hours h))) as [e|t] eqn:E; [done|].
    intros [= <-]. run. rewrite E. run. by rewrite Hpool, Hok.
  - intros [= <-]. run. by rewrite Hpool, Hok.
Qed.

(** X21. The count and the listing agree.  For a number of hours other
    than zero and within range, [get_metrics_count] returns the number of
    rows of the window that [get_recent_metrics] lists from, so a listing
    taken in the same state has as many rows as are counted, up to the 1000
    at which it is cut.  Zero hours count as no bound at all, and the empty
    host as no host. *)
Theorem listing_length_is_count (host : option string) (hours : Z)
    (since_time : datetime) (w : World) :
  hours ≠ 0 →
  since (clock w) (timedelta (timedelta_hours hours)) = inr since_time →
  pool (db_manager w) = true →
  (∀ d q, query_fault srv d q = None) →
  ∃ rows count w',
    get_recent_metrics srv py (Int hours) host w = Ok rows w ∧
    get_metrics_count srv host (Some hours) w = Ok count w' ∧
    count = Z.of_nat (length (recent_window w since_time host)) ∧
    Z.of_nat (length rows) = Z.min count 1000 ∧
    get_metrics_count srv host (Some 0) = get_metrics_count srv host None ∧
    get_metrics_count srv (Some EmptyString) (Some hours)
      = get_metrics_count srv None (Some hours).
Proof.
  intros Hne Hsince Hpool Hok.
  rewrite (get_recent_metrics_run srv py (Int hours) host since_time w Hsince), Hpool, Hok.
  assert (Hcs : count_since (clock w) (Some hours) = inr (Some since_time)).
  { unfold count_since. rewrite (proj2 (Z.eqb_neq hours 0)) by done. by rewrite Hsince. }
  rewrite (get_metrics_count_run host (Some hours) _ w Hcs Hpool (Hok _ _)).
  eexists _, _, _. split; [done|]. split; [done|]. split; [done|]. split; [|done].
  rewrite length_take, (Permutation_length (order_by_timestamp_desc_perm _)).
  unfold recent_window. cbn [matches_since]. lia.
Qed.

End Cleanup.

(* ================================================================== *)
(** * The host summary: when it returns and what it can report *)
(* ================================================================== *)

Section SummaryRange.
Context (env : Env).

Lemma fetch_host_summary_empty (h : string) (since_time : datetime) (w : World) :
  pool (db_manager w) = true →
  db_fault env (db_manager w) (SelectHostSummary h since_time) = None →
  window_rows w h since_time = [] →
  fetch_host_summary env h since_time w
    = Raise (Exn "DivisionByZeroError" "division by zero") w.
Proof.
  intros Hpool Hok Hempty. unfold fetch_host_summary, get_connection, execute. run.
  rewrite Hpool, Hok. simpl. fold (window_rows w h since_time). by rewrite Hempty.
Qed.

Lemma fetch_host_summary_rows (h : string) (since_time : datetime) (w : World) :
  pool (db_manager w) = true →
  db_fault env (db_manager w) (SelectHostSummary h since_time) = None →
  window_rows w h since_time ≠ [] →
  ∃ row,
    fetch_host_summary env h since_time w = Ok (Some row) w ∧
    total_pings row = Z.of_nat (length (window_rows w h since_time)) ∧
    0 < total_pings row ∧
    0 ≤ packet_losses row ≤ total_pings row ∧
    packet_loss_rate row = (inject_Z (packet_losses row) / inject_Z (total_pings row))%Q.
Proof.
  intros Hpool Hok Hrows. unfold fetch_host_summary, get_connection, execute. run.
  rewrite Hpool, Hok. simpl. fold (window_rows w h since_time).
  assert (Hpos : 0 < Z.of_nat (length (window_rows w h since_time))).
  { destruct (window_rows w h since_time); [done|]. simpl. lia. }
  rewrite (proj2 (Z.eqb_neq _ 0)) by lia.
  eexists. split; [done|]. simpl. split_and!; try done; try lia.
  pose proof (filter_length_le row_packet_loss (window_rows w h since_time)). lia.
Qed.

Lemma loss_rate_bounds (losses count : Z) :
  0 < count → 0 ≤ losses ≤ count →
  (99 <= 100 - inject_Z losses / inject_Z count)%Q ∧
  (100 - inject_Z losses / inject_Z count <= 100)%Q.
Proof.
  intros Hpos [H0 Hle].
  assert (Hc : (0 < inject_Z count)%Q).
  { pose proof Hpos as Hc. rewrite Zlt_Qlt in Hc. exact Hc. }
  assert (Hl : (0 <= inject_Z losses)%Q).
  { pose proof H0 as Hl. rewrite Zle_Qle in Hl. exact Hl. }
  assert (Hlc : (inject_Z losses <= inject_Z count)%Q).
  { pose proof Hle as Hlc. rewrite Zle_Qle in Hlc. exact Hlc. }
  assert (Hlo : (0 <= inject_Z losses / inject_Z count)%Q).
  { apply Qle_shift_div_l; [done|]. by rewrite Qmult_0_l. }
  assert (Hhi : (inject_Z losses / inject_Z count <= 1)%Q).
  { apply Qle_shift_div_r; [done|]. by rewrite Qmult_1_l. }
  split.
  - apply (Qle_trans _ (100 + - (1))%Q); [by unfold Qle|].
    apply Qplus_le_r. by apply Qopp_le_compat.
  - apply (Qle_trans _ (100 + - 0)%Q); [|by unfold Qle].
    apply Qplus_le_r. by apply Qopp_le_compat.
Qed.

(** [get_host_summary] up to its query, once the start of the window is
    known. *)
Lemma get_host_summary_window (h : string) (hours minutes : option Z)
    (since_time : datetime) (w : World) :
  since (clock w) (timedelta (summary_delta hours minutes)) = inr since_time →
  get_host_summary env h hours minutes w =
    try_except
      (row ← fetch_host_summary env h since_time;
       match row with
       | Some row =>
           logger INFO ("Generated summary for host " +:+ h) ;;
           mret {| columns := Some row;
                   summary_host := h;
                   hours_analyzed :=
                     match minutes with
                     | Some m => round2 (inject_Z m / 60)%Q
                     | None => inject_Z (default 24 hours)
                     end;
                   minutes_analyzed :=
                     match minutes with
                     | Some m => m
                     | None => default 24 hours * 60
                     end;
                   uptime_percentage :=
                     if 0 <? total_pings row then (100 - packet_loss_rate row)%Q
                     else 0%Q |}
       | None =>
           mret {| columns := None;
                   summary_host := h;
                   hours_analyzed :=
                     match minutes with
                     | Some m => round2 (inject_Z m / 60)%Q
                     | None => inject_Z (default 24 hours)
                     end;
                   minutes_analyzed :=
                     match minutes with
                     | Some m => m
                     | None => default 24 hours * 60
                     end;
                   uptime_percentage := 0%Q |}
       end)
      (λ e,
        logger ERROR ("Failed to get host summary for " +:+ h +:+ ": " +:+ exn_str e) ;;
        raise e) w.
Proof.
  intros Hsince. unfold get_host_summary, utcnow, try_except, summary_delta in *.
  unfold mbind, M_bind, gets.
  destruct minutes as [m|]; [destruct hours|destruct hours as [hh|]];
    unfold default, from_option, id in *; rewrite Hsince; unfold eval, mret, M_ret;
    by destruct (fetch_host_summary env h since_time w) as [[row|] w1|e w1].
Qed.

(** A window out of range is refused before the pool or the server is
    asked; the error is logged and raised again. *)
Lemma get_host_summary_overflow (h : string) (hours minutes : option Z)
    (e : exn) (w : World) :
  since (clock w) (timedelta (summary_delta hours minutes)) = inl e →
  get_host_summary env h hours minutes w
    = Raise e (push_log ERROR ("Failed to get host summary for " +:+ h
                               +:+ ": " +:+ exn_str e) w).
Proof.
  intros Hsince. unfold get_host_summary, utcnow, try_except, summary_delta in *.
  unfold mbind, M_bind, gets.
  destruct minutes as [m|]; [destruct hours|destruct hours as [hh|]];
    unfold default, from_option, id in *; rewrite Hsince; reflexivity.
Qed.

Lemma get_host_summary_empty (h : string) (hours minutes : option Z)
    (since_time : datetime) (w : World) :
  since (clock w) (timedelta (summary_delta hours minutes)) = inr since_time →
  pool (db_manager w) = true →
  db_fault env (db_manager w) (SelectHostSummary h since_time) = None →
  window_rows w h since_time = [] →
  get_host_summary env h hours minutes w
    = Raise (Exn "DivisionByZeroError" "division by zero")
        (push_log ERROR ("Failed to get host summary for " +:+ h
                         +:+ ": division by zero") w).
Proof.
  intros Hsince Hpool Hok Hempty.
  pose proof (fetch_host_summary_empty h since_time w Hpool Hok Hempty) as Hfetch.
  rewrite (get_host_summary_window _ _ _ _ _ Hsince).
  erewrite try_except_Raise; [|unfold mbind, M_bind; rewrite Hfetch; reflexivity].
  reflexivity.
Qed.

(** X22. Let [since_time] be the start of the window, the time of the call
    less the minutes or hours asked for, within what [timedelta] and
    [datetime] can hold.  With the pool connected and a server that
    answers, [get_host_summary] returns exactly when the window holds a row
    of the host.  Over an empty window the aggregate divides by zero: the
    error is logged and raised again, so the summary with zero pings is
    never returned.  A summary that is returned counts the rows of the
    window, and its uptime percentage lies between 99 and 100. *)
Theorem get_host_summary_needs_rows (h : string) (hours minutes : option Z)
    (since_time : datetime) (w : World) :
  since (clock w) (timedelta (summary_delta hours minutes)) = inr since_time →
  pool (db_manager w) = true →
  db_fault env (db_manager w) (SelectHostSummary h since_time) = None →
  (window_rows w h since_time = [] →
   get_host_summary env h hours minutes w
     = Raise (Exn "DivisionByZeroError" "division by zero")
         (push_log ERROR ("Failed to get host summary for " +:+ h
                          +:+ ": division by zero") w)) ∧
  (window_rows w h since_time ≠ [] →
   ∃ s w',
     get_host_summary env h hours minutes w = Ok s w' ∧
     summary_total_pings s = Z.of_nat (length (window_rows w h since_time)) ∧
     (99 <= uptime_percentage s)%Q ∧
     (uptime_percentage s <= 100)%Q).
Proof.
  intros Hsince Hpool Hok. split.
  - by apply get_host_summary_empty.
  - intros Hrows.
    destruct (fetch_host_summary_rows h since_time w Hpool Hok Hrows)
      as (row & Hfetch & Hcount & Hpos & Hloss & Hrate).
    destruct (loss_rate_bounds _ _ Hpos Hloss) as [Hlo Hhi].
    rewrite (get_host_summary_window _ _ _ _ _ Hsince).
    eexists _, _.
    split; [apply try_except_Ok; unfold mbind, M_bind; rewrite Hfetch; run; reflexivity|].
    unfold summary_total_pings; simpl.
    rewrite (proj2 (Z.ltb_lt 0 (total_pings row))) by done.
    rewrite Hrate. by split_and!.
Qed.

End SummaryRange.

Lemma get_recent_metrics_sound_witness :
  since (clock World_fixture) (timedelta_of_hours exact_floats (Int 2))
    = inr (fixture_now - timedelta_hours 2) ∧
  pool (db_manager World_fixture) = true ∧
  ∃ rows,
    get_recent_metrics quiet_server exact_floats (Int 2) (Some "8.8.8.8"%string)
      World_fixture = Ok rows World_fixture ∧
    length rows = 10%nat.
Proof.
  assert (Hsince : since (clock World_fixture) (timedelta_of_hours exact_floats (Int 2))
                   = inr (fixture_now - timedelta_hours 2)) by reflexivity.
  assert (Hpool : pool (db_manager World_fixture) = true) by reflexivity.
  split; [exact Hsince|]. split; [exact Hpool|].
  destruct (get_recent_metrics_sound quiet_server exact_floats (Int 2)
              (Some "8.8.8.8"%string) _ World_fixture Hsince Hpool eq_refl)
    as (rows & Hrun & _ & _ & Hlen & _).
  exists rows. split; [exact Hrun|]. rewrite Hlen. vm_compute. reflexivity.
Defined.

Lemma get_ping_metrics_pages_witness :
  since (clock World_fixture) (timedelta_of_hours exact_floats (Int 2))
    = inr (fixture_now - timedelta_hours 2) ∧
  pool (db_manager World_fixture) = true ∧
  ∃ metrics page w',
    get_recent_metrics quiet_server exact_floats (Int 2) None World_fixture
      = Ok metrics World_fixture ∧
    get_ping_metrics quiet_server exact_floats (Int 2) None 5 5 World_fixture
      = Ok page w' ∧
    page = take 5 (drop 5 metrics) ∧
    Z.of_nat (length page) ≤ 5.
Proof.
  assert (Hsince : since (clock World_fixture) (timedelta_of_hours exact_floats (Int 2))
                   = inr (fixture_now - timedelta_hours 2)) by reflexivity.
  assert (Hpool : pool (db_manager World_fixture) = true) by reflexivity.
  split; [exact Hsince|]. split; [exact Hpool|].
  destruct (get_ping_metrics_pages quiet_server exact_floats (Int 2) None _ 5 5
              World_fixture Hsince Hpool eq_refl)
    as (metrics & page & w' & H1 & H2 & H3 & H4 & _); [lia..|].
  by exists metrics, page, w'.
Defined.

Lemma create_then_get_by_id_witness :
  ids_below_next (db_manager World_fixture) ∧
  ∃ w',
    (metric_id ← create_ping_metric quiet_env sample_metric;
     get_ping_metric_by_id quiet_server metric_id) World_fixture
      = Ok (Some (row_of_metric sample_metric 13 fixture_now)) w'.
Proof.
  assert (Hids : ids_below_next (db_manager World_fixture)).
  { apply (bool_decide_unpack (Forall _ _)). vm_compute. exact I. }
  split; [exact Hids|].
  destruct (create_then_get_by_id quiet_env quiet_server sample_metric World_fixture
              eq_refl eq_refl (λ _ _, eq_refl) Hids) as (w' & Hrun & _).
  by exists w'.
Defined.

Lemma insert_then_latest_witness :
  (∀ r, r ∈ ping_metrics (db_manager World_fixture) →
        row_target_host r = pmc_target_host sample_metric →
        row_timestamp r < clock World_fixture) ∧
  ∃ w',
    (insert_ping_metric quiet_env sample_metric ;;
     get_latest_metric quiet_server (pmc_target_host sample_metric)) World_fixture
      = Ok (Some (row_of_metric sample_metric 13 fixture_now)) w'.
Proof.
  assert (Hold : ∀ r, r ∈ ping_metrics (db_manager World_fixture) →
                      row_target_host r = pmc_target_host sample_metric →
                      row_timestamp r < clock World_fixture).
  { apply (proj1 (Forall_forall
      (λ r, row_target_host r = pmc_target_host sample_metric →
            row_timestamp r < clock World_fixture) _)).
    apply (bool_decide_unpack (Forall _ _)). vm_compute. exact I. }
  split; [exact Hold|].
  destruct (insert_then_latest quiet_env quiet_server sample_metric World_fixture
              eq_refl eq_refl (λ _ _, eq_refl) Hold) as (w' & Hrun & _).
  by exists w'.
Defined.

Lemma delete_old_metrics_deletes_witness :
  since (clock World_fixture) (timedelta (timedelta_days 0)) = inr fixture_now ∧
  pool (db_manager World_fixture) = true ∧
  ∃ w',
    delete_old_metrics quiet_server 0 World_fixture = Ok 12 w' ∧
    ping_metrics (db_manager w') = [].
Proof.
  assert (Hsince : since (clock World_fixture) (timedelta (timedelta_days 0))
                   = inr fixture_now) by reflexivity.
  assert (Hpool : pool (db_manager World_fixture) = true) by reflexivity.
  split; [exact Hsince|]. split; [exact Hpool|].
  destruct (delete_old_metrics_deletes quiet_server 0 _ World_fixture Hsince Hpool eq_refl)
    as (n & w' & Hrun & Hrows & Hn & _).
  exists w'. split.
  - rewrite Hrun, Hn. f_equal.
  - rewrite Hrows. vm_compute. reflexivity.
Defined.

Lemma listing_length_is_count_witness :
  (2 ≠ 0) ∧
  since (clock World_fixture) (timedelta (timedelta_hours 2))
    = inr (fixture_now - timedelta_hours 2) ∧
  ∃ rows count w',
    get_recent_metrics quiet_server exact_floats (Int 2) (Some "8.8.8.8"%string)
      World_fixture = Ok rows World_fixture ∧
    get_metrics_count quiet_server (Some "8.8.8.8"%string) (Some 2) World_fixture
      = Ok count w' ∧
    Z.of_nat (length rows) = Z.min count 1000.
Proof.
  assert (Hne : 2 ≠ 0) by lia.
  assert (Hsince : since (clock World_fixture) (timedelta (timedelta_hours 2))
                   = inr (fixture_now - timedelta_hours 2)) by reflexivity.
  split; [exact Hne|]. split; [exact Hsince|].
  destruct (listing_length_is_count quiet_server exact_floats (Some "8.8.8.8"%string) 2 _
              World_fixture Hne Hsince eq_refl (λ _ _, eq_refl))
    as (rows & count & w' & H1 & H2 & _ & H3 & _).
  by exists rows, count, w'.
Defined.

Lemma get_host_summary_needs_rows_witness :
  since (clock World_fixture) (timedelta (summary_delta None (Some 120)))
    = inr (fixture_now - timedelta_minutes 120) ∧
  window_rows World_fixture "8.8.8.8" (fixture_now - timedelta_minutes 120) ≠ [] ∧
  ∃ s w',
    get_host_summary quiet_env "8.8.8.8" None (Some 120) World_fixture = Ok s w' ∧
    summary_total_pings s = 10 ∧
    (99 <= uptime_percentage s)%Q ∧
    (uptime_percentage s <= 100)%Q.
Proof.
  assert (Hsince : since (clock World_fixture) (timedelta (summary_delta None (Some 120)))
                   = inr (fixture_now - timedelta_minutes 120)) by reflexivity.
  assert (Hrows : window_rows World_fixture "8.8.8.8"
                    (fixture_now - timedelta_minutes 120) ≠ []).
  { vm_compute. discriminate. }
  split; [exact Hsince|]. split; [exact Hrows|].
  destruct (get_host_summary_needs_rows quiet_env "8.8.8.8" None (Some 120) _ World_fixture
              Hsince eq_refl eq_refl) as [_ Hsome].
  destruct (Hsome Hrows) as (s & w' & Hrun & Hcount & Hlo & Hhi).
  exists s, w'. split; [exact Hrun|]. split; [|by split].
  rewrite Hcount. vm_compute. reflexivity.
Defined.

(* ================================================================== *)
(** * The REST routes *)
(* ================================================================== *)

Section RouteProperties.
Context (env : Env) (srv : Server) (py : Python).

(** A route whose handler logs and raises [e] fails with [e] or not at
    all. *)
Lemma try_except_fails_only_with {A} (body : M A) (msg : exn → string) (e : exn) :
  fails_only_with e (try_except body (λ e', logger ERROR (msg e') ;; raise e)).
Proof.
  intros w e' w'. unfold try_except. destruct (body w) as [a w1|e1 w1]; [done|].
  run. by intros [= <- _].
Qed.

Lemma try_except_never_fails {A} (body : M A) (h : exn → M A) :
  never_fails body → never_fails (try_except body h).
Proof.
  intros Hbody w. destruct (Hbody w) as (a & w' & Hrun).
  exists a, w'. by apply try_except_Ok.
Qed.

(** X23. [GET /time-range/] without [minutes] is answered with status 500:
    the 400 raised for the missing parameter is caught by the route's own
    handler, logged, and replaced.  With [minutes] between 1 and 300, as the
    route's validator has them, an interpreter for which [minutes / 60]
    hours are that many minutes, a clock that reads a time after the epoch,
    a connected pool and a server that answers, the route returns at most
    [limit] rows, none older than that many minutes. *)
Theorem time_range_route (host : option string) (limit : Z) (w : World) :
  router.get_ping_metrics_by_time_range srv py None host limit w
    = Raise (HTTPException 500 "Failed to retrieve ping metrics by time range")
        (push_log ERROR
           "Failed to get ping metrics by time range: 400: Minutes parameter is required"
           w) ∧
  ∀ minutes,
    1 ≤ minutes ≤ 300 →
    float_hours py (inject_Z minutes / 60) = inr (timedelta_minutes minutes) →
    0 ≤ clock w ≤ datetime_max →
    pool (db_manager w) = true →
    query_fault srv (db_manager w)
      (SelectRecent (clock w - timedelta_minutes minutes) (host_filter host)) = None →
    0 ≤ limit →
    ∃ rows w',
      router.get_ping_metrics_by_time_range srv py (Some minutes) host limit w
        = Ok rows w' ∧
      Z.of_nat (length rows) ≤ limit ∧
      ∀ r, r ∈ rows → clock w - timedelta_minutes minutes ≤ row_timestamp r.
Proof.
  split; [reflexivity|].
  intros minutes Hminutes Hfloat Hclock Hpool Hok Hlimit.
  assert (Hsince : since (clock w)
                     (timedelta_of_hours py (Float (inject_Z minutes / 60)))
                   = inr (clock w - timedelta_minutes minutes)).
  { simpl. rewrite Hfloat. simpl. unfold datetime_sub, timedelta_minutes.
    unfold datetime_min, datetime_max in *.
    rewrite (proj2 (Z.leb_le _ (clock w - minutes * 60000000))) by lia.
    rewrite (proj2 (Z.leb_le (clock w - minutes * 60000000) _)) by lia.
    reflexivity. }
  assert (Hrun : get_recent_metrics srv py (Float (inject_Z minutes / 60)) host w
                 = Ok (take 1000 (order_by_timestamp_desc
                         (recent_window w (clock w - timedelta_minutes minutes) host))) w).
  { rewrite (get_recent_metrics_run srv py _ host _ w Hsince), Hpool, Hok. done. }
  unfold router.get_ping_metrics_by_time_range.
  erewrite try_except_Ok; [|by apply get_ping_metrics_run].
  eexists _, _. split; [done|].
  rewrite (py_slice_page _ 0 limit) by lia. rewrite drop_0. split.
  - rewrite length_take. lia.
  - intros r Hr. apply elem_of_take in Hr as (i & Hr & _).
    apply list_elem_of_lookup_2 in Hr.
    apply elem_of_take in Hr as (j & Hr & _).
    apply list_elem_of_lookup_2 in Hr.
    rewrite order_by_timestamp_desc_perm in Hr.
    unfold recent_window in Hr.
    apply list_elem_of_In, filter_In in Hr as [_ Hr].
    apply andb_prop in Hr as [Hts _]. by apply Z.leb_le in Hts.
Qed.

(** X24. [GET /{metric_id}] for an id that fits an [int4], with the pool
    connected and a server that answers, returns the row with that id when
    there is one, and is answered with status 404 when there is none.  When
    the pool is not connected it is answered with status 500; and so it is,
    behind the driver, for an id that does not fit an [int4], which the
    driver refuses. *)
Theorem get_ping_metric_statuses (metric_id : Z) (w : World) :
  (int32 metric_id = true →
   pool (db_manager w) = true →
   query_fault (asyncpg srv) (db_manager w) (SelectById metric_id) = None →
   match List.find (λ r, row_id r =? metric_id) (ping_metrics (db_manager w)) with
   | Some row =>
       ∃ w', router.get_ping_metric (asyncpg srv) metric_id w = Ok row w' ∧
             row_id row = metric_id
   | None =>
       ∃ w', router.get_ping_metric (asyncpg srv) metric_id w
               = Raise (HTTPException 404 "Ping metric not found") w'
   end) ∧
  (pool (db_manager w) = false →
   ∃ w', router.get_ping_metric (asyncpg srv) metric_id w
           = Raise (HTTPException 500 "Failed to retrieve ping metric") w') ∧
  (int32 metric_id = false →
   ∃ w', router.get_ping_metric (asyncpg srv) metric_id w
           = Raise (HTTPException 500 "Failed to retrieve ping metric") w').
Proof.
  split_and!.
  - intros _ Hpool Hok.
    destruct (List.find _ (ping_metrics (db_manager w))) as [row|] eqn:Hfind.
    + eexists. unfold router.get_ping_metric. split.
      * apply try_except_Ok.
        rewrite (bind_Ok _ _ _ _ _
          (get_ping_metric_by_id_found (asyncpg srv) metric_id row w Hpool Hok Hfind)).
        reflexivity.
      * apply find_some in Hfind as [_ Hid]. by apply Z.eqb_eq in Hid.
    + eexists. unfold router.get_ping_metric.
      erewrite try_except_Raise;
        [|rewrite (bind_Ok _ _ _ _ _
            (get_ping_metric_by_id_missing (asyncpg srv) metric_id w Hpool Hok Hfind));
          reflexivity].
      reflexivity.
  - intros Hpool. eexists. unfold router.get_ping_metric.
    erewrite try_except_Raise.
    2:{ apply bind_Raise. unfold get_ping_metric_by_id.
        erewrite try_except_Raise;
          [|unfold get_connection; run; rewrite Hpool; reflexivity].
        reflexivity. }
    reflexivity.
  - intros Hrange. destruct (pool (db_manager w)) eqn:Hpool.
    + eexists. unfold router.get_ping_metric.
      erewrite try_except_Raise.
      2:{ apply bind_Raise. unfold get_ping_metric_by_id.
          erewrite try_except_Raise;
            [|unfold get_connection, run_query; run; rewrite Hpool; simpl;
              rewrite Hrange; reflexivity].
          reflexivity. }
      reflexivity.
    + eexists. unfold router.get_ping_metric.
      erewrite try_except_Raise.
      2:{ apply bind_Raise. unfold get_ping_metric_by_id.
          erewrite try_except_Raise;
            [|unfold get_connection; run; rewrite Hpool; reflexivity].
          reflexivity. }
      reflexivity.
Qed.

(** X25. The routes that only touch the monitor are always answered: live
    metrics, monitoring status, start, stop, add host and remove host never
    fail, so their handlers for status 500 are never entered.  The body of
    add host lists the host; the body of remove host, over a registry
    without duplicates, does not. *)
Theorem monitor_routes_never_fail (h : string) :
  never_fails router.get_live_metrics ∧
  never_fails router.get_monitoring_status ∧
  never_fails router.start_monitoring ∧
  never_fails router.stop_monitoring ∧
  never_fails (router.add_monitoring_host h) ∧
  never_fails (router.remove_monitoring_host h) ∧
  (∀ w body w', router.add_monitoring_host h w = Ok body w' →
                h ∈ current_hosts body ∧ current_hosts body = hosts_of w') ∧
  (∀ w body w', NoDup (hosts_of w) →
                router.remove_monitoring_host h w = Ok body w' →
                (h ∉ current_hosts body) ∧ current_hosts body = hosts_of w').
Proof.
  assert (Hadd : ∀ w, ∃ w',
    (add_target_host h ;; hosts ← get_target_hosts;
     mret {| hosts_message := "Host " +:+ h +:+ " added to monitoring";
             current_hosts := hosts |}) w
    = Ok {| hosts_message := "Host " +:+ h +:+ " added to monitoring";
            current_hosts := hosts_of w' |} w' ∧ h ∈ hosts_of w').
  { intros w. unfold mbind, M_bind. rewrite add_target_host_run.
    eexists. split; [reflexivity|]. case_decide; [done|].
    unfold hosts_of. simpl. set_solver. }
  assert (Hrm : ∀ w, ∃ w',
    (remove_target_host h ;; hosts ← get_target_hosts;
     mret {| hosts_message := "Host " +:+ h +:+ " removed from monitoring";
             current_hosts := hosts |}) w
    = Ok {| hosts_message := "Host " +:+ h +:+ " removed from monitoring";
            current_hosts := hosts_of w' |} w' ∧
    (NoDup (hosts_of w) → h ∉ hosts_of w')).
  { intros w. unfold mbind, M_bind.
    destruct (decide (h ∈ hosts_of w)) as [Hin|Hnin].
    - destruct (list_remove_elem _ _ Hin) as [l' Hl'].
      rewrite (remove_target_host_run _ _ _ Hin Hl').
      eexists. split; [reflexivity|]. intros Hnd. unfold hosts_of. simpl.
      by apply (list_remove_NoDup h (hosts_of w)).
    - rewrite remove_target_host_absent by done. by eexists. }
  split_and!.
  - intros w. eexists _, _. reflexivity.
  - intros w. eexists _, _. reflexivity.
  - intros w. unfold router.start_monitoring, try_except, mbind, M_bind.
    rewrite start_monitoring_run. by eexists _, _.
  - intros w. unfold router.stop_monitoring, try_except, mbind, M_bind.
    rewrite stop_monitoring_run. by eexists _, _.
  - intros w. destruct (Hadd w) as (w' & Hrun & _).
    eexists _, w'. by apply try_except_Ok.
  - intros w. destruct (Hrm w) as (w' & Hrun & _).
    eexists _, w'. by apply try_except_Ok.
  - intros w body w' Hroute. destruct (Hadd w) as (w1 & Hrun & Hin).
    unfold router.add_monitoring_host in Hroute.
    rewrite (try_except_Ok _ _ _ _ _ Hrun) in Hroute. by injection Hroute as <- <-.
  - intros w body w' Hnd Hroute. destruct (Hrm w) as (w1 & Hrun & Hout).
    unfold router.remove_monitoring_host in Hroute.
    rewrite (try_except_Ok _ _ _ _ _ Hrun) in Hroute. injection Hroute as <- <-.
    split; [by apply Hout|done].
Qed.

(** X26. No route lets an exception of the layers below through.  Each of
    the routes backed by the database fails, if it fails, with the
    [HTTPException] of status 500 that carries its own message; the route
    by id lets through [HTTPException]s only. *)
Theorem routes_contain_errors :
  (∀ hours host limit offset,
     fails_only_with (HTTPException 500 "Failed to retrieve ping metrics")
       (router.get_ping_metrics srv py hours host limit offset)) ∧
  (∀ minutes host limit,
     fails_only_with (HTTPException 500 "Failed to retrieve ping metrics by time range")
       (router.get_ping_metrics_by_time_range srv py minutes host limit)) ∧
  (∀ host hours,
     fails_only_with (HTTPException 500 "Failed to get metrics count")
       (router.get_metrics_count srv host hours)) ∧
  fails_only_with (HTTPException 500 "Failed to retrieve latest metrics")
    (router.get_latest_metrics env) ∧
  (∀ host hours minutes,
     fails_only_with (HTTPException 500 ("Failed to retrieve summary for host " +:+ host))
       (router.get_host_summary env host hours minutes)) ∧
  (∀ metric,
     fails_only_with (HTTPException 500 "Failed to create ping metric")
       (router.create_ping_metric env metric)) ∧
  (∀ days,
     fails_only_with (HTTPException 500 "Failed to cleanup old metrics")
       (router.cleanup_old_metrics srv days)) ∧
  (∀ metric_id w e w',
     router.get_ping_metric srv metric_id w = Raise e w' → is_HTTPException e = true).
Proof.
  split_and!; intros; try apply try_except_fails_only_with.
  revert H. unfold router.get_ping_metric, try_except.
  match goal with |- context [match ?body w with _ => _ end] =>
    destruct (body w) as [a w1|e1 w1]
  end; [done|].
  destruct (is_HTTPException e1) eqn:E; run.
  - by intros [= <- _].
  - by intros [= <- _].
Qed.

(** X27. The summary of a host that has no row in the window is answered
    with status 500: the division by zero of the aggregate is logged by the
    CRUD layer, then by the route, and replaced.  The hours and minutes are
    within the bounds of the route's validators, 1 to 168 and 1 to 10080,
    and the clock reads a time after the epoch. *)
Theorem summary_route_without_data (h : string) (hours minutes : option Z) (w : World) :
  let since_time := clock w - summary_delta hours minutes in
  (∀ x, hours = Some x → 1 ≤ x ≤ 168) →
  (∀ m, minutes = Some m → 1 ≤ m ≤ 10080) →
  0 ≤ clock w ≤ datetime_max →
  pool (db_manager w) = true →
  db_fault env (db_manager w) (SelectHostSummary h since_time) = None →
  window_rows w h since_time = [] →
  ∃ w',
    router.get_host_summary env h hours minutes w
      = Raise (HTTPException 500 ("Failed to retrieve summary for host " +:+ h)) w' ∧
    logs w' = logs w ++
      [(ERROR, "Failed to get host summary for " +:+ h +:+ ": division by zero");
       (ERROR, "Failed to get host summary for " +:+ h +:+ ": division by zero")] ∧
    db_manager w' = db_manager w ∧
    ping_monitor w' = ping_monitor w.
Proof.
  intros since_time Hhours Hminutes Hclock Hpool Hok Hempty.
  assert (Hsince : since (clock w) (timedelta (summary_delta hours minutes))
                   = inr since_time).
  { apply since_in_range; [done|]. unfold summary_delta, timedelta_minutes, timedelta_hours.
    destruct minutes as [m|]; [specialize (Hminutes m eq_refl); lia|].
    destruct hours as [x|]; simpl; [specialize (Hhours x eq_refl); lia|lia]. }
  unfold router.get_host_summary.
  destruct minutes as [m|].
  - pose proof (get_host_summary_empty env h None (Some m) since_time w
                  Hsince Hpool Hok Hempty) as Hrun.
    erewrite try_except_Raise; [|destruct hours; exact Hrun].
    eexists. split; [reflexivity|]. simpl. by rewrite <- app_assoc.
  - assert (Hsince' : since (clock w)
                        (timedelta (summary_delta (Some (default 24 hours)) None))
                      = inr since_time) by exact Hsince.
    pose proof (get_host_summary_empty env h (Some (default 24 hours)) None since_time w
                  Hsince' Hpool Hok Hempty) as Hrun.
    erewrite try_except_Raise; [|destruct hours; exact Hrun].
    eexists. split; [reflexivity|]. simpl. by rewrite <- app_assoc.
Qed.

End RouteProperties.

Lemma time_range_route_witness :
  (1 ≤ 60 ≤ 300) ∧
  float_hours exact_floats (inject_Z 60 / 60) = inr (timedelta_minutes 60) ∧
  (0 ≤ clock World_fixture ≤ datetime_max) ∧
  pool (db_manager World_fixture) = true ∧
  ∃ rows w',
    router.get_ping_metrics_by_time_range quiet_server exact_floats (Some 60)
      (Some "8.8.8.8"%string) 3 World_fixture = Ok rows w' ∧
    Z.of_nat (length rows) ≤ 3.
Proof.
  assert (Hminutes : 1 ≤ 60 ≤ 300) by lia.
  assert (Hfloat : float_hours exact_floats (inject_Z 60 / 60) = inr (timedelta_minutes 60))
    by reflexivity.
  assert (Hclock : 0 ≤ clock World_fixture ≤ datetime_max)
    by (unfold datetime_max; simpl; unfold fixture_now; lia).
  assert (Hpool : pool (db_manager World_fixture) = true) by reflexivity.
  split; [exact Hminutes|]. split; [exact Hfloat|]. split; [exact Hclock|].
  split; [exact Hpool|].
  destruct (time_range_route quiet_server exact_floats (Some "8.8.8.8"%string) 3
              World_fixture) as [_ Hsome].
  destruct (Hsome 60 Hminutes Hfloat Hclock Hpool eq_refl) as (rows & w' & Hrun & Hlen & _);
    [lia|].
  by exists rows, w'.
Defined.

Lemma get_ping_metric_statuses_witness :
  int32 7 = true ∧ int32 99 = true ∧ int32 2147483648 = false ∧
  pool (db_manager World_fixture) = true ∧
  (∃ w', router.get_ping_metric (asyncpg quiet_server) 7 World_fixture
           = Ok (fixture_row 7 50 "google.com" true) w') ∧
  (∃ w', router.get_ping_metric (asyncpg quiet_server) 99 World_fixture
           = Raise (HTTPException 404 "Ping metric not found") w') ∧
  (∃ w', router.get_ping_metric (asyncpg quiet_server) 2147483648 World_fixture
           = Raise (HTTPException 500 "Failed to retrieve ping metric") w').
Proof.
  assert (Hpool : pool (db_manager World_fixture) = true) by reflexivity.
  split; [reflexivity|]. split; [reflexivity|]. split; [reflexivity|].
  split; [exact Hpool|]. split_and!.
  - destruct (get_ping_metric_statuses quiet_server 7 World_fixture) as [Hfound _].
    destruct (Hfound eq_refl Hpool eq_refl) as (w' & Hrun & _). by exists w'.
  - destruct (get_ping_metric_statuses quiet_server 99 World_fixture) as [Hmissing _].
    exact (Hmissing eq_refl Hpool eq_refl).
  - destruct (get_ping_metric_statuses quiet_server 2147483648 World_fixture)
      as (_ & _ & Hout).
    exact (Hout eq_refl).
Defined.

Lemma summary_route_without_data_witness :
  (0 ≤ clock (World_init 1) ≤ datetime_max) ∧
  window_rows (World_init 1) "8.8.8.8"
    (clock (World_init 1) - summary_delta (Some 24) None) = [] ∧
  ∃ w',
    router.get_host_summary quiet_env "8.8.8.8" (Some 24) None (World_init 1)
      = Raise (HTTPException 500 "Failed to retrieve summary for host 8.8.8.8") w'.
Proof.
  assert (Hclock : 0 ≤ clock (World_init 1) ≤ datetime_max)
    by (unfold datetime_max; simpl; lia).
  assert (Hempty : window_rows (World_init 1) "8.8.8.8"
                     (clock (World_init 1) - summary_delta (Some 24) None) = [])
    by reflexivity.
  assert (Hhours : ∀ x, Some 24 = Some x → 1 ≤ x ≤ 168) by (intros x [= <-]; lia).
  assert (Hminutes : ∀ m, @None Z = Some m → 1 ≤ m ≤ 10080) by (intros m [=]).
  split; [exact Hclock|]. split; [exact Hempty|].
  destruct (summary_route_without_data quiet_env "8.8.8.8" (Some 24) None (World_init 1)
              Hhours Hminutes Hclock eq_refl eq_refl Hempty) as (w' & Hrun & _).
  by exists w'.
Defined.

(* ================================================================== *)
(** * The ISP lookup *)
(* ================================================================== *)

Section IspLookup.

Lemma isp_failed_cached (r : raised) (cache : isp_cache) (data : isp_info) :
  isp_data cache = Some data →
  isp_result (isp_failed r cache) = inr data ∧
  isp_cache_after (isp_failed r cache) = cache.
Proof.
  intros Hdata. unfold isp_failed. rewrite Hdata.
  by destruct (is_RequestException r).
Qed.

Lemma isp_failed_empty (r : raised) (cache : isp_cache) :
  isp_data cache = None →
  isp_cache_after (isp_failed r cache) = cache ∧
  isp_result (isp_failed r cache)
    = inl (if is_RequestException r
           then HTTPException 503 "ISP information service temporarily unavailable"
           else HTTPException 500 "Failed to retrieve ISP information").
Proof.
  intros Hdata. unfold isp_failed. rewrite Hdata.
  by destruct (is_RequestException r).
Qed.

(** X28. The ISP lookup and its cache.  While the cached answer is younger
    than an hour it is returned whatever the network would do.  Once an
    answer is cached the route never fails and the cache never goes back to
    empty.  The cache is written only by a lookup that succeeded, with the
    answer it returns and the time of the call.  With an empty cache the
    route fails with status 503 or 500 only, and the answer it gives to a
    rate-limited lookup is not cached. *)
Theorem isp_cache_behaviour (current_time : Q) (net : raised + http_response)
    (cache : isp_cache) :
  let o := get_isp_info current_time net cache in
  (∀ data,
     isp_data cache = Some data →
     (current_time - isp_timestamp cache < ISP_CACHE_TTL)%Q →
     ∀ net', get_isp_info current_time net' cache
             = {| isp_result := inr data; isp_cache_after := cache;
                  isp_logged := [(INFO, "Returning cached ISP info"%string)] |}) ∧
  (is_Some (isp_data cache) →
   is_Some (isp_data (isp_cache_after o)) ∧ ∃ info, isp_result o = inr info) ∧
  (isp_cache_after o ≠ cache →
   ∃ info, isp_result o = inr info ∧
           isp_cache_after o = {| isp_data := Some info; isp_timestamp := current_time |}) ∧
  (isp_data cache = None →
   match isp_result o with
   | inl e =>
       isp_cache_after o = cache ∧
       (e = HTTPException 503 "ISP information service temporarily unavailable" ∨
        e = HTTPException 500 "Failed to retrieve ISP information")
   | inr info =>
       (info = rate_limited_info ∧ isp_cache_after o = cache) ∨
       isp_cache_after o = {| isp_data := Some info; isp_timestamp := current_time |}
   end).
Proof.
  intros o. split_and!.
  - intros data Hdata Hfresh net'. unfold get_isp_info. rewrite Hdata.
    destruct (Qlt_le_dec _ _) as [_|Hstale]; [done|].
    by apply Qle_not_lt in Hstale.
  - intros [data Hdata]. subst o. unfold get_isp_info. rewrite Hdata.
    pose proof (λ r, isp_failed_cached r cache data Hdata) as Hfail.
    destruct (Qlt_le_dec _ _); simpl; [by rewrite Hdata; eauto|].
    destruct net as [r|response].
    { destruct (Hfail r) as [-> ->]. rewrite Hdata. eauto. }
    destruct (status_code response =? 429); simpl; [by rewrite Hdata; eauto|].
    destruct (raise_for_status response) as [r|].
    { destruct (Hfail r) as [-> ->]. rewrite Hdata. eauto. }
    destruct (json_body response) as [r|[]];
      try (match goal with |- context [isp_failed ?r cache] =>
             destruct (Hfail r) as [-> ->] end; rewrite Hdata; by eauto).
    simpl. eauto.
  - subst o. unfold get_isp_info.
    assert (Hfail : ∀ r, isp_cache_after (isp_failed r cache) = cache).
    { intros r. unfold isp_failed.
      by destruct (is_RequestException r), (isp_data cache). }
    destruct (isp_data cache) as [data|] eqn:Hdata;
      [destruct (Qlt_le_dec _ _); [done|]|];
      (destruct net as [r|response]; [by rewrite Hfail|]);
      (destruct (status_code response =? 429); [done|]);
      (destruct (raise_for_status response) as [r|]; [by rewrite Hfail|]);
      (destruct (json_body response) as [r|[]]; try (by rewrite Hfail));
      simpl; eauto.
  - intros Hdata. subst o. unfold get_isp_info. rewrite Hdata.
    pose proof (λ r, isp_failed_empty r cache Hdata) as Hfail.
    destruct net as [r|response].
    { destruct (Hfail r) as [-> ->]. destruct (is_RequestException r); eauto. }
    destruct (status_code response =? 429); simpl; [by left|].
    destruct (raise_for_status response) as [r|].
    { destruct (Hfail r) as [-> ->]. destruct (is_RequestException r); eauto. }
    destruct (json_body response) as [r|[]];
      try (match goal with |- context [isp_failed ?r cache] =>
             destruct (Hfail r) as [-> ->]; destruct (is_RequestException r) end;
           by eauto).
    simpl. by right.
Qed.

End IspLookup.

Lemma isp_cache_behaviour_witness :
  is_Some (isp_data isp_cache_filled) ∧
  isp_result (get_isp_info 99999 request_timeout isp_cache_filled) = inr rate_limited_info ∧
  is_Some (isp_data (isp_cache_after (get_isp_info 99999 request_timeout isp_cache_filled))).
Proof.
  assert (H : is_Some (isp_data isp_cache_filled)) by (by eexists).
  destruct (isp_cache_behaviour 99999 request_timeout isp_cache_filled)
    as (_ & Hserved & _).
  destruct (Hserved H) as [Hkept _].
  split; [exact H|]. split; [reflexivity|exact Hkept].
Defined.

(* ================================================================== *)
(** * Start-up and shutdown *)
(* ================================================================== *)

Section Lifespan.
Context (host : Host).

(** X29. Start-up and shutdown.  When the pool cannot be created, start-up
    raises that exception and the monitor is not started; nothing but the
    log has changed.  When it can, start-up returns with the pool connected
    and the monitor running, and the health check says so.  Shutdown never
    raises, even when closing the pool fails, and leaves the monitor
    stopped. *)
Theorem lifespan_startup_shutdown (w : World) :
  (∀ e, create_pool host = Some e →
     ∃ w', lifespan_startup host w = Raise e w' ∧
           ping_monitor w' = ping_monitor w ∧
           db_manager w' = db_manager w ∧
           websocket_manager w' = websocket_manager w) ∧
  (create_pool host = None →
     ∃ w' status w'',
       lifespan_startup host w = Ok tt w' ∧
       pool (db_manager w') = true ∧
       is_running (ping_monitor w') = true ∧
       monitor_settings w' = (true, ping_interval (ping_monitor w), hosts_of w) ∧
       health_check w' = Ok status w'' ∧
       health status = "healthy"%string ∧
       health_database status = "connected"%string ∧
       health_ping_monitoring status = "active"%string) ∧
  (∃ w', lifespan_shutdown host w = Ok tt w' ∧
         is_running (ping_monitor w') = false ∧
         db_manager w' = db_manager w ∧
         hosts_of w' = hosts_of w).
Proof.
  split_and!.
  - intros e He. unfold lifespan_startup, database.connect. rewrite He. run.
    eexists. split; [reflexivity|]. done.
  - intros Hok. unfold lifespan_startup, database.connect, start_monitoring.
    rewrite Hok. run.
    destruct (is_running (ping_monitor w)) eqn:Hrun; run;
      eexists _, _, _; (split; [reflexivity|]);
      unfold health_check, monitor_settings, hosts_of, get_target_hosts; run;
      rewrite ?Hrun; split_and!; reflexivity.
  - unfold lifespan_shutdown, database.disconnect, stop_monitoring. run.
    destruct (is_running (ping_monitor w)) eqn:Hrun; run;
      destruct (pool (db_manager w)) eqn:Hpool; run;
      destruct (close_pool host); run;
      eexists; (split; [reflexivity|]); simpl; rewrite ?Hrun;
      split_and!; try done; by destruct w as [? ? [] ? ? ?].
Qed.

End Lifespan.

Lemma lifespan_startup_shutdown_witness :
  create_pool no_database
    = Some (Exn "ConnectionRefusedError" "[Errno 111] Connection refused") ∧
  create_pool good_host = None ∧
  (∃ w', lifespan_startup no_database World_boot
           = Raise (Exn "ConnectionRefusedError" "[Errno 111] Connection refused") w' ∧
         ping_monitor w' = ping_monitor World_boot) ∧
  (∃ w', lifespan_startup good_host World_boot = Ok tt w' ∧
         pool (db_manager w') = true ∧
         is_running (ping_monitor w') = true).
Proof.
  destruct (lifespan_startup_shutdown no_database World_boot) as (Hfail & _ & _).
  destruct (lifespan_startup_shutdown good_host World_boot) as (_ & Hgood & _).
  split; [reflexivity|]. split; [reflexivity|]. split.
  - destruct (Hfail _ eq_refl) as (w' & Hrun & Hmon & _). by exists w'.
  - destruct (Hgood eq_refl) as (w' & _ & _ & Hrun & Hpool & Hrunning & _).
    by exists w'.
Defined.

(* ================================================================== *)
(** * The WebSocket endpoints: a whole session *)
(* ================================================================== *)

Section Sessions.
Context (env : Env) (peer : Peer).

Lemma greet_reads ws g w : final (greet peer ws g w) = w.
Proof. unfold greet. by destruct (greet_fault peer ws g). Qed.

(** The loop writes to the wire and the log only. *)
Lemma receive_loop_preserves {B} (f : World → B) ws id script :
  (∀ a w, f (push_wire a w) = f w) →
  (∀ l s w, f (push_log l s w) = f w) →
  preserves f (receive_loop env ws id script).
Proof.
  intros Hwire Hlog.
  induction script as [|event rest IH]; simpl; [intros w; apply Hlog|].
  apply preserves_bind; [|intros [|]; [exact IH|apply preserves_ret]].
  unfold receive, dispatch, logger.
  repeat first
    [ apply handle_websocket_message_preserves; assumption
    | apply send_json_preserves; exact Hwire
    | apply preserves_modify; intros ?; apply Hlog
    | frame_step ].
Qed.

(** A [try] whose handlers do not raise returns. *)
Lemma try_except_total {A} (body : M A) (h : exn → M A) (w : World) :
  (∀ e w1, ∃ a w2, h e w1 = Ok a w2) →
  ∃ a w', try_except body h w = Ok a w'.
Proof.
  intros Hh. unfold try_except. destruct (body w) as [a w1|e w1]; [by eexists _, _|].
  apply Hh.
Qed.

Lemma endpoint_failed_returns id e w : ∃ a w', endpoint_failed id e w = Ok a w'.
Proof. unfold endpoint_failed. destruct (is_WebSocketDisconnect e); by eexists _, _. Qed.

Lemma endpoint_failed_preserves {B} (f : World → B) id e :
  (∀ l s w, f (push_log l s w) = f w) → preserves f (endpoint_failed id e).
Proof.
  intros Hlog w. unfold endpoint_failed. destruct (is_WebSocketDisconnect e); apply Hlog.
Qed.

(** What the [try ... except ... finally] of an endpoint does once the
    connection is registered, whatever its body. *)
Lemma endpoint_cleans_up (ws : WebSocket) (body : M unit) (w w1 : World) :
  let id := "conn_" +:+ pretty (S (connection_counter (websocket_manager w))) in
  dict_get id (active_connections (websocket_manager w)) = None →
  (ws ∉ clients_of w) →
  active_connections (websocket_manager w1)
    = active_connections (websocket_manager w) ++ [(id, ws)] →
  clients_of w1 = {[ws]} ∪ clients_of w →
  preserves websocket_manager body →
  preserves clients_of body →
  preserves registry_and_cache body →
  preserves db_manager body →
  registry_and_cache w1 = registry_and_cache w →
  db_manager w1 = db_manager w →
  ∃ w',
    try_finally (try_except body (endpoint_failed id)) (endpoint_finally id ws) w1
      = Ok tt w' ∧
    active_connections (websocket_manager w') = active_connections (websocket_manager w) ∧
    clients_of w' = clients_of w ∧
    registry_and_cache w' = registry_and_cache w ∧
    db_manager w' = db_manager w.
Proof.
  intros id Hfresh Hnew Hconn Hcl Hman Hclients Hrc Hdb Hrc1 Hdb1.
  destruct (try_except_total body (endpoint_failed id) w1 (endpoint_failed_returns id))
    as ([] & w2 & Hbody).
  assert (Hframe : ∀ {B} (f : World → B),
    (∀ l s w, f (push_log l s w) = f w) → preserves f body → f w2 = f w1).
  { intros B f Hlog Hf.
    pose proof (preserves_try f body (endpoint_failed id) Hf
                  (λ e, endpoint_failed_preserves f id e Hlog) w1) as H.
    by rewrite Hbody in H. }
  unfold try_finally. rewrite Hbody.
  unfold endpoint_finally. change (String.eqb id "") with false. cbv iota.
  destruct (disconnect_run id ws w2) as (w3 & Hdis & Hconn3 & Hcl3 & _ & Hh & Hc & _ & _ & Hdb3 & _).
  rewrite Hdis. exists w3. split; [done|]. split_and!.
  - rewrite Hconn3, (Hframe _ websocket_manager (λ _ _ _, eq_refl) Hman), Hconn.
    by apply dict_del_app_fresh.
  - rewrite Hcl3, (Hframe _ clients_of (λ _ _ _, eq_refl) Hclients), Hcl. set_solver.
  - unfold registry_and_cache at 1. rewrite Hh, Hc.
    fold (registry_and_cache w2).
    by rewrite (Hframe _ registry_and_cache (λ _ _ _, eq_refl) Hrc).
  - by rewrite Hdb3, (Hframe _ db_manager (λ _ _ _, eq_refl) Hdb).
Qed.

(** X30. A session on either endpoint, whatever the traffic, the sockets,
    the database and the peer do: in every reachable state, for a socket
    that is not yet a subscriber, the endpoint returns normally, and when it
    does the connection it registered is gone again from both registries;
    the target registry, the cache and the database are as before.  Within
    a session a text that is not JSON is answered with the error reply
    [Invalid JSON format], and when that reply goes through the loop goes
    on with the rest of the traffic. *)
Theorem websocket_session_cleans_up (ws : WebSocket) (script : list inbound) (w : World) :
  reachable w →
  ws ∉ clients_of w →
  (∃ w',
     websocket_ping_status env peer ws script w = Ok tt w' ∧
     active_connections (websocket_manager w') = active_connections (websocket_manager w) ∧
     clients_of w' = clients_of w ∧
     registry_and_cache w' = registry_and_cache w ∧
     db_manager w' = db_manager w) ∧
  (∃ w',
     websocket_dns_status env peer ws script w = Ok tt w' ∧
     active_connections (websocket_manager w') = active_connections (websocket_manager w) ∧
     clients_of w' = clients_of w ∧
     registry_and_cache w' = registry_and_cache w ∧
     db_manager w' = db_manager w) ∧
  (∀ id rest w0,
     send_fault env ws (Reply (error [Lit "Invalid JSON format"])) = None →
     receive_loop env ws id (Text None :: rest) w0
       = receive_loop env ws id rest
           (push_wire (Attempt ws (Reply (error [Lit "Invalid JSON format"])) true) w0)).
Proof.
  intros Hreach Hnew.
  pose proof (next_conn_id_fresh _ (reachable_conn_ids_bounded w Hreach)) as Hfresh.
  destruct (connect_run ws w) as (w1 & Hrun & Hconn & _ & Hcl & _ & Hrc & Hdb).
  rewrite (dict_set_fresh _ _ _ Hfresh) in Hconn.
  assert (Hloop : ∀ {B} (f : World → B) id,
    (∀ a w, f (push_wire a w) = f w) → (∀ l s w, f (push_log l s w) = f w) →
    preserves f (receive_loop env ws id script)).
  { intros B f id. apply receive_loop_preserves. }
  assert (Hgreet : ∀ {B} (f : World → B) g, preserves f (greet peer ws g)).
  { intros B f g. apply preserves_reader, greet_reads. }
  split_and!.
  - unfold websocket_ping_status. rewrite (bind_Ok _ _ _ _ _ Hrun).
    apply (endpoint_cleans_up ws _ w w1 Hfresh Hnew Hconn Hcl); try done;
      unfold get_latest_results;
      repeat first [ apply Hloop; reflexivity | apply Hgreet | frame_step ].
  - unfold websocket_dns_status. rewrite (bind_Ok _ _ _ _ _ Hrun).
    apply (endpoint_cleans_up ws _ w w1 Hfresh Hnew Hconn Hcl); try done;
      unfold get_target_hosts;
      repeat first [ apply Hloop; reflexivity | apply Hgreet | frame_step ].
  - intros id rest w0 Hsend. cbn [receive_loop]. unfold receive.
    unfold try_except, mbind, M_bind, raise. simpl.
    unfold send_json, mbind, M_bind. by rewrite Hsend.
Qed.

End Sessions.

Lemma websocket_session_cleans_up_witness :
  reachable World_two_connected ∧
  (ws_plain ∉ clients_of World_two_connected) ∧
  ∃ w',
    websocket_ping_status quiet_env quiet_peer ws_plain short_session World_two_connected
      = Ok tt w' ∧
    active_connections (websocket_manager w')
      = active_connections (websocket_manager World_two_connected) ∧
    clients_of w' = clients_of World_two_connected.
Proof.
  assert (H : reachable World_two_connected).
  { exists 1, [(quiet_env, Connect ws_full); (quiet_env, Connect ws_dns)]. reflexivity. }
  assert (Hnew : ws_plain ∉ clients_of World_two_connected).
  { apply (bool_decide_unpack (_ ∉ _)). vm_compute. exact I. }
  destruct (websocket_session_cleans_up quiet_env quiet_peer ws_plain short_session
              World_two_connected H Hnew) as ((w' & Hrun & Hconn & Hcl & _) & _).
  split; [exact H|]. split; [exact Hnew|]. by exists w'.
Defined.
